(** * The [no-unused-properties] rule of eslint-plugin-vue

    A shallow embedding of [lib/rules/no-unused-properties.js]: the
    rule's state (one properties container per component definition,
    one template container per file), its visitor handlers, the
    finalization pass [reportUnusedProperties] with the deep check of
    the [data] option, and the constant-alias resolution
    [findExpression].

    The rule imports [../utils/property-references] and [../utils];
    what it uses from them is modelled in [PropertyReferences] and in
    the annotated syntax-tree records below. *)

From Stdlib Require Import String Ascii.
From stdpp Require Import gmap strings list fin_maps.

Local Open Scope string_scope.
Local Open Scope list_scope.

#[local] Set Warnings "-register-all".

(* ===================================================================== *)
(** * Property-reference sets *)
(* ===================================================================== *)

Module PropertyReferences.

(** Modelled from the spec: the module [../utils/property-references]
    (type [IPropertyReferences], [mergePropertyReferences] and the
    extractor) is not part of the sources at hand.  A set is a trie
    node keyed by segment name, carrying the wildcard marker
    [hasUnknown], the invocation marker [calls] and the children. *)
Inductive IPropertyReferences : Type :=
  Refs (hasUnknown : bool) (calls : bool)
       (children : gmap string IPropertyReferences).

Definition hasUnknown (r : IPropertyReferences) : bool :=
  let 'Refs u _ _ := r in u.
Definition calls (r : IPropertyReferences) : bool :=
  let 'Refs _ c _ := r in c.
Definition children (r : IPropertyReferences)
  : gmap string IPropertyReferences :=
  let 'Refs _ _ ch := r in ch.

(** Modelled from the spec: the empty, nothing-observed set. *)
Definition never : IPropertyReferences := Refs false false ∅.

(** Modelled from the spec: [fromUnknown()] is a one-node set with
    [hasUnknown = true]. *)
Definition fromUnknown : IPropertyReferences := Refs true false ∅.

(** Modelled from the spec: [fromPath(path, opts)] builds a single
    chain; the deepest node gets [calls] per the options. *)
Fixpoint fromPath (path : list string) (called : bool)
  : IPropertyReferences :=
  match path with
  | [] => Refs false called ∅
  | segment :: rest => Refs false false {[ segment := fromPath rest called ]}
  end.

(** Modelled from the spec: merging two sets at the same path is the
    union of the children, recursively merged, and the logical OR of
    [hasUnknown] and [calls]. *)
Fixpoint mergeTwo (a b : IPropertyReferences) {struct a}
  : IPropertyReferences :=
  match a, b with
  | Refs u1 c1 ch1, Refs u2 c2 ch2 =>
      Refs (u1 || u2) (c1 || c2)
           (union_with (λ x y, Some (mergeTwo x y)) ch1 ch2)
  end.

(** Modelled from the spec: [merge(sets)] is the union of zero, one or
    many sets; zero sets yield the empty set. *)
Definition mergePropertyReferences (references : list IPropertyReferences)
  : IPropertyReferences :=
  foldr mergeTwo never references.

(** Modelled from the spec: [hasProperty(name, { unknownCallAsAny })]
    is true if [name] is a direct child or the set's [hasUnknown] is
    true; with [unknownCallAsAny] a node with [calls = true] at the
    query root also counts as matched. *)
Definition hasProperty (r : IPropertyReferences) (name : string)
           (unknownCallAsAny : bool) : bool :=
  hasUnknown r
  || (unknownCallAsAny && calls r)
  || bool_decide (is_Some (children r !! name)).

(** Modelled from the spec: [getNest(name)] returns the child set for
    [name], or the empty set if absent.  The invariant of the data
    model (a node with [hasUnknown = true] reports every query at or
    below it as matched) makes the nest of a wildcard node a wildcard
    node again. *)
Definition getNest (r : IPropertyReferences) (name : string)
  : IPropertyReferences :=
  if hasUnknown r then fromUnknown
  else default never (children r !! name).

End PropertyReferences.
Export PropertyReferences.

(* ===================================================================== *)
(** * Syntax trees *)
(* ===================================================================== *)

(** Syntax-tree nodes are compared by identity in the rule (keys of the
    container map, [property.parent === vueData.node]); a node identity
    is a number. *)
Definition ASTNode := nat.

(** An identifier node: its name, its identity, and the identities of
    its ancestors, nearest first ([node.parent], then that node's
    parent, and so on up to the program).  Two identifiers with the same
    name are different nodes and may sit in different scopes. *)
Record Ident := {
  ident_name : string;
  ident_node : ASTNode;
  ident_parents : list ASTNode
}.

(** The expressions the rule inspects.  A [Property] of an object
    literal carries its key node, the name [utils.getStaticPropertyName]
    resolves for it ([None] is JavaScript's [null]: a computed key that
    is not a static string) and its value; every other member of an
    object literal is a [SpreadElement]. *)
Inductive Expression : Type :=
| Identifier (id : Ident)
| ObjectExpression (properties : list ObjectMember)
| OtherExpression (type : string)
with ObjectMember : Type :=
| Property (key : ASTNode) (staticName : option string) (value : Expression)
| SpreadElement (argument : Expression).

(** Binding patterns: the left side of a declarator and the parameters
    of a function. *)
Inductive Pattern : Type :=
| PatIdentifier (name : string)
| PatObject (properties : list PatternMember)
| PatOther
with PatternMember : Type :=
| PatProperty (staticName : option string) (value : Pattern)
| PatRest.

(** Scope analysis, as far as [findExpression] reads it: a variable has
    definitions; a definition has a type, the kind of the declaration
    that holds it and the initializer of its declarator. *)
Inductive DefinitionType :=
| DefVariable | DefParameter | DefFunctionName | DefClassName
| DefCatchClause | DefImportBinding | DefImplicitGlobalVariable.

Inductive DeclarationKind := KindVar | KindLet | KindConst.

Record ScopeDefinition := {
  def_type : DefinitionType;
  def_parent_kind : DeclarationKind;
  def_node_init : option Expression
}.

Record Variable_ := { defs : list ScopeDefinition }.

(** Scopes, as far as [getScope] reads them: a scope has a type and
    child scopes (its identity tells scopes apart); the scope manager
    answers [acquire(node, inner)] and lists all scopes, the outermost
    first. *)
Inductive Scope : Type :=
| MkScope (scope_id : nat) (scope_type : string) (childScopes : list Scope).

Definition scope_type (s : Scope) : string :=
  let 'MkScope _ t _ := s in t.

Definition childScopes (s : Scope) : list Scope :=
  let 'MkScope _ _ cs := s in cs.

Record ScopeManager := {
  acquire : ASTNode → bool → option Scope;
  scopes : list Scope
}.

(** A node as [getScope] reads it: its type, its identity and its
    ancestors, nearest first. *)
Record ESNode := {
  es_type : string;
  es_node : ASTNode;
  es_parents : list ASTNode
}.

Definition identifierNode (id : Ident) : ESNode :=
  {| es_type := "Identifier"; es_node := ident_node id;
     es_parents := ident_parents id |}.

(** Comments and tokens of the source text.  [tokensBefore n] lists the
    tokens and comments that precede node [n], nearest first, so that
    [sourceCode.getTokenBefore(x, { includeComments: true })] is the
    head of the list for the node and the next element for a token of
    the list. *)
Inductive TokenType := Line | Block | Shebang | Punctuator | OtherToken.

(** The text of a token is a JavaScript string: a sequence of UTF-16
    code units.  [codeUnits] writes an ASCII text as such a sequence. *)
Definition CodeUnit := N.

Definition codeUnits (s : string) : list CodeUnit :=
  N_of_ascii <$> list_ascii_of_string s.

(** The star that opens the text of a JSDoc comment. *)
Definition star : CodeUnit := 42%N.

Record Token := { tok_type : TokenType; tok_value : list CodeUnit }.

Record SourceCode := { tokensBefore : ASTNode → list Token }.

(** The rule context: the user's options, the scope manager
    ([context.getSourceCode().scopeManager], kept beside the text so that
    [SourceCode] is the tokens and comments alone), the library function
    [eslintUtils.findVariable(scope, node)], taken as it is (its first
    argument is what [getScope] answers, [None] for [undefined]), and
    the source text. *)
Inductive GroupName :=
| props | data | computed | methods | setup | watch | provide | inject
| expose.

Record RuleOptions := {
  opt_groups : option (list GroupName);
  opt_deepData : option bool;
  opt_ignorePublicMembers : option bool
}.

Record RuleContext := {
  options : option RuleOptions;
  scopeManager : ScopeManager;
  eslintUtils_findVariable : option Scope → Ident → option Variable_;
  getSourceCode : SourceCode
}.

#[global] Instance GroupName_eq_dec : EqDecision GroupName.
Proof. solve_decision. Defined.

(** A property node of a component definition: its kind, its value and
    what the rule's helpers read from it ([utils.isProperty] holds of
    it; [prop_handlerValues] is what [utils.iterateWatchHandlerValues]
    yields, each a string literal or not). *)
Inductive PropertyKind := KindInit | KindGet | KindSet.

Record PropertyNode := {
  prop_node : ASTNode;
  prop_kind : PropertyKind;
  prop_value : Expression;
  prop_value_node : ASTNode;
  prop_handlerValues : list (option string)
}.

(** [ComponentPropertyData]: an object entry carries its property node,
    array and type entries do not. *)
Inductive ComponentPropertyType :=
| TypeObject (property : PropertyNode)
| TypeArray
| TypeType.

Record ComponentPropertyData := {
  name : string;
  groupName : GroupName;
  type : ComponentPropertyType;
  node : ASTNode
}.

(** A finding handed to [context.report]. *)
Record Report := {
  report_node : ASTNode;
  messageId : string;
  report_group : string;
  report_name : string
}.

(* --------------------------------------------------------------------- *)
(** ** Constants *)

Definition GROUP_PROPERTY := props.
Definition GROUP_DATA := data.
Definition GROUP_COMPUTED_PROPERTY := computed.
Definition GROUP_METHODS := methods.
Definition GROUP_SETUP := setup.
Definition GROUP_WATCHER := watch.
Definition GROUP_EXPOSE := expose.

Definition PROPERTY_LABEL (g : GroupName) : string :=
  match g with
  | props => "property"
  | data => "data"
  | computed => "computed property"
  | methods => "method"
  | setup => "property returned from `setup()`"
  | watch => "watch"
  | provide => "provide"
  | inject => "inject"
  | expose => "expose"
  end.

(* ===================================================================== *)
(** * Helpers *)
(* ===================================================================== *)

(** [getScope(context, currentNode)]: the scope of the nearest node,
    from [currentNode] upwards, for which the scope manager has one; a
    [function-expression-name] scope stands for its first child scope;
    when no node has a scope the answer is the manager's first scope.
    [None] is JavaScript's [undefined] (no first child, no first
    scope). *)
Fixpoint getScope_from (manager : ScopeManager) (inner : bool)
         (nodes : list ASTNode) : option Scope :=
  match nodes with
  | [] => head (scopes manager)
  | n :: parents =>
      match acquire manager n inner with
      | Some scope =>
          if String.eqb (scope_type scope) "function-expression-name"
          then head (childScopes scope)
          else Some scope
      | None => getScope_from manager inner parents
      end
  end.

Definition getScope (context : RuleContext) (currentNode : ESNode)
  : option Scope :=
  let inner := negb (String.eqb (es_type currentNode) "Program") in
  getScope_from (scopeManager context) inner
    (es_node currentNode :: es_parents currentNode).

(** [findVariable(context, node)]: the library's lookup, started from
    the scope of the node. *)
Definition findVariable (context : RuleContext) (node : Ident)
  : option Variable_ :=
  eslintUtils_findVariable context
    (getScope context (identifierNode node)) node.

Arguments findVariable : simpl never.

(** [findExpression(context, id)].  The JavaScript function calls itself
    on the initializer when that is an identifier again; nothing bounds
    the number of calls, so the embedding counts them down from [fuel]
    and answers [None] when the count is used up. *)
Fixpoint findExpression (fuel : nat) (context : RuleContext) (id : Ident)
  : option Expression :=
  match fuel with
  | O => None
  | S fuel' =>
      match findVariable context id with
      | None => Some (Identifier id)
      | Some variable =>
          match defs variable with
          | [def] =>
              match def_type def, def_parent_kind def, def_node_init def with
              | DefVariable, KindConst, Some init =>
                  match init with
                  | Identifier id' => findExpression fuel' context id'
                  | _ => Some init
                  end
              | _, _, _ => Some (Identifier id)
              end
          | _ => Some (Identifier id)
          end
      end
  end.

(** [eslintUtils.isCommentToken]. *)
Definition isCommentToken (t : Token) : bool :=
  match tok_type t with
  | Line | Block | Shebang => true
  | _ => false
  end.

(** [findJSDocComment(node, sourceCode)], on the tokens that precede the
    node: line comments are stepped over, the first other token decides. *)
Fixpoint findJSDocComment_from (before : list Token) : option Token :=
  match before with
  | [] => None
  | tokenBefore :: earlier =>
      if negb (isCommentToken tokenBefore) then None
      else
        match tok_type tokenBefore with
        | Line => findJSDocComment_from earlier
        | Block =>
            match tok_value tokenBefore with
            | c :: _ => if N.eqb c star then Some tokenBefore else None
            | [] => None
            end
        | _ => None
        end
  end.

Definition findJSDocComment (n : ASTNode) (sourceCode : SourceCode)
  : option Token :=
  findJSDocComment_from (tokensBefore sourceCode n).

Definition isFunctionExpression (e : Expression) : bool :=
  match e with
  | OtherExpression t =>
      String.eqb t "FunctionExpression"
      || String.eqb t "ArrowFunctionExpression"
  | _ => false
  end.

(** [getJSDocFromProperty(node, sourceCode)]. *)
Definition getJSDocFromProperty (p : PropertyNode) (sourceCode : SourceCode)
  : option Token :=
  match findJSDocComment (prop_node p) sourceCode with
  | Some jsdoc => Some jsdoc
  | None =>
      if isFunctionExpression (prop_value p)
      then findJSDocComment (prop_value_node p) sourceCode
      else None
  end.

(** The regular expression that [isPublicProperty] tests on a comment's
    text: the tag [@public], preceded by the start of the text, a white
    space or a star, and followed by a word boundary.  The white space
    of a regular expression is the language's white space and line
    terminators: U+0009 to U+000D, U+0020, U+00A0, U+1680, U+2000 to
    U+200A, U+2028, U+2029, U+202F, U+205F, U+3000 and U+FEFF.  The
    boundary after the final [c] is the end of the text or a character
    outside [A-Za-z0-9_].  Every character the expression names is a
    single code unit and no half of a surrogate pair is one of them, so
    the match by code points (the [u] flag) is the match by code
    units. *)
Definition isWhiteSpace (c : CodeUnit) : bool :=
  ((9 <=? c) && (c <=? 13) || (c =? 32) || (c =? 160) || (c =? 5760)
   || (8192 <=? c) && (c <=? 8202) || (c =? 8232) || (c =? 8233)
   || (c =? 8239) || (c =? 8287) || (c =? 12288) || (c =? 65279))%N.

Definition isWordChar (c : CodeUnit) : bool :=
  ((48 <=? c) && (c <=? 57) || (65 <=? c) && (c <=? 90)
   || (97 <=? c) && (c <=? 122) || (c =? 95))%N.

Definition publicTag : list CodeUnit := codeUnits "@public".

Fixpoint matchLiteral (lit s : list CodeUnit) : option (list CodeUnit) :=
  match lit, s with
  | [], _ => Some s
  | a :: lit', b :: s' => if N.eqb a b then matchLiteral lit' s' else None
  | _ :: _, [] => None
  end.

Definition publicTagHere (s : list CodeUnit) : bool :=
  match matchLiteral publicTag s with
  | Some [] => true
  | Some (c :: _) => negb (isWordChar c)
  | None => false
  end.

Fixpoint publicTagFrom (boundaryBefore : bool) (s : list CodeUnit) : bool :=
  (boundaryBefore && publicTagHere s)
  || match s with
     | [] => false
     | c :: rest => publicTagFrom (isWhiteSpace c || N.eqb c star) rest
     end.

Definition testPublicTag (s : list CodeUnit) : bool := publicTagFrom true s.

(** [isPublicProperty(node, sourceCode)]. *)
Definition isPublicProperty (p : PropertyNode) (sourceCode : SourceCode)
  : bool :=
  match getJSDocFromProperty p sourceCode with
  | Some jsdoc => testPublicTag (tok_value jsdoc)
  | None => false
  end.

(** [isPublicMember(property, sourceCode)]: props do not support
    [@public]. *)
Definition isPublicMember (property : ComponentPropertyData)
           (sourceCode : SourceCode) : bool :=
  match type property with
  | TypeObject p =>
      if decide (groupName property = props) then false
      else isPublicProperty p sourceCode
  | _ => false
  end.

(* ===================================================================== *)
(** * The property-reference extractor *)
(* ===================================================================== *)

(** What an access expression amounts to for the extractor: a chain of
    literal member names from the access root, read or invoked at its
    end, or an access that cannot be resolved to literal names (a
    computed key, a receiver that escapes whole). *)
Inductive AccessSite :=
| LiteralAccess (path : list string) (called : bool)
| UnresolvedAccess.

Module Extractor.

(** Modelled from the spec: the extractor that
    [definePropertyReferenceExtractor(context)] returns is outside the
    sources at hand.  A general access expression gives the chain of
    its literal member names, and falls back to [fromUnknown()] when
    it cannot be resolved. *)
Definition extractFromAccess (site : AccessSite) : IPropertyReferences :=
  match site with
  | LiteralAccess path called => fromPath path called
  | UnresolvedAccess => fromUnknown
  end.

(** Modelled from the spec: an expression (the [this] of a component,
    a template expression container, the style bindings) yields the
    union of the sets of the access chains found in it. *)
Definition extractFromSites (sites : list AccessSite) : IPropertyReferences :=
  mergePropertyReferences (extractFromAccess <$> sites).

(** Modelled from the spec: a function parameter pattern.  A plain
    name gives [fromUnknown()]; a destructuring pattern gives one set
    per extracted key, unioned; a rest element (and any shape that is
    not recognised) gives [fromUnknown()]. *)
Fixpoint extractFromPattern (pattern : Pattern) : IPropertyReferences :=
  match pattern with
  | PatIdentifier _ => fromUnknown
  | PatObject members =>
      mergePropertyReferences
        ((fix each (ms : list PatternMember) : list IPropertyReferences :=
            match ms with
            | [] => []
            | PatProperty (Some key) value :: rest =>
                Refs false false {[ key := extractFromPattern value ]}
                :: each rest
            | PatProperty None _ :: rest => fromUnknown :: each rest
            | PatRest :: rest => fromUnknown :: each rest
            end) members)
  | PatOther => fromUnknown
  end.

(** Modelled from the spec: the parameter at [paramIndex], when
    present, is extracted as a pattern; an absent parameter observes
    nothing. *)
Definition extractFromFunctionParam (params : list Pattern)
           (paramIndex : nat) : IPropertyReferences :=
  match params !! paramIndex with
  | Some pattern => extractFromPattern pattern
  | None => never
  end.

(** Modelled from the spec: a literal name is a single-segment path. *)
Definition extractFromName (name : string) : IPropertyReferences :=
  fromPath [name] false.

(** Splitting a dotted path such as [user.address.city] into its
    segments. *)
Fixpoint splitPath (current path : string) : list string :=
  match path with
  | EmptyString => [current]
  | String c rest =>
      if Ascii.eqb c "."%char
      then current :: splitPath EmptyString rest
      else splitPath (current +:+ String c EmptyString) rest
  end.

(** Modelled from the spec: a literal path is built with [fromPath]. *)
Definition extractFromPath (pathString : string) : IPropertyReferences :=
  fromPath (splitPath EmptyString pathString) false.

(** Modelled from the spec: a name literal (a watcher target given as
    a quoted string) is a single-segment literal path; a handler value
    that is not a string names nothing. *)
Definition extractFromNameLiteral (literal : option string)
  : IPropertyReferences :=
  match literal with
  | Some referenceName => extractFromName referenceName
  | None => never
  end.

End Extractor.
Export Extractor.

(* ===================================================================== *)
(** * The rule's state *)
(* ===================================================================== *)

Record TemplatePropertiesContainer := {
  tpl_propertyReferences : list IPropertyReferences;
  refNames : gset string
}.

Record VueComponentPropertiesContainer := {
  properties : list ComponentPropertyData;
  propertyReferences : list IPropertyReferences;
  propertyReferencesForProps : list IPropertyReferences
}.

(** The rule's mutable state: the template container, the map from
    component definition nodes to their containers (a JavaScript [Map],
    iterated in insertion order), the findings handed to
    [context.report] so far, and the number of times
    [reportUnusedProperties] has been entered. *)
Record RuleState := {
  templatePropertiesContainer : TemplatePropertiesContainer;
  vueComponentPropertiesContainerMap :
    list (ASTNode * VueComponentPropertiesContainer);
  reports : list Report;
  finalizations : nat
}.

Definition initialState : RuleState :=
  {| templatePropertiesContainer :=
       {| tpl_propertyReferences := []; refNames := ∅ |};
     vueComponentPropertiesContainerMap := [];
     reports := [];
     finalizations := 0 |}.

Definition emptyContainer : VueComponentPropertiesContainer :=
  {| properties := []; propertyReferences := [];
     propertyReferencesForProps := [] |}.

(** [vueComponentPropertiesContainerMap.get(node)]. *)
Fixpoint mapGet (m : list (ASTNode * VueComponentPropertiesContainer))
         (n : ASTNode) : option VueComponentPropertiesContainer :=
  match m with
  | [] => None
  | (k, c) :: rest => if decide (k = n) then Some c else mapGet rest n
  end.

(** Updating the container of [n] in place; a node that is not yet a key
    gets a fresh container at the end of the map first, as
    [getVueComponentPropertiesContainer] does. *)
Fixpoint mapUpdate (m : list (ASTNode * VueComponentPropertiesContainer))
         (n : ASTNode)
         (f : VueComponentPropertiesContainer → VueComponentPropertiesContainer)
  : list (ASTNode * VueComponentPropertiesContainer) :=
  match m with
  | [] => [(n, f emptyContainer)]
  | (k, c) :: rest =>
      if decide (k = n) then (k, f c) :: rest
      else (k, c) :: mapUpdate rest n f
  end.

Definition addProperties (ps : list ComponentPropertyData)
           (c : VueComponentPropertiesContainer) :=
  {| properties := properties c ++ ps;
     propertyReferences := propertyReferences c;
     propertyReferencesForProps := propertyReferencesForProps c |}.

Definition addPropertyReferences (rs : list IPropertyReferences)
           (c : VueComponentPropertiesContainer) :=
  {| properties := properties c;
     propertyReferences := propertyReferences c ++ rs;
     propertyReferencesForProps := propertyReferencesForProps c |}.

Definition addPropertyReferencesForProps (rs : list IPropertyReferences)
           (c : VueComponentPropertiesContainer) :=
  {| properties := properties c;
     propertyReferences := propertyReferences c;
     propertyReferencesForProps := propertyReferencesForProps c ++ rs |}.

Definition withContainer (n : ASTNode)
           (f : VueComponentPropertiesContainer → VueComponentPropertiesContainer)
           (st : RuleState) : RuleState :=
  {| templatePropertiesContainer := templatePropertiesContainer st;
     vueComponentPropertiesContainerMap :=
       mapUpdate (vueComponentPropertiesContainerMap st) n f;
     reports := reports st;
     finalizations := finalizations st |}.

Definition withTemplate
           (f : TemplatePropertiesContainer → TemplatePropertiesContainer)
           (st : RuleState) : RuleState :=
  {| templatePropertiesContainer := f (templatePropertiesContainer st);
     vueComponentPropertiesContainerMap :=
       vueComponentPropertiesContainerMap st;
     reports := reports st;
     finalizations := finalizations st |}.

Definition addTemplateReferences (rs : list IPropertyReferences)
           (t : TemplatePropertiesContainer) :=
  {| tpl_propertyReferences := tpl_propertyReferences t ++ rs;
     refNames := refNames t |}.

Definition addRefName (s : string) (t : TemplatePropertiesContainer) :=
  {| tpl_propertyReferences := tpl_propertyReferences t;
     refNames := {[ s ]} ∪ refNames t |}.

(* ===================================================================== *)
(** * What the visitors receive *)
(* ===================================================================== *)

(** The ancestors of a [defineProps] call, as [onDefinePropsEnter] reads
    them: a call (is the child its first argument, the callee's name
    when the callee is an identifier, the call's own parent), a
    variable declarator (is the child its initializer, its binding
    pattern), or anything else. *)
Inductive ParentNode :=
| ParentCall (firstArgumentIsChild : bool) (calleeName : option string)
             (parent : option ParentNode)
| ParentDeclarator (initIsChild : bool) (id : Pattern)
| ParentOther.

Record DefinePropsNode := {
  dp_node : ASTNode;
  dp_parent : option ParentNode
}.

Record ComponentProp := {
  propName : option string;
  prop_type : ComponentPropertyType;
  prop_key : ASTNode
}.

(** A component definition object, with the entries that
    [utils.iterateProperties] finds in it over all groups, in the order
    it yields them. *)
Record VueObjectNode := {
  vo_node : ASTNode;
  vo_declared : list ComponentPropertyData
}.

Record VueObjectData := {
  vd_node : ASTNode;
  functional : bool
}.

(** What [getParentProperty] answers for a node: the property whose
    value the node is, with its static name, the object expression that
    holds it and what [getParentProperty] answers for that object. *)
Inductive PropertyLink :=
| Link (staticName : option string) (parent : ASTNode)
       (parentProperty : option PropertyLink).

Inductive ScriptEvent :=
| OnDefinePropsEnter (n : DefinePropsNode) (ps : list ComponentProp)
| OnVueObjectEnter (n : VueObjectNode)
| OnFunctionWithParams (params : list Pattern)
                       (parentProperty : option PropertyLink)
                       (vueData : VueObjectData)
| OnSetupFunctionEnter (params : list Pattern) (vueData : VueObjectData)
| OnRenderFunctionEnter (params : list Pattern) (vueData : VueObjectData)
| OnThisOrIdentifier (isThis : bool) (site : AccessSite)
                     (vueData : VueObjectData).

(** The template tree. *)
Inductive VAttribute :=
| VPlainAttribute (keyName : string) (value : option string)
| VDirective (value : option (list AccessSite)).

Inductive VNode :=
| VElement (attributes : list VAttribute) (children : list VNode)
| VExpressionContainer (sites : list AccessSite)
| VText.

Inductive VParentType := VDocumentFragment | VElementParent.

Inductive TemplateEvent :=
| OnVExpressionContainer (sites : list AccessSite)
| OnVAttribute (keyName : string) (value : option string)
| OnVElementExit (parentType : VParentType).

(** One file: the visits of the script in traversal order, what
    [Program:exit] sees (the style variables context, the template
    body), and the root element of the template when there is one. *)
Record File := {
  script : list ScriptEvent;
  styleVars : option (list AccessSite);
  templateBody : option (list VAttribute * list VNode)
}.

(* ===================================================================== *)
(** * The rule *)
(* ===================================================================== *)

(** Running a list of steps that may each fail to return, in order. *)
Fixpoint concatM {A B} (f : A → option (list B)) (l : list A)
  : option (list B) :=
  match l with
  | [] => Some []
  | x :: rest =>
      match f x with
      | None => None
      | Some here =>
          match concatM f rest with
          | None => None
          | Some later => Some (here ++ later)
          end
      end
  end.

Section Rule.

(** [create(context)]. *)
Variable context : RuleContext.

Definition groups : list GroupName :=
  match options context with
  | Some o => default [GROUP_PROPERTY] (opt_groups o)
  | None => [GROUP_PROPERTY]
  end.

Definition deepData : bool :=
  match options context with
  | Some o => default false (opt_deepData o)
  | None => false
  end.

Definition ignorePublicMembers : bool :=
  match options context with
  | Some o => default false (opt_ignorePublicMembers o)
  | None => false
  end.

Definition groups_has (g : GroupName) : bool := bool_decide (g ∈ groups).

(** Modelled from the spec: [utils.iterateProperties(node, groups)] is
    outside the sources at hand; it yields the declared members of the
    definition whose group participates. *)
Definition iterateProperties (n : VueObjectNode) (gs : list GroupName)
  : list ComponentPropertyData :=
  filter (λ p, groupName p ∈ gs) (vo_declared n).

Definition unusedReport (n : ASTNode) (group name : string) : Report :=
  {| report_node := n; messageId := "unused";
     report_group := group; report_name := name |}.

(** [verifyDataOptionDeepProperties(segments, propertyValue,
    propertyReferences)].  [None] is a call that does not return
    within [fuel] nested calls. *)
Fixpoint verifyDataOptionDeepProperties (fuel : nat)
         (segments : list string) (propertyValue : Expression)
         (propertyReferences : IPropertyReferences)
  : option (list Report) :=
  match fuel with
  | O => None
  | S fuel' =>
      let targetExpr :=
        match propertyValue with
        | Identifier id => findExpression fuel' context id
        | _ => Some propertyValue
        end in
      match targetExpr with
      | None => None
      | Some (ObjectExpression members) =>
          concatM
            (λ prop,
               match prop with
               | SpreadElement _ => Some []
               | Property key None _ => Some []
               | Property key (Some name) value =>
                   if negb (hasProperty propertyReferences name true)
                   then
                     Some [unusedReport key (PROPERTY_LABEL data)
                             (String.concat "." (segments ++ [name]))]
                   else
                     verifyDataOptionDeepProperties fuel'
                       (segments ++ [name]) value
                       (getNest propertyReferences name)
               end)
            members
      | Some _ => Some []
      end
  end.

(** The body of the inner loop of [reportUnusedProperties], for one
    declared member. *)
Definition reportProperty (fuel : nat)
           (template : TemplatePropertiesContainer)
           (propertyReferences propertyReferencesForProps
              : IPropertyReferences)
           (property : ComponentPropertyData) : option (list Report) :=
  if bool_decide (groupName property = props)
     && hasProperty propertyReferencesForProps (name property) false
  then Some []
  else if bool_decide (groupName property = setup)
          && bool_decide (name property ∈ refNames template)
  then Some []
  else if ignorePublicMembers
          && isPublicMember property (getSourceCode context)
  then Some []
  else if hasProperty propertyReferences (name property) false
  then
    match type property with
    | TypeObject p =>
        if deepData && bool_decide (groupName property = data)
        then verifyDataOptionDeepProperties fuel [name property]
               (prop_value p)
               (getNest propertyReferences (name property))
        else Some []
    | _ => Some []
    end
  else
    Some [unusedReport (node property)
            (PROPERTY_LABEL (groupName property)) (name property)].

(** The body of the outer loop, for one container. *)
Definition reportContainer (fuel : nat)
           (template : TemplatePropertiesContainer)
           (container : VueComponentPropertiesContainer)
  : option (list Report) :=
  let propertyReferences :=
    mergePropertyReferences
      (propertyReferences container ++ tpl_propertyReferences template) in
  let propertyReferencesForProps :=
    mergePropertyReferences (propertyReferencesForProps container) in
  concatM
    (reportProperty fuel template propertyReferences
       propertyReferencesForProps)
    (properties container).

(** The findings of one pass of [reportUnusedProperties()] over the
    state. *)
Definition unusedProperties (fuel : nat) (st : RuleState)
  : option (list Report) :=
  concatM (λ entry, reportContainer fuel (templatePropertiesContainer st)
                      entry.2)
          (vueComponentPropertiesContainerMap st).

(** [reportUnusedProperties()]: the pass is entered, and its findings
    go to [context.report]. *)
Definition reportUnusedProperties (fuel : nat) (st : RuleState)
  : option RuleState :=
  match unusedProperties fuel st with
  | None => None
  | Some found =>
      Some {| templatePropertiesContainer := templatePropertiesContainer st;
              vueComponentPropertiesContainerMap :=
                vueComponentPropertiesContainerMap st;
              reports := reports st ++ found;
              finalizations := S (finalizations st) |}
  end.

(* ------------------------------------------------------------------- *)
(** ** The script visitor *)

(** [onDefinePropsEnter(node, props)]. *)
Definition definedProperties (ps : list ComponentProp)
  : list ComponentPropertyData :=
  omap (λ prop,
          match propName prop with
          | None => None
          | Some "" => None
          | Some n =>
              Some {| name := n; groupName := props;
                      type := prop_type prop; node := prop_key prop |}
          end) ps.

Definition onDefinePropsEnter (n : DefinePropsNode)
           (ps : list ComponentProp) (st : RuleState) : RuleState :=
  if negb (groups_has props) then st
  else
    let st1 := withContainer (dp_node n)
                 (addProperties (definedProperties ps)) st in
    let targetParent :=
      match dp_parent n with
      | Some (ParentCall true (Some "withDefaults") outer) => outer
      | other => other
      end in
    match targetParent with
    | Some (ParentDeclarator true pattern) =>
        withContainer (dp_node n)
          (addPropertyReferencesForProps [extractFromPattern pattern]) st1
    | _ => st1
    end.

(** The references that one watcher or expose entry contributes in
    [onVueObjectEnter]. *)
Definition watcherOrExposeReferences (entry : ComponentPropertyData)
  : list IPropertyReferences :=
  if decide (groupName entry = GROUP_WATCHER) then
    extractFromPath (name entry)
    :: match type entry with
       | TypeObject property =>
           match prop_kind property with
           | KindInit =>
               extractFromNameLiteral <$> prop_handlerValues property
           | _ => []
           end
       | _ => []
       end
  else if decide (groupName entry = GROUP_EXPOSE) then
    [extractFromName (name entry)]
  else [].

(** [onVueObjectEnter(node)]. *)
Definition onVueObjectEnter (n : VueObjectNode) (st : RuleState)
  : RuleState :=
  withContainer (vo_node n)
    (λ container,
       addProperties (iterateProperties n groups)
         (addPropertyReferences
            (concat (watcherOrExposeReferences <$>
                       iterateProperties n [GROUP_WATCHER; GROUP_EXPOSE]))
            container))
    st.

(** The guard of the handler of
    [ObjectExpression > Property > :function[params.length>0]]: is the
    function the [data] option, a computed property or the getter of
    one. *)
Definition takesComponentAsParameter
           (parentProperty : option PropertyLink) (vueData : VueObjectData)
  : bool :=
  match parentProperty with
  | None => false
  | Some (Link propertyName propertyParent parentLink) =>
      if decide (propertyParent = vd_node vueData) then
        bool_decide (propertyName = Some "data")
      else
        match parentLink with
        | None => false
        | Some (Link parentName parentParent parentParentLink) =>
            if decide (parentParent = vd_node vueData) then
              bool_decide (parentName = Some "computed")
            else
              match parentParentLink with
              | None => false
              | Some (Link parentParentName parentParentParent _) =>
                  if decide (parentParentParent = vd_node vueData) then
                    bool_decide (parentParentName = Some "computed")
                    && bool_decide (propertyName = Some "get")
                  else false
              end
        end
  end.

Definition onFunctionWithParams (params : list Pattern)
           (parentProperty : option PropertyLink) (vueData : VueObjectData)
           (st : RuleState) : RuleState :=
  if takesComponentAsParameter parentProperty vueData then
    withContainer (vd_node vueData)
      (addPropertyReferences [extractFromFunctionParam params 0]) st
  else st.

(** [onSetupFunctionEnter(node, vueData)]. *)
Definition onSetupFunctionEnter (params : list Pattern)
           (vueData : VueObjectData) (st : RuleState) : RuleState :=
  withContainer (vd_node vueData)
    (addPropertyReferencesForProps [extractFromFunctionParam params 0]) st.

(** [onRenderFunctionEnter(node, vueData)]. *)
Definition onRenderFunctionEnter (params : list Pattern)
           (vueData : VueObjectData) (st : RuleState) : RuleState :=
  let st1 :=
    withContainer (vd_node vueData)
      (addPropertyReferencesForProps [extractFromFunctionParam params 0])
      st in
  if functional vueData then
    withContainer (vd_node vueData)
      (addPropertyReferencesForProps
         [getNest (extractFromFunctionParam params 1) "props"])
      st1
  else st1.

(** The handler of [ThisExpression, Identifier]. *)
Definition onThisOrIdentifier (isThis : bool) (site : AccessSite)
           (vueData : VueObjectData) (st : RuleState) : RuleState :=
  if negb isThis then st
  else
    withContainer (vd_node vueData)
      (addPropertyReferences [extractFromAccess site]) st.

Definition scriptVisitor (ev : ScriptEvent) (st : RuleState) : RuleState :=
  match ev with
  | OnDefinePropsEnter n ps => onDefinePropsEnter n ps st
  | OnVueObjectEnter n => onVueObjectEnter n st
  | OnFunctionWithParams params parentProperty vueData =>
      onFunctionWithParams params parentProperty vueData st
  | OnSetupFunctionEnter params vueData =>
      onSetupFunctionEnter params vueData st
  | OnRenderFunctionEnter params vueData =>
      onRenderFunctionEnter params vueData st
  | OnThisOrIdentifier isThis site vueData =>
      onThisOrIdentifier isThis site vueData st
  end.

(** The handler of [Program:exit]. *)
Definition onProgramExit (fuel : nat)
           (styleVariables : option (list AccessSite))
           (hasTemplateBody : bool) (st : RuleState) : option RuleState :=
  let st1 :=
    match styleVariables with
    | Some sites =>
        withTemplate (addTemplateReferences [extractFromSites sites]) st
    | None => st
    end in
  if negb hasTemplateBody then reportUnusedProperties fuel st1
  else Some st1.

(* ------------------------------------------------------------------- *)
(** ** The template visitor *)

Definition templateVisitor (fuel : nat) (ev : TemplateEvent)
           (st : RuleState) : option RuleState :=
  match ev with
  | OnVExpressionContainer sites =>
      Some (withTemplate (addTemplateReferences [extractFromSites sites])
              st)
  | OnVAttribute keyName value =>
      match value with
      | Some v =>
          if bool_decide (keyName = "ref")
          then Some (withTemplate (addRefName v) st)
          else Some st
      | None => Some st
      end
  | OnVElementExit parentType =>
      match parentType with
      | VElementParent => Some st
      | _ => reportUnusedProperties fuel st
      end
  end.
End Rule.

(* ===================================================================== *)
(** * One file's traversal *)
(* ===================================================================== *)

(** Modelled from the spec: the traversal glue
    ([utils.defineTemplateBodyVisitor] and the parser services behind
    it) is outside the sources at hand.  The source tree and the
    template tree are each traversed once, depth-first, in document
    order; the template's visits follow the [Program:exit] of the
    script.  An element's parent is the document fragment for the
    template body and an element for every element below it. *)
Definition attributeEvents (a : VAttribute) : list TemplateEvent :=
  match a with
  | VPlainAttribute keyName value => [OnVAttribute keyName value]
  | VDirective (Some sites) => [OnVExpressionContainer sites]
  | VDirective None => []
  end.

Fixpoint traverseTemplate (parentType : VParentType) (n : VNode)
  : list TemplateEvent :=
  match n with
  | VElement attributes children =>
      concat (attributeEvents <$> attributes)
      ++ (fix below (cs : list VNode) : list TemplateEvent :=
            match cs with
            | [] => []
            | c :: rest => traverseTemplate VElementParent c ++ below rest
            end) children
      ++ [OnVElementExit parentType]
  | VExpressionContainer sites => [OnVExpressionContainer sites]
  | VText => []
  end.

Definition templateEvents (f : File) : list TemplateEvent :=
  match templateBody f with
  | Some (attributes, children) =>
      traverseTemplate VDocumentFragment (VElement attributes children)
  | None => []
  end.

Fixpoint runTemplate (context : RuleContext) (fuel : nat)
         (events : list TemplateEvent) (st : RuleState) : option RuleState :=
  match events with
  | [] => Some st
  | ev :: rest =>
      match templateVisitor context fuel ev st with
      | None => None
      | Some st' => runTemplate context fuel rest st'
      end
  end.

Definition runScript (context : RuleContext) (events : list ScriptEvent)
           (st : RuleState) : RuleState :=
  foldl (λ s ev, scriptVisitor context ev s) st events.

(** The rule on one file, from a fresh state. *)
Definition runFile (context : RuleContext) (fuel : nat) (f : File)
  : option RuleState :=
  match onProgramExit context fuel (styleVars f)
          (bool_decide (is_Some (templateBody f)))
          (runScript context (script f) initialState) with
  | None => None
  | Some st => runTemplate context fuel (templateEvents f) st
  end.

(* ===================================================================== *)
(** * Specification-side definitions *)
(* ===================================================================== *)

(** Sequencing two steps that may each fail to return. *)
Definition appM {A} (a b : option (list A)) : option (list A) :=
  match a, b with
  | Some x, Some y => Some (x ++ y)
  | _, _ => None
  end.

(** The two-phase reading of the rule: everything a file's visits
    accumulate, with no finalization pass in between. *)
Definition accumulateTemplate (ev : TemplateEvent) (st : RuleState)
  : RuleState :=
  match ev with
  | OnVExpressionContainer sites =>
      withTemplate (addTemplateReferences [extractFromSites sites]) st
  | OnVAttribute keyName (Some v) =>
      if bool_decide (keyName = "ref") then withTemplate (addRefName v) st
      else st
  | OnVAttribute _ None => st
  | OnVElementExit _ => st
  end.

(** The template visits whose handler runs the finalization pass: the
    exit of an element whose parent is not an element. *)
Definition firesFinalization (ev : TemplateEvent) : bool :=
  match ev with
  | OnVElementExit VDocumentFragment => true
  | _ => false
  end.

(** The state invariant of a rule that tracks the [props] group only:
    every collected member is an input. *)
Definition onlyInputs (st : RuleState) : Prop :=
  Forall (λ entry : ASTNode * VueComponentPropertiesContainer,
            Forall (λ q, groupName q = props) (properties entry.2))
         (vueComponentPropertiesContainerMap st).

Definition accumulated (context : RuleContext) (f : File) : RuleState :=
  let afterScript := runScript context (script f) initialState in
  let afterStyle :=
    match styleVars f with
    | Some sites =>
        withTemplate (addTemplateReferences [extractFromSites sites])
          afterScript
    | None => afterScript
    end in
  foldl (λ s ev, accumulateTemplate ev s) afterStyle (templateEvents f).

(** The deep check as the specification words it, on an object literal
    whose nested values are literals too: a sub-entry that the nest does
    not cover is one finding and is not descended into, a covered one is
    walked in turn. *)
Fixpoint deepUnused (segments : list string) (value : Expression)
         (references : IPropertyReferences) : list Report :=
  match value with
  | ObjectExpression members =>
      (fix walk (ms : list ObjectMember) : list Report :=
         match ms with
         | [] => []
         | Property key (Some k) v :: rest =>
             (if hasProperty references k true
              then deepUnused (segments ++ [k]) v (getNest references k)
              else [unusedReport key (PROPERTY_LABEL data)
                      (String.concat "." (segments ++ [k]))])
             ++ walk rest
         | _ :: rest => walk rest
         end) members
  | _ => []
  end.

(** No property value anywhere in the expression is a bare name. *)
Fixpoint aliasFree (e : Expression) : bool :=
  match e with
  | Identifier _ => false
  | ObjectExpression members =>
      (fix all (ms : list ObjectMember) : bool :=
         match ms with
         | [] => true
         | Property _ _ v :: rest => aliasFree v && all rest
         | SpreadElement _ :: rest => all rest
         end) members
  | OtherExpression _ => true
  end.

(** The nesting depth of object literals. *)
Fixpoint depth (e : Expression) : nat :=
  match e with
  | ObjectExpression members =>
      S ((fix deepest (ms : list ObjectMember) : nat :=
            match ms with
            | [] => 0
            | Property _ _ v :: rest => Nat.max (depth v) (deepest rest)
            | SpreadElement _ :: rest => deepest rest
            end) members)
  | _ => 0
  end.

(** The members of an object literal that the deep check passes over:
    spread elements and properties without a static name. *)
Definition skippedMember (m : ObjectMember) : bool :=
  match m with
  | SpreadElement _ => true
  | Property _ None _ => true
  | Property _ (Some _) _ => false
  end.

(** [ConstAlias context id init]: the identifier resolves, from its own
    scope, to a variable with a single definition, a [const] declarator
    initialized with [init]. *)
Definition ConstAlias (context : RuleContext) (id : Ident)
           (init : Expression) : Prop :=
  ∃ variable def,
    findVariable context id = Some variable
    ∧ defs variable = [def]
    ∧ def_type def = DefVariable
    ∧ def_parent_kind def = KindConst
    ∧ def_node_init def = Some init.

Definition isIdentifier (e : Expression) : bool :=
  match e with Identifier _ => true | _ => false end.

(** [Resolves context id links e]: from [id], a chain of [links] const
    aliases whose initializers are names again leads to the expression
    [e], which is the first initializer that is not a name, or the first
    name that is not a const alias. *)
Inductive Resolves (context : RuleContext)
  : Ident → nat → Expression → Prop :=
| resolves_name id :
    (∀ init, ¬ ConstAlias context id init) →
    Resolves context id 0 (Identifier id)
| resolves_init id init :
    ConstAlias context id init → isIdentifier init = false →
    Resolves context id 0 init
| resolves_link id id' links e :
    ConstAlias context id (Identifier id') →
    Resolves context id' links e →
    Resolves context id (S links) e.

(** What one member of the object literal contributes to the findings of
    [verifyDataOptionDeepProperties]: the body of its loop, with the
    nested call made on [fuel]. *)
Definition verifyMember (context : RuleContext) (fuel : nat)
           (segments : list string) (references : IPropertyReferences)
           (prop : ObjectMember) : option (list Report) :=
  match prop with
  | SpreadElement _ => Some []
  | Property key None _ => Some []
  | Property key (Some name) value =>
      if negb (hasProperty references name true)
      then Some [unusedReport key (PROPERTY_LABEL data)
                   (String.concat "." (segments ++ [name]))]
      else verifyDataOptionDeepProperties context fuel
             (segments ++ [name]) value (getNest references name)
  end.

(* ===================================================================== *)
(** * Example inputs *)
(* ===================================================================== *)

Module Examples.

Definition noComments : SourceCode := {| tokensBefore := λ _, [] |}.

Definition noVariables : string → option Variable_ := λ _, None.

(** A program whose only scope is the module scope, at the program node
    0: every identifier is looked up there, by its name. *)
Definition moduleScope : Scope := MkScope 0 "module" [].

Definition oneScope : ScopeManager :=
  {| acquire := λ n _, if Nat.eqb n 0 then Some moduleScope else None;
     scopes := [moduleScope] |}.

Definition lookupByName (table : string → option Variable_)
  : option Scope → Ident → option Variable_ :=
  λ scope node,
    match scope with
    | Some _ => table (ident_name node)
    | None => None
    end.

Definition contextWith (o : option RuleOptions)
           (table : string → option Variable_) : RuleContext :=
  {| options := o; scopeManager := oneScope;
     eslintUtils_findVariable := lookupByName table;
     getSourceCode := noComments |}.

(** The identifier [name] at node [n], directly under the program. *)
Definition ident (n : ASTNode) (name : string) : Ident :=
  {| ident_name := name; ident_node := n; ident_parents := [0] |}.

(** No options at all. *)
Definition defaultContext : RuleContext := contextWith None noVariables.

(** [{ groups: ['data'], deepData: true }]. *)
Definition deepDataOptions : option RuleOptions :=
  Some {| opt_groups := Some [data]; opt_deepData := Some true;
          opt_ignorePublicMembers := None |}.

Definition deepContext : RuleContext :=
  contextWith deepDataOptions noVariables.

(** [{ deepData: true }]: options without a [groups] entry. *)
Definition deepOnlyContext : RuleContext :=
  contextWith
    (Some {| opt_groups := None; opt_deepData := Some true;
             opt_ignorePublicMembers := None |})
    noVariables.

Definition literal : Expression := OtherExpression "Literal".

Definition objectProperty (n : ASTNode) (value : Expression)
  : PropertyNode :=
  {| prop_node := n; prop_kind := KindInit; prop_value := value;
     prop_value_node := S n; prop_handlerValues := [] |}.

Definition component (n : ASTNode) : VueObjectData :=
  {| vd_node := n; functional := false |}.

(** [props: ['size'], setup({ size }) { ... }]. *)
Definition sizeMember : ComponentPropertyData :=
  {| name := "size"; groupName := props; type := TypeArray; node := 10 |}.

Definition sizeFile : File :=
  {| script :=
       [OnVueObjectEnter {| vo_node := 1; vo_declared := [sizeMember] |};
        OnSetupFunctionEnter
          [PatObject [PatProperty (Some "size") (PatIdentifier "size")]]
          (component 1)];
     styleVars := None;
     templateBody := None |}.

(** [data() { return { profile: { name: 'x', age: 1 } } }] with a method
    that reads [this.profile.name]. *)
Definition profileValue : Expression :=
  ObjectExpression
    [Property 21 (Some "name") literal; Property 22 (Some "age") literal].

Definition profileMember : ComponentPropertyData :=
  {| name := "profile"; groupName := data;
     type := TypeObject (objectProperty 20 profileValue); node := 20 |}.

Definition profileFile : File :=
  {| script :=
       [OnVueObjectEnter {| vo_node := 1; vo_declared := [profileMember] |};
        OnThisOrIdentifier true (LiteralAccess ["profile"; "name"] false)
          (component 1)];
     styleVars := None;
     templateBody := None |}.

Definition constant (init : Expression) : Variable_ :=
  {| defs := [ {| def_type := DefVariable; def_parent_kind := KindConst;
                  def_node_init := Some init |} ] |}.

(** [const a = b; const b = { x: 1 }]. *)
Definition chainScope (id : string) : option Variable_ :=
  if String.eqb id "a" then Some (constant (Identifier (ident 51 "b")))
  else if String.eqb id "b"
  then Some (constant (ObjectExpression [Property 31 (Some "x") literal]))
  else None.

Definition chainContext : RuleContext :=
  contextWith deepDataOptions chainScope.

(** [const a = b; const b = a]. *)
Definition cyclicScope (id : string) : option Variable_ :=
  if String.eqb id "a" then Some (constant (Identifier (ident 51 "b")))
  else if String.eqb id "b"
  then Some (constant (Identifier (ident 52 "a")))
  else None.

Definition cyclicContext : RuleContext :=
  contextWith deepDataOptions cyclicScope.

(** A program with two scopes:
    [const a = { x: 1 }; const c = a;
     export default { data() { const a = c; return { foo: a } } }].
    The function [data] is node 5 and has its own scope, where [a] is
    declared again; the library's lookup searches the scope it is given
    and then the scopes around it. *)
Definition dataScope : Scope := MkScope 1 "function" [].

Definition outerScope : Scope := MkScope 0 "module" [dataScope].

Definition twoScopes : ScopeManager :=
  {| acquire := λ n _,
       if Nat.eqb n 0 then Some outerScope
       else if Nat.eqb n 5 then Some dataScope
       else None;
     scopes := [outerScope; dataScope] |}.

(** The [a] of [foo: a], the [c] of the inner [const a = c] and the [a]
    of the outer [const c = a]. *)
Definition innerA : Ident :=
  {| ident_name := "a"; ident_node := 41; ident_parents := [40; 5; 0] |}.

Definition innerC : Ident :=
  {| ident_name := "c"; ident_node := 61; ident_parents := [60; 5; 0] |}.

Definition outerA : Ident :=
  {| ident_name := "a"; ident_node := 71; ident_parents := [70; 0] |}.

Definition outerTable (name : string) : option Variable_ :=
  if String.eqb name "a"
  then Some (constant (ObjectExpression [Property 31 (Some "x") literal]))
  else if String.eqb name "c" then Some (constant (Identifier outerA))
  else None.

Definition shadowLookup (scope : option Scope) (node : Ident)
  : option Variable_ :=
  match scope with
  | Some (MkScope 1 _ _) =>
      if String.eqb (ident_name node) "a"
      then Some (constant (Identifier innerC))
      else outerTable (ident_name node)
  | Some _ => outerTable (ident_name node)
  | None => None
  end.

Definition shadowContext : RuleContext :=
  {| options := deepDataOptions; scopeManager := twoScopes;
     eslintUtils_findVariable := shadowLookup;
     getSourceCode := noComments |}.

Definition shadowMember : ComponentPropertyData :=
  {| name := "foo"; groupName := data;
     type := TypeObject (objectProperty 40 (Identifier innerA));
     node := 40 |}.

Definition shadowFile : File :=
  {| script :=
       [OnVueObjectEnter {| vo_node := 1; vo_declared := [shadowMember] |};
        OnThisOrIdentifier true (LiteralAccess ["foo"] false)
          (component 1)];
     styleVars := None;
     templateBody := None |}.

(** [data() { return { foo: a } }] with a hook that reads [this.foo]. *)
Definition fooMember : ComponentPropertyData :=
  {| name := "foo"; groupName := data;
     type := TypeObject (objectProperty 40 (Identifier (ident 41 "a")));
     node := 40 |}.

Definition aliasFile : File :=
  {| script :=
       [OnVueObjectEnter {| vo_node := 1; vo_declared := [fooMember] |};
        OnThisOrIdentifier true (LiteralAccess ["foo"] false)
          (component 1)];
     styleVars := None;
     templateBody := None |}.

(** Two definitions in one file: the first watches [foo], the second
    declares the input [foo] and never reads it. *)
Definition fooWatcher : ComponentPropertyData :=
  {| name := "foo"; groupName := watch;
     type := TypeObject
               {| prop_node := 50; prop_kind := KindInit;
                  prop_value := literal; prop_value_node := 51;
                  prop_handlerValues := [Some "foo"] |};
     node := 50 |}.

Definition fooInput : ComponentPropertyData :=
  {| name := "foo"; groupName := props; type := TypeArray; node := 60 |}.

Definition watchingDefinition : VueObjectNode :=
  {| vo_node := 1; vo_declared := [fooWatcher] |}.

Definition twoDefinitionsFile : File :=
  {| script :=
       [OnVueObjectEnter watchingDefinition;
        OnVueObjectEnter {| vo_node := 2; vo_declared := [fooInput] |}];
     styleVars := None;
     templateBody := None |}.

(** [props: ['size'], render({ $slots }, { props: { size } }) { ... }]
    in a definition that is not functional. *)
Definition renderParams : list Pattern :=
  [PatObject [PatProperty (Some "$slots") (PatIdentifier "$slots")];
   PatObject
     [PatProperty (Some "props")
        (PatObject [PatProperty (Some "size") (PatIdentifier "size")])]].

Definition renderFile : File :=
  {| script :=
       [OnVueObjectEnter {| vo_node := 1; vo_declared := [sizeMember] |};
        OnRenderFunctionEnter renderParams (component 1)];
     styleVars := None;
     templateBody := None |}.

End Examples.

(* ===================================================================== *)
(** * Reading the source text and the template *)
(* ===================================================================== *)

(** The two sides of a match of the [@public] tag: the text before it is
    empty or ends with a white space or a star, the text after it is
    empty or starts outside [A-Za-z0-9_]. *)
Fixpoint lastChar (s : list CodeUnit) : option CodeUnit :=
  match s with
  | [] => None
  | [c] => Some c
  | _ :: rest => lastChar rest
  end.

Definition endsAtBoundary (before : list CodeUnit) : bool :=
  match lastChar before with
  | None => true
  | Some c => isWhiteSpace c || N.eqb c star
  end.

Definition startsAtBoundary (after : list CodeUnit) : bool :=
  match after with
  | [] => true
  | c :: _ => negb (isWordChar c)
  end.

(** The values of the plain [ref] attributes of a template, in document
    order: what the handler of [VAttribute[directive=false]] adds to
    [refNames] over a traversal. *)
Definition refAttributeValue (a : VAttribute) : list string :=
  match a with
  | VPlainAttribute keyName (Some v) =>
      if bool_decide (keyName = "ref") then [v] else []
  | _ => []
  end.

Fixpoint refAttributeValues (n : VNode) : list string :=
  match n with
  | VElement attributes children =>
      concat (refAttributeValue <$> attributes)
      ++ (fix below (cs : list VNode) : list string :=
            match cs with
            | [] => []
            | c :: rest => refAttributeValues c ++ below rest
            end) children
  | _ => []
  end.

Definition templateRefs (f : File) : list string :=
  match templateBody f with
  | Some (attributes, children) =>
      refAttributeValues (VElement attributes children)
  | None => []
  end.

(** The finding that names a declared member. *)
Definition memberReport (q : ComponentPropertyData) : Report :=
  unusedReport (node q) (PROPERTY_LABEL (groupName q)) (name q).

(** All the members a state has collected, container by container. *)
Definition declaredMembers (st : RuleState) : list ComponentPropertyData :=
  concat ((λ entry : ASTNode * VueComponentPropertiesContainer,
             properties entry.2)
          <$> vueComponentPropertiesContainerMap st).

(** The component definition (or [defineProps] call) whose container a
    script visit works on. *)
Definition eventDefinition (ev : ScriptEvent) : ASTNode :=
  match ev with
  | OnDefinePropsEnter n _ => dp_node n
  | OnVueObjectEnter n => vo_node n
  | OnFunctionWithParams _ _ vueData => vd_node vueData
  | OnSetupFunctionEnter _ vueData => vd_node vueData
  | OnRenderFunctionEnter _ vueData => vd_node vueData
  | OnThisOrIdentifier _ _ vueData => vd_node vueData
  end.

(** Every collected member belongs to a group the options track. *)
Definition onlyTrackedGroups (context : RuleContext) (st : RuleState)
  : Prop :=
  Forall (λ q, groupName q ∈ groups context) (declaredMembers st).

(** One container extends another: what was collected is still there,
    in the same order, possibly followed by more. *)
Definition containerExtends (c c' : VueComponentPropertiesContainer)
  : Prop :=
  properties c `prefix_of` properties c'
  ∧ propertyReferences c `prefix_of` propertyReferences c'
  ∧ propertyReferencesForProps c `prefix_of` propertyReferencesForProps c'.

(** A JSDoc block with the [@public] tag sits before node [n]: only line
    comments separate it from the node. *)
Definition PublicJSDocBefore (sourceCode : SourceCode) (n : ASTNode)
  : Prop :=
  ∃ lines t after,
    tokensBefore sourceCode n = lines ++ t :: after
    ∧ Forall (λ l, tok_type l = Line) lines
    ∧ tok_type t = Block
    ∧ (∃ rest, tok_value t = star :: rest)
    ∧ testPublicTag (tok_value t) = true.

(** The same rule context over another source text. *)
Definition withSourceCode (context : RuleContext) (sourceCode : SourceCode)
  : RuleContext :=
  {| options := options context;
     scopeManager := scopeManager context;
     eslintUtils_findVariable := eslintUtils_findVariable context;
     getSourceCode := sourceCode |}.

Module MoreExamples.

(** [const a = b; let b = { x: 1 }]. *)
Definition mixedScope (id : string) : option Variable_ :=
  if String.eqb id "a"
  then Some (Examples.constant (Identifier (Examples.ident 51 "b")))
  else if String.eqb id "b"
  then Some {| defs := [ {| def_type := DefVariable;
                            def_parent_kind := KindLet;
                            def_node_init :=
                              Some (ObjectExpression
                                      [Property 31 (Some "x")
                                         Examples.literal]) |} ] |}
  else None.

Definition mixedContext : RuleContext :=
  Examples.contextWith Examples.deepDataOptions mixedScope.

(** A source text where node 20 is preceded by
    [/** @public */ // note]. *)
Definition publicComments : SourceCode :=
  {| tokensBefore := λ n,
       if Nat.eqb n 20
       then [ {| tok_type := Line; tok_value := codeUnits " note" |};
              {| tok_type := Block; tok_value := codeUnits "* @public " |};
              {| tok_type := Punctuator; tok_value := codeUnits "," |} ]
       else [] |}.

(** [{ groups: ['props', 'data'], deepData: true,
       ignorePublicMembers: true }] over that text. *)
Definition publicContext : RuleContext :=
  {| options :=
       Some {| opt_groups := Some [props; data];
               opt_deepData := Some true;
               opt_ignorePublicMembers := Some true |};
     scopeManager := Examples.oneScope;
     eslintUtils_findVariable :=
       Examples.lookupByName Examples.noVariables;
     getSourceCode := publicComments |}.

(** An input declared as an object entry at node 20. *)
Definition publicInput : ComponentPropertyData :=
  {| name := "size"; groupName := props;
     type := TypeObject (Examples.objectProperty 20 Examples.literal);
     node := 20 |}.

(** [<div ref="panel"><span :ref="x">{{ label }}</span></div>] inside
    the template body. *)
Definition refTemplate : list VAttribute * list VNode :=
  ([],
   [VElement [VPlainAttribute "ref" (Some "panel")]
      [VElement [VDirective (Some [LiteralAccess ["x"] false])]
         [VExpressionContainer [LiteralAccess ["label"] false]]]]).

Definition panelMember : ComponentPropertyData :=
  {| name := "panel"; groupName := setup;
     type := TypeObject (Examples.objectProperty 70 Examples.literal);
     node := 70 |}.

Definition setupOptions : option RuleOptions :=
  Some {| opt_groups := Some [props; setup]; opt_deepData := None;
          opt_ignorePublicMembers := None |}.

Definition refFile : File :=
  {| script :=
       [OnVueObjectEnter {| vo_node := 1; vo_declared := [panelMember] |}];
     styleVars := None;
     templateBody := Some refTemplate |}.

End MoreExamples.

(* ===================================================================== *)
(** * The [valid-define-props] and [valid-define-emits] rules *)
(* ===================================================================== *)

(** [lib/rules/valid-define-props.js] and
    [lib/rules/valid-define-emits.js] are the same program up to the
    name of the compiler macro and of the component option they look
    for; one embedding serves both. *)
Module ValidDefine.

Definition Range := (nat * nat)%type.

Inductive MessageId :=
| hasTypeAndArg | referencingLocally | multiple | notDefined
| definedInBoth.

#[global] Instance MessageId_eq_dec : EqDecision MessageId.
Proof. solve_decision. Defined.

Record MacroReport := {
  mr_node : ASTNode;
  mr_messageId : MessageId
}.

(** A call of the macro: its node, its arguments with their ranges, and
    the parameters of its type arguments when it has type arguments. *)
Record MacroCall := {
  call_node : ASTNode;
  call_arguments : list (ASTNode * Range);
  call_typeParameters : option (list ASTNode)
}.

(** What the [Identifier] handler reads: the identifier's node and
    range, and the variable that [findVariable(context.getScope(), node)]
    resolves it to, with the identifiers of its references and the
    ranges of the names of its definitions. *)
Record VariableInfo := {
  var_references : list ASTNode;
  var_defs : list Range
}.

Record IdentifierNode := {
  id_node : ASTNode;
  id_range : Range;
  id_variable : option VariableInfo
}.

(** A component definition object as [onVueObjectEnter] sees it: the
    kind of definition, its range, and the static names of the
    properties that [utils.findProperty] can find in it. *)
Inductive VueObjectType := TypeExport | TypeMark | TypeDefinition
                         | TypeInstance.

#[global] Instance VueObjectType_eq_dec : EqDecision VueObjectType.
Proof. solve_decision. Defined.

Record VueObject := {
  vobj_type : VueObjectType;
  vobj_range : Range;
  vobj_options : list string
}.

Inductive MacroEvent :=
| DefineEnter (call : MacroCall)
| IdentifierVisit (id : IdentifierNode)
| VueObjectEnter (object : VueObject).

(** The variables of [create]'s closure, and the findings so far. *)
Record MacroState := {
  defExpressions : list (ASTNode * Range);
  hasDefaultExport : bool;
  defineNodes : list MacroCall;
  emptyDefine : option MacroCall;
  macro_reports : list MacroReport
}.

Definition initialMacroState : MacroState :=
  {| defExpressions := []; hasDefaultExport := false; defineNodes := [];
     emptyDefine := None; macro_reports := [] |}.

Definition report (n : ASTNode) (m : MessageId) : MacroReport :=
  {| mr_node := n; mr_messageId := m |}.

(** [Set.prototype.add] on nodes: a node that is in the set already is
    not added again. *)
Definition setAdd (e : ASTNode * Range) (s : list (ASTNode * Range))
  : list (ASTNode * Range) :=
  if bool_decide (e.1 ∈ s.*1) then s else s ++ [e].

Definition hasTypeParameters (call : MacroCall) : bool :=
  match call_typeParameters call with
  | Some (_ :: _) => true
  | _ => false
  end.

Section Rule.

(** [utils.inRange] is taken as it is, and the rule is read for the
    option name it passes to [utils.findProperty]: ['props'] or
    ['emits']. *)
Variable inRange : Range → Range → bool.
Variable optionName : string.

(** [utils.getScriptSetupElement(context)] has answered an element with
    this range. *)
Variable scriptSetup : Range.

(** [onDefinePropsEnter(node)] and [onDefineEmitsEnter(node)]. *)
Definition onDefineEnter (call : MacroCall) (st : MacroState) : MacroState :=
  let nodes := defineNodes st ++ [call] in
  match call_arguments call with
  | first :: _ =>
      if hasTypeParameters call then
        {| defExpressions := defExpressions st;
           hasDefaultExport := hasDefaultExport st;
           defineNodes := nodes;
           emptyDefine := emptyDefine st;
           macro_reports :=
             macro_reports st ++ [report (call_node call) hasTypeAndArg] |}
      else
        {| defExpressions := setAdd first (defExpressions st);
           hasDefaultExport := hasDefaultExport st;
           defineNodes := nodes;
           emptyDefine := emptyDefine st;
           macro_reports := macro_reports st |}
  | [] =>
      {| defExpressions := defExpressions st;
         hasDefaultExport := hasDefaultExport st;
         defineNodes := nodes;
         emptyDefine :=
           if hasTypeParameters call then emptyDefine st else Some call;
         macro_reports := macro_reports st |}
  end.

(** The test of the [Identifier] handler for one recorded argument. *)
Definition referencesLocally (id : IdentifierNode)
           (definition : ASTNode * Range) : bool :=
  inRange definition.2 (id_range id)
  && match id_variable id with
     | Some variable =>
         bool_decide (id_node id ∈ var_references variable)
         && negb (bool_decide (var_defs variable = []))
         && forallb (λ def, inRange scriptSetup def
                            && negb (inRange definition.2 def))
                    (var_defs variable)
     | None => false
     end.

(** [Identifier(node)]: one finding for each recorded argument that
    passes the test. *)
Definition onIdentifier (id : IdentifierNode) (st : MacroState)
  : MacroState :=
  {| defExpressions := defExpressions st;
     hasDefaultExport := hasDefaultExport st;
     defineNodes := defineNodes st;
     emptyDefine := emptyDefine st;
     macro_reports :=
       macro_reports st
       ++ ((λ _, report (id_node id) referencingLocally)
           <$> filter (λ definition,
                         referencesLocally id definition = true)
                      (defExpressions st)) |}.

(** [onVueObjectEnter(node, { type })]. *)
Definition onVueObjectEnter (object : VueObject) (st : MacroState)
  : MacroState :=
  if negb (bool_decide (vobj_type object = TypeExport))
     || inRange scriptSetup (vobj_range object)
  then st
  else
    {| defExpressions := defExpressions st;
       hasDefaultExport := bool_decide (optionName ∈ vobj_options object);
       defineNodes := defineNodes st;
       emptyDefine := emptyDefine st;
       macro_reports := macro_reports st |}.

(** What [Program:exit] reports. *)
Definition exitFindings (st : MacroState) : list MacroReport :=
  match defineNodes st with
  | [] => []
  | [_] =>
      match emptyDefine st with
      | Some empty =>
          if negb (hasDefaultExport st)
          then [report (call_node empty) notDefined]
          else []
      | None =>
          if hasDefaultExport st
          then (λ call, report (call_node call) definedInBoth)
               <$> defineNodes st
          else []
      end
  | _ => (λ call, report (call_node call) multiple) <$> defineNodes st
  end.

Definition visit (ev : MacroEvent) (st : MacroState) : MacroState :=
  match ev with
  | DefineEnter call => onDefineEnter call st
  | IdentifierVisit id => onIdentifier id st
  | VueObjectEnter object => onVueObjectEnter object st
  end.

Definition visitAll (events : list MacroEvent) (st : MacroState)
  : MacroState :=
  foldl (λ s ev, visit ev s) st events.

(** The findings of the rule on a file with a script setup element:
    those of the visits, then those of [Program:exit]. *)
Definition findings (events : list MacroEvent) : list MacroReport :=
  let st := visitAll events initialMacroState in
  macro_reports st ++ exitFindings st.

End Rule.

(** [create(context)]: without a script setup element the rule installs
    no handler. *)
Definition runRule (inRange : Range → Range → bool) (optionName : string)
           (scriptSetup : option Range) (events : list MacroEvent)
  : list MacroReport :=
  match scriptSetup with
  | None => []
  | Some range => findings inRange optionName range events
  end.

Definition validDefineProps (inRange : Range → Range → bool) :=
  runRule inRange "props".

Definition validDefineEmits (inRange : Range → Range → bool) :=
  runRule inRange "emits".

(** The macro calls of a traversal, in order. *)
Definition calls (events : list MacroEvent) : list MacroCall :=
  omap (λ ev, match ev with DefineEnter call => Some call | _ => None end)
       events.

(** A call without arguments and without type parameters. *)
Definition isEmptyCall (call : MacroCall) : bool :=
  match call_arguments call with
  | [] => negb (hasTypeParameters call)
  | _ => false
  end.

(** Whether the last default export outside the script setup element
    has the option; [false] when there is none. *)
Definition defaultExportHasOption (inRange : Range → Range → bool)
           (optionName : string) (scriptSetup : Range)
           (events : list MacroEvent) : bool :=
  foldl (λ has ev,
           match ev with
           | VueObjectEnter object =>
               if negb (bool_decide (vobj_type object = TypeExport))
                  || inRange scriptSetup (vobj_range object)
               then has
               else bool_decide (optionName ∈ vobj_options object)
           | _ => has
           end) false events.

(** The findings that only [Program:exit] emits. *)
Definition isExitMessage (m : MessageId) : bool :=
  match m with
  | multiple | notDefined | definedInBoth => true
  | _ => false
  end.

(** A call with an argument and with type parameters. *)
Definition hasTypeAndArgument (call : MacroCall) : bool :=
  match call_arguments call with
  | [] => false
  | _ :: _ => hasTypeParameters call
  end.

(** A range test for the examples: [a] holds [b]. *)
Definition rangeHolds (a b : Range) : bool :=
  Nat.leb a.1 b.1 && Nat.leb b.2 a.2.

(** [<script setup>] spans 0 to 100.  [defineProps()], then
    [defineProps(options)] whose argument spans 10 to 20, and
    [defineProps<T>(options)]. *)
Definition emptyCall : MacroCall :=
  {| call_node := 1; call_arguments := []; call_typeParameters := None |}.

Definition argumentCall : MacroCall :=
  {| call_node := 2; call_arguments := [(3, (10, 20))];
     call_typeParameters := None |}.

Definition typeAndArgumentCall : MacroCall :=
  {| call_node := 4; call_arguments := [(5, (30, 40))];
     call_typeParameters := Some [6] |}.

(** [export default { props: ..., data: ... }] outside the script setup
    element. *)
Definition exportWithProps : VueObject :=
  {| vobj_type := TypeExport; vobj_range := (200, 300);
     vobj_options := ["props"; "data"] |}.

(** An identifier inside the argument of [argumentCall] whose variable
    is declared in the script setup element, outside the argument. *)
Definition localIdentifier : IdentifierNode :=
  {| id_node := 7; id_range := (12, 15);
     id_variable := Some {| var_references := [7];
                            var_defs := [(50, 55)] |} |}.

End ValidDefine.

(* ===================================================================== *)
(** * Property-reference sets: the laws of merging *)
(* ===================================================================== *)

Section MergeLaws.

Implicit Types (a b : IPropertyReferences) (n : string) (o : bool).

Lemma hasProperty_never n o : hasProperty never n o = false.
Proof.
  unfold hasProperty, never; simpl.
  rewrite andb_false_r, lookup_empty.
  apply bool_decide_eq_false_2. by intros [? ?].
Qed.

Lemma hasProperty_fromUnknown n o : hasProperty fromUnknown n o = true.
Proof. reflexivity. Qed.

Lemma hasProperty_mergeTwo a b n o :
  hasProperty (mergeTwo a b) n o = hasProperty a n o || hasProperty b n o.
Proof.
  destruct a as [u1 c1 ch1], b as [u2 c2 ch2].
  unfold hasProperty; simpl.
  rewrite lookup_union_with.
  destruct (ch1 !! n) as [x|] eqn:E1, (ch2 !! n) as [y|] eqn:E2; simpl;
    repeat match goal with
      | |- context [bool_decide (is_Some (Some ?v))] =>
          rewrite (bool_decide_eq_true_2 (is_Some (Some v)))
            by (by eexists)
      | |- context [bool_decide (is_Some (@None ?T))] =>
          rewrite (bool_decide_eq_false_2 (is_Some (@None T)))
            by (by intros [? ?])
      end;
    destruct u1, u2, c1, c2, o; reflexivity.
Qed.

Lemma hasProperty_merge (l : list IPropertyReferences) n o :
  hasProperty (mergePropertyReferences l) n o
  = existsb (λ r, hasProperty r n o) l.
Proof.
  induction l as [|r l IH]; simpl.
  - apply hasProperty_never.
  - unfold mergePropertyReferences in *; simpl.
    by rewrite hasProperty_mergeTwo, IH.
Qed.

Lemma hasProperty_merge_elem (l : list IPropertyReferences) r n o :
  r ∈ l → hasProperty r n o = true →
  hasProperty (mergePropertyReferences l) n o = true.
Proof.
  intros Hin Hr. rewrite hasProperty_merge.
  apply existsb_exists. exists r. split; [|done].
  by apply list_elem_of_In.
Qed.

End MergeLaws.

(** C3.  Union law and identity element of merging: for all sets [a] and
    [b], every name [n] (and either setting of [unknownCallAsAny]),
    [merge([a, b]).hasProperty(n)] is
    [a.hasProperty(n) || b.hasProperty(n)], and [merge([]).hasProperty(n)]
    is false. *)
Theorem C3_merge_union_law :
  (∀ (a b : IPropertyReferences) (n : string) (unknownCallAsAny : bool),
     hasProperty (mergePropertyReferences [a; b]) n unknownCallAsAny
     = hasProperty a n unknownCallAsAny || hasProperty b n unknownCallAsAny)
  ∧ (∀ (n : string) (unknownCallAsAny : bool),
       hasProperty (mergePropertyReferences []) n unknownCallAsAny = false).
Proof.
  split.
  - intros a b n o. rewrite hasProperty_merge; simpl.
    by rewrite orb_false_r.
  - intros n o. apply hasProperty_never.
Qed.

(* ===================================================================== *)
(** * Sequencing *)
(* ===================================================================== *)

Section Sequencing.

Context {A B : Type}.
Implicit Types (f g : A → option (list B)) (l : list A).

Lemma appM_nil_l (a : option (list B)) : appM (Some []) a = a.
Proof. by destruct a. Qed.

Lemma appM_assoc (a b c : option (list B)) :
  appM a (appM b c) = appM (appM a b) c.
Proof. destruct a, b, c; simpl; try done. by rewrite app_assoc. Qed.

Lemma concatM_cons f x l :
  concatM f (x :: l) = appM (f x) (concatM f l).
Proof. simpl. by destruct (f x), (concatM f l). Qed.

Lemma concatM_app f l1 l2 :
  concatM f (l1 ++ l2) = appM (concatM f l1) (concatM f l2).
Proof.
  induction l1 as [|x l1 IH].
  - change (concatM f ([] ++ l2)) with (concatM f l2).
    change (concatM f []) with (Some (@nil B)).
    by rewrite appM_nil_l.
  - rewrite <- app_comm_cons, !concatM_cons, IH. apply appM_assoc.
Qed.

Lemma concatM_ext f g l :
  (∀ x, x ∈ l → f x = g x) → concatM f l = concatM g l.
Proof.
  induction l as [|x l IH]; intros H; [done|].
  rewrite !concatM_cons, H, IH; [done| |by left].
  intros y Hy. apply H. by right.
Qed.

Lemma concatM_Forall (P : B → Prop) f l found :
  (∀ x here, x ∈ l → f x = Some here → Forall P here) →
  concatM f l = Some found → Forall P found.
Proof.
  revert found. induction l as [|x l IH]; intros found H; simpl.
  - intros [= <-]. constructor.
  - destruct (f x) as [here|] eqn:Ex; [|done].
    destruct (concatM f l) as [later|] eqn:El; [|done].
    intros [= <-]. apply Forall_app. split.
    + apply (H x); [by left|done].
    + apply IH; [|done]. intros y ys Hy. apply H. by right.
Qed.

Lemma concatM_total f l :
  (∀ x, x ∈ l → is_Some (f x)) → is_Some (concatM f l).
Proof.
  induction l as [|x l IH]; intros H; simpl; [by eexists|].
  destruct (H x) as [here ->]; [by left|].
  destruct IH as [later ->]; [|by eexists].
  intros y Hy. apply H. by right.
Qed.

Lemma concatM_no_findings f l :
  (∀ x, x ∈ l → f x = Some []) → concatM f l = Some [].
Proof.
  induction l as [|x l IH]; intros H; simpl; [done|].
  rewrite H by (by left). rewrite IH; [done|].
  intros y Hy. apply H. by right.
Qed.

End Sequencing.

(* ===================================================================== *)
(** * Constant-alias resolution *)
(* ===================================================================== *)

Section FindExpression.

Variable context : RuleContext.

Lemma findExpression_link fuel id id' :
  ConstAlias context id (Identifier id') →
  findExpression (S fuel) context id = findExpression fuel context id'.
Proof.
  intros (variable & def & Hv & Hd & Ht & Hk & Hi). simpl.
  by rewrite Hv, Hd, Ht, Hk, Hi.
Qed.

Lemma findExpression_init fuel id init :
  ConstAlias context id init → isIdentifier init = false →
  findExpression (S fuel) context id = Some init.
Proof.
  intros (variable & def & Hv & Hd & Ht & Hk & Hi) Hinit. simpl.
  rewrite Hv, Hd, Ht, Hk, Hi. by destruct init.
Qed.

Lemma findExpression_name fuel id :
  (∀ init, ¬ ConstAlias context id init) →
  findExpression (S fuel) context id = Some (Identifier id).
Proof.
  intros Hno. simpl.
  destruct (findVariable context id) as [variable|] eqn:Hv; [|done].
  destruct (defs variable) as [|def [|]] eqn:Hd; try done.
  destruct (def_type def) eqn:Ht; try done.
  destruct (def_parent_kind def) eqn:Hk; try done.
  destruct (def_node_init def) as [init|] eqn:Hi; [|done].
  exfalso. apply (Hno init). by exists variable, def.
Qed.

(** A chain of const aliases is followed to its end, whatever its
    length, as soon as the calls fit into the fuel. *)
Lemma findExpression_resolves id links e :
  Resolves context id links e →
  ∀ fuel, links < fuel → findExpression fuel context id = Some e.
Proof.
  induction 1 as [id Hno|id init Ha Hinit|id id' links e Ha Hr IH];
    intros [|fuel] Hlt; try lia.
  - by apply findExpression_name.
  - by apply findExpression_init.
  - rewrite (findExpression_link _ _ id') by done. apply IH. lia.
Qed.

Lemma findExpression_more_fuel fuel id e :
  findExpression fuel context id = Some e →
  findExpression (S fuel) context id = Some e.
Proof.
  revert id. induction fuel as [|fuel IH]; intros id; [done|].
  intros H. simpl in H. change (findExpression (S (S fuel)) context id)
    with (match findVariable context id with
          | None => Some (Identifier id)
          | Some variable =>
              match defs variable with
              | [def] =>
                  match def_type def, def_parent_kind def,
                        def_node_init def with
                  | DefVariable, KindConst, Some init =>
                      match init with
                      | Identifier id' =>
                          findExpression (S fuel) context id'
                      | _ => Some init
                      end
                  | _, _, _ => Some (Identifier id)
                  end
              | _ => Some (Identifier id)
              end
          end).
  destruct (findVariable context id) as [variable|]; [|done].
  destruct (defs variable) as [|def [|]]; try done.
  destruct (def_type def); try done.
  destruct (def_parent_kind def); try done.
  destruct (def_node_init def) as [init|]; [|done].
  destruct init; try done. by apply IH.
Qed.

End FindExpression.

(** In a program with the module scope alone, an identifier under the
    program is looked up by its name. *)
Lemma findVariable_oneScope o table n name :
  findVariable (Examples.contextWith o table) (Examples.ident n name)
  = table name.
Proof.
  unfold findVariable, getScope. simpl.
  by destruct (Nat.eqb n 0).
Qed.

(* ===================================================================== *)
(** * The deep check *)
(* ===================================================================== *)

Section DeepCheck.

Variable context : RuleContext.

Local Abbreviation verify := (verifyDataOptionDeepProperties context).

Lemma verify_object fuel segments members references :
  verify (S fuel) segments (ObjectExpression members) references
  = concatM (verifyMember context fuel segments references) members.
Proof. reflexivity. Qed.

Lemma verify_other fuel segments t references :
  verify (S fuel) segments (OtherExpression t) references = Some [].
Proof. reflexivity. Qed.

Lemma verifyMember_skipped fuel segments references m :
  skippedMember m = true →
  verifyMember context fuel segments references m = Some [].
Proof. by destruct m as [key [name|] value|argument]. Qed.

(** Every finding of the deep check carries the label of the [data]
    group. *)
Lemma verify_group fuel :
  ∀ segments value references found,
    verify fuel segments value references = Some found →
    Forall (λ r, report_group r = PROPERTY_LABEL data) found.
Proof.
  induction fuel as [|fuel IH]; intros segments value references found;
    [done|].
  simpl.
  destruct (match value with
            | Identifier id => findExpression fuel context id
            | _ => Some value
            end) as [[id|members|t]|]; try done;
    try (intros [= <-]; constructor).
  apply concatM_Forall.
  intros [key [name|] v|argument] here _; try (intros [= <-]; constructor).
  destruct (negb (hasProperty references name true)).
  - intros [= <-]. by repeat constructor.
  - apply IH.
Qed.

Lemma length_append (s t : string) :
  String.length (s +:+ t) = String.length s + String.length t.
Proof. induction s as [|c s IH]; simpl; [done|]. by rewrite IH. Qed.

(** Every finding of the deep check below [segments] has a qualified
    name that is strictly longer than the joined [segments]. *)
Lemma concat_dot_length (segments : list string) (k : string) :
  segments ≠ [] →
  String.length (String.concat "." segments)
  < String.length (String.concat "." (segments ++ [k])).
Proof.
  induction segments as [|s [|s' rest] IH]; intros Hne; [done| |].
  - simpl. rewrite !length_append. simpl. lia.
  - specialize (IH ltac:(done)).
    change (String.concat "." (s :: s' :: rest))
      with (s +:+ "." +:+ String.concat "." (s' :: rest)).
    change (String.concat "." ((s :: s' :: rest) ++ [k]))
      with (s +:+ "." +:+ String.concat "." ((s' :: rest) ++ [k])).
    rewrite !length_append. lia.
Qed.

Lemma verify_names fuel :
  ∀ segments value references found,
    segments ≠ [] →
    verify fuel segments value references = Some found →
    Forall (λ r, String.length (String.concat "." segments)
                 < String.length (report_name r)) found.
Proof.
  induction fuel as [|fuel IH]; intros segments value references found Hne;
    [done|].
  simpl.
  destruct (match value with
            | Identifier id => findExpression fuel context id
            | _ => Some value
            end) as [[id|members|t]|]; try done;
    try (intros [= <-]; constructor).
  apply concatM_Forall.
  intros [key [name|] v|argument] here _; try (intros [= <-]; constructor).
  destruct (negb (hasProperty references name true)).
  - intros [= <-]. repeat constructor. simpl.
    by apply concat_dot_length.
  - intros Hv. apply IH in Hv; [|by destruct segments].
    eapply Forall_impl; [exact Hv|]. simpl. intros r Hr.
    pose proof (concat_dot_length segments name Hne). lia.
Qed.

Lemma concatM_mono {A B} (f g : A → option (list B)) l found :
  (∀ x here, f x = Some here → g x = Some here) →
  concatM f l = Some found → concatM g l = Some found.
Proof.
  intros Hfg. revert found. induction l as [|x l IH]; intros found; [done|].
  simpl. destruct (f x) as [here|] eqn:Ex; [|done].
  destruct (concatM f l) as [later|] eqn:El; [|done].
  intros [= <-]. by rewrite (Hfg _ _ Ex), (IH later).
Qed.

(** A check that returns within [fuel] nested calls returns the same
    findings within more. *)
Lemma verify_more_fuel fuel :
  ∀ segments value references found,
    verify fuel segments value references = Some found →
    verify (S fuel) segments value references = Some found.
Proof.
  induction fuel as [|fuel IH]; intros segments value references found;
    [done|].
  intros H.
  assert (Htarget : ∀ target,
             match value with
             | Identifier id => findExpression fuel context id
             | _ => Some value
             end = Some target →
             match value with
             | Identifier id => findExpression (S fuel) context id
             | _ => Some value
             end = Some target).
  { intros target. destruct value; try done.
    apply findExpression_more_fuel. }
  change (verify (S fuel) segments value references)
    with (match match value with
                | Identifier id => findExpression fuel context id
                | _ => Some value
                end with
          | None => None
          | Some (ObjectExpression members) =>
              concatM (verifyMember context fuel segments references)
                members
          | Some _ => Some []
          end) in H.
  change (verify (S (S fuel)) segments value references)
    with (match match value with
                | Identifier id => findExpression (S fuel) context id
                | _ => Some value
                end with
          | None => None
          | Some (ObjectExpression members) =>
              concatM (verifyMember context (S fuel) segments references)
                members
          | Some _ => Some []
          end).
  destruct (match value with
            | Identifier id => findExpression fuel context id
            | _ => Some value
            end) as [target|] eqn:Et; [|done].
  rewrite (Htarget target eq_refl).
  destruct target as [id|members|t]; try done.
  revert H. apply concatM_mono.
  intros [key [name|] v|argument] here; try done.
  unfold verifyMember. destruct (negb _); [done|]. apply IH.
Qed.

Lemma verify_enough_fuel fuel fuel' segments value references found :
  (fuel ≤ fuel')%nat →
  verify fuel segments value references = Some found →
  verify fuel' segments value references = Some found.
Proof.
  induction 1 as [|fuel' _ IH]; [done|].
  intros H. by apply verify_more_fuel, IH.
Qed.

(** On an object literal without bare names, the deep check returns,
    within as many nested calls as the literal is deep, what the
    specification's walk lists. *)
Lemma verify_literal fuel :
  ∀ segments value references,
    aliasFree value = true → (depth value ≤ fuel)%nat →
    verify (S fuel) segments value references
    = Some (deepUnused segments value references).
Proof.
  induction fuel as [|fuel IH]; intros segments value references Hfree Hd.
  - destruct value as [id|members|t]; try done. simpl in Hd. lia.
  - destruct value as [id|members|t]; try done.
    rewrite verify_object. simpl in Hd, Hfree. simpl deepUnused.
    apply le_S_n in Hd.
    induction members as [|[key [name|] v|argument] members IHm].
    + done.
    + apply andb_true_iff in Hfree as [Hv Hrest].
      rewrite concatM_cons, IHm by (done || lia).
      unfold verifyMember.
      destruct (hasProperty references name true); simpl negb; cbv iota.
      * rewrite IH by (done || lia). done.
      * done.
    + apply andb_true_iff in Hfree as [Hv Hrest].
      rewrite concatM_cons, IHm by (done || lia). done.
    + rewrite concatM_cons, IHm by (done || lia). done.
Qed.

End DeepCheck.

(* ===================================================================== *)
(** * Claims about the deep check and the alias resolution *)
(* ===================================================================== *)

(** C10.  During the deep check, a member of an object literal that is
    not a plain property (a spread element) or whose key has no static
    name is passed over: it contributes no finding, it is not descended
    into, and the check returns exactly what it returns on the literal
    without that member, so the member cannot make it fail. *)
Theorem C10_skipped_member_is_silent
        (context : RuleContext) (fuel : nat) (segments : list string)
        (before after : list ObjectMember) (m : ObjectMember)
        (references : IPropertyReferences) :
  skippedMember m = true →
  verifyMember context fuel segments references m = Some []
  ∧ verifyDataOptionDeepProperties context (S fuel) segments
      (ObjectExpression (before ++ m :: after)) references
    = verifyDataOptionDeepProperties context (S fuel) segments
        (ObjectExpression (before ++ after)) references.
Proof.
  intros Hm. split; [by apply verifyMember_skipped|].
  rewrite !verify_object, !concatM_app, concatM_cons.
  by rewrite verifyMember_skipped, appM_nil_l.
Qed.

Lemma C10_skipped_member_witness :
  skippedMember (SpreadElement (Identifier (Examples.ident 41 "a"))) = true
  ∧ verifyDataOptionDeepProperties Examples.cyclicContext 1 ["profile"]
      (ObjectExpression
         [SpreadElement (Identifier (Examples.ident 41 "a"));
          Property 22 (Some "age") Examples.literal])
      (fromPath ["name"] false)
    = verifyDataOptionDeepProperties Examples.cyclicContext 1 ["profile"]
        (ObjectExpression [Property 22 (Some "age") Examples.literal])
        (fromPath ["name"] false).
Proof.
  split; [reflexivity|].
  apply (C10_skipped_member_is_silent Examples.cyclicContext 0 ["profile"]
           [] [Property 22 (Some "age") Examples.literal]
           (SpreadElement (Identifier (Examples.ident 41 "a")))
           (fromPath ["name"] false)).
  reflexivity.
Defined.

(** C5, as the code has it.  The alias resolution of the deep check does
    not stop after one level: a chain of local [const] declarations
    whose initializers are bare names is followed link by link, to the
    first initializer that is not a name (or the first name that is not
    such a constant), and the deep check walks that expression. *)
Theorem C5_alias_chain_is_followed
        (context : RuleContext) (id : Ident) (links : nat)
        (e : Expression) (fuel : nat) :
  Resolves context id links e → links < fuel →
  findExpression fuel context id = Some e
  ∧ ∀ segments references,
      verifyDataOptionDeepProperties context (S fuel) segments
        (Identifier id) references
      = match e with
        | ObjectExpression members =>
            concatM (verifyMember context fuel segments references) members
        | _ => Some []
        end.
Proof.
  intros Hr Hlt.
  pose proof (findExpression_resolves context id links e Hr fuel Hlt) as Hf.
  split; [done|]. intros segments references. simpl. rewrite Hf.
  by destruct e.
Qed.

Lemma C5_alias_chain_witness :
  findExpression 3 Examples.shadowContext Examples.innerA
  = Some (ObjectExpression [Property 31 (Some "x") Examples.literal]).
Proof.
  refine (proj1 (C5_alias_chain_is_followed Examples.shadowContext
                   Examples.innerA 2
                   (ObjectExpression [Property 31 (Some "x") Examples.literal])
                   3 _ _)).
  - apply (resolves_link _ Examples.innerA Examples.innerC).
    { eexists _, _. repeat split; reflexivity. }
    apply (resolves_link _ Examples.innerC Examples.outerA).
    { eexists _, _. repeat split; reflexivity. }
    apply resolves_init; [|reflexivity].
    eexists _, _. repeat split; reflexivity.
  - lia.
Defined.

(** C5, as stated, fails: with [const a = b; const b = { x: 1 }] the
    name [a] is a const alias whose initializer is the name [b], yet the
    resolution never answers [b]; it answers the object literal behind
    [b], and the deep check of [foo: a] reports [foo.x]. *)
Lemma C5_one_level_counterexample :
  ConstAlias Examples.chainContext (Examples.ident 41 "a")
    (Identifier (Examples.ident 51 "b"))
  ∧ (∀ fuel, findExpression fuel Examples.chainContext
               (Examples.ident 41 "a")
             ≠ Some (Identifier (Examples.ident 51 "b")))
  ∧ findExpression 2 Examples.chainContext (Examples.ident 41 "a")
    = Some (ObjectExpression [Property 31 (Some "x") Examples.literal])
  ∧ reports <$> runFile Examples.chainContext 3 Examples.aliasFile
    = Some [unusedReport 31 "data" "foo.x"].
Proof.
  split; [|split; [|split]].
  - eexists _, _. repeat split; reflexivity.
  - intros [|[|fuel]]; discriminate.
  - reflexivity.
  - vm_compute. reflexivity.
Qed.

(** C8, at the failing input.  With [const a = b; const b = a] the
    resolution of [a] never returns, whatever the number of nested calls
    it is given, and neither does the rule on a file whose [data] entry
    [foo: a] is read and deep-checked. *)
Theorem C8_cyclic_alias_never_returns :
  (∀ fuel, findExpression fuel Examples.cyclicContext
             (Examples.ident 41 "a") = None)
  ∧ (∀ fuel, runFile Examples.cyclicContext fuel Examples.aliasFile = None).
Proof.
  assert (Hboth : ∀ fuel n,
             findExpression fuel Examples.cyclicContext
               (Examples.ident n "a") = None
             ∧ findExpression fuel Examples.cyclicContext
                 (Examples.ident n "b") = None).
  { induction fuel as [|fuel IH]; [done|]. intros n. split.
    - rewrite (findExpression_link _ _ _ (Examples.ident 51 "b"));
        [apply IH|].
      eexists _, _.
      split; [unfold Examples.cyclicContext;
              rewrite findVariable_oneScope; reflexivity|].
      repeat split; reflexivity.
    - rewrite (findExpression_link _ _ _ (Examples.ident 52 "a"));
        [apply IH|].
      eexists _, _.
      split; [unfold Examples.cyclicContext;
              rewrite findVariable_oneScope; reflexivity|].
      repeat split; reflexivity. }
  split; [intros fuel; apply Hboth|].
  intros [|fuel]; [reflexivity|].
  unfold runFile, onProgramExit, reportUnusedProperties. simpl.
  unfold unusedProperties. simpl.
  unfold reportContainer. simpl.
  unfold reportProperty. simpl.
  destruct (Hboth fuel 41) as [-> _]. reflexivity.
Qed.

(** C2, as the code has it.  With deep checking enabled, a [data] member
    that is an object entry with an object-literal value, that was not
    passed over as a public member, and that the general reference sets
    cover, is not reported itself; the matcher walks the literal's
    sub-entries in order against [effective.getNest(name)].  A sub-entry
    [k] that [hasProperty(k, { unknownCallAsAny: true })] does not cover
    contributes exactly one finding, named by the segments joined with
    dots, and is not descended into; a covered one contributes what the
    walk of its own value under [getNest(k)] finds.  On literals without
    bare names the walk returns within as many nested calls as the
    literal is deep.  For [profile: { name: 'x', age: 1 }] with only
    [this.profile.name] read, the one finding is [profile.age]. *)
Theorem C2_deep_check_of_covered_data
        (context : RuleContext) (template : TemplatePropertiesContainer)
        (effective effectiveInputs : IPropertyReferences)
        (property : ComponentPropertyData) (p : PropertyNode)
        (members : list ObjectMember) :
  deepData context = true →
  groupName property = data →
  type property = TypeObject p →
  prop_value p = ObjectExpression members →
  ignorePublicMembers context
  && isPublicMember property (getSourceCode context) = false →
  hasProperty effective (name property) false = true →
  (∀ fuel,
     reportProperty context fuel template effective effectiveInputs property
     = verifyDataOptionDeepProperties context fuel [name property]
         (ObjectExpression members) (getNest effective (name property)))
  ∧ (∀ fuel found,
       reportProperty context fuel template effective effectiveInputs
         property = Some found →
       Forall (λ r, report_name r ≠ name property) found)
  ∧ (∀ fuel segments references before key k value after,
       hasProperty references k true = false →
       verifyDataOptionDeepProperties context (S fuel) segments
         (ObjectExpression (before ++ Property key (Some k) value :: after))
         references
       = appM (verifyDataOptionDeepProperties context (S fuel) segments
                 (ObjectExpression before) references)
           (appM (Some [unusedReport key (PROPERTY_LABEL data)
                          (String.concat "." (segments ++ [k]))])
              (verifyDataOptionDeepProperties context (S fuel) segments
                 (ObjectExpression after) references)))
  ∧ (∀ fuel segments references before key k value after,
       hasProperty references k true = true →
       verifyDataOptionDeepProperties context (S fuel) segments
         (ObjectExpression (before ++ Property key (Some k) value :: after))
         references
       = appM (verifyDataOptionDeepProperties context (S fuel) segments
                 (ObjectExpression before) references)
           (appM (verifyDataOptionDeepProperties context fuel
                    (segments ++ [k]) value (getNest references k))
              (verifyDataOptionDeepProperties context (S fuel) segments
                 (ObjectExpression after) references)))
  ∧ (∀ fuel,
       aliasFree (ObjectExpression members) = true →
       (depth (ObjectExpression members) ≤ fuel)%nat →
       reportProperty context (S fuel) template effective effectiveInputs
         property
       = Some (deepUnused [name property] (ObjectExpression members)
                 (getNest effective (name property))))
  ∧ reports <$> runFile Examples.deepContext 2 Examples.profileFile
    = Some [unusedReport 22 "data" "profile.age"].
Proof.
  intros Hdeep Hgroup Htype Hvalue Hpublic Hcovered.
  assert (Hmember : ∀ fuel,
             reportProperty context fuel template effective effectiveInputs
               property
             = verifyDataOptionDeepProperties context fuel [name property]
                 (ObjectExpression members)
                 (getNest effective (name property))).
  { intros fuel. unfold reportProperty.
    rewrite Hgroup, Hpublic, Hcovered, Htype, Hdeep, Hvalue. reflexivity. }
  split; [exact Hmember|]. split; [|split; [|split; [|split]]].
  - intros fuel found. rewrite Hmember. intros Hv.
    apply verify_names in Hv; [|done].
    eapply Forall_impl; [exact Hv|]. simpl. intros r Hlt Heq.
    rewrite Heq in Hlt. lia.
  - intros fuel segments references before key k value after Hk.
    rewrite !verify_object, concatM_app, concatM_cons.
    unfold verifyMember at 2. by rewrite Hk.
  - intros fuel segments references before key k value after Hk.
    rewrite !verify_object, concatM_app, concatM_cons.
    unfold verifyMember at 2. by rewrite Hk.
  - intros fuel Hfree Hd. rewrite Hmember. by apply verify_literal.
  - vm_compute. reflexivity.
Qed.

Lemma C2_deep_check_witness :
  reportProperty Examples.deepContext 2
    {| tpl_propertyReferences := []; refNames := ∅ |}
    (fromPath ["profile"; "name"] false) never Examples.profileMember
  = Some (deepUnused ["profile"] Examples.profileValue
            (getNest (fromPath ["profile"; "name"] false) "profile")).
Proof.
  refine (proj1 (proj2 (proj2 (proj2 (proj2
            (C2_deep_check_of_covered_data Examples.deepContext
               {| tpl_propertyReferences := []; refNames := ∅ |}
               (fromPath ["profile"; "name"] false) never
               Examples.profileMember
               (Examples.objectProperty 20 Examples.profileValue)
               [Property 21 (Some "name") Examples.literal;
                Property 22 (Some "age") Examples.literal]
               _ _ _ _ _ _))))) 1 _ _);
    reflexivity.
Defined.

(** C2, as stated, fails: with [ignorePublicMembers] set and a JSDoc
    comment tagged [@public] before [profile: { name: 'x', age: 1 }],
    deep checking is enabled, the member is a [data] object entry whose
    value is an object literal, the reference sets cover it (only
    [this.profile.name] is read) and they do not cover its sub-entry
    [age]; yet the matcher passes the member over before it looks at
    the reference sets: it walks no sub-entry and reports nothing, where
    the walk of the literal would have reported [profile.age]. *)
Lemma C2_public_member_counterexample :
  deepData MoreExamples.publicContext = true
  ∧ groupName Examples.profileMember = data
  ∧ type Examples.profileMember
    = TypeObject (Examples.objectProperty 20 Examples.profileValue)
  ∧ prop_value (Examples.objectProperty 20 Examples.profileValue)
    = ObjectExpression
        [Property 21 (Some "name") Examples.literal;
         Property 22 (Some "age") Examples.literal]
  ∧ hasProperty (fromPath ["profile"; "name"] false) "profile" false = true
  ∧ hasProperty (getNest (fromPath ["profile"; "name"] false) "profile")
      "age" true = false
  ∧ verifyDataOptionDeepProperties MoreExamples.publicContext 2 ["profile"]
      Examples.profileValue
      (getNest (fromPath ["profile"; "name"] false) "profile")
    = Some [unusedReport 22 "data" "profile.age"]
  ∧ (∀ fuel,
       reportProperty MoreExamples.publicContext fuel
         {| tpl_propertyReferences := []; refNames := ∅ |}
         (fromPath ["profile"; "name"] false) never Examples.profileMember
       = Some [])
  ∧ reports <$> runFile MoreExamples.publicContext 2 Examples.profileFile
    = Some [].
Proof.
  repeat split; try reflexivity; vm_compute; reflexivity.
Qed.

(* ===================================================================== *)
(** * The container map *)
(* ===================================================================== *)

Section ContainerMap.

Implicit Types (m : list (ASTNode * VueComponentPropertiesContainer))
         (n k : ASTNode)
         (f : VueComponentPropertiesContainer
              → VueComponentPropertiesContainer).

Lemma mapGet_mapUpdate_eq m n f :
  mapGet (mapUpdate m n f) n
  = Some (f (default emptyContainer (mapGet m n))).
Proof.
  induction m as [|[k c] m IH]; simpl.
  - by rewrite decide_True.
  - destruct (decide (k = n)) as [->|Hne]; simpl.
    + by rewrite decide_True.
    + by rewrite decide_False.
Qed.

Lemma mapGet_mapUpdate_ne m n k f :
  n ≠ k → mapGet (mapUpdate m n f) k = mapGet m k.
Proof.
  intros Hne. induction m as [|[k' c] m IH]; simpl.
  - by rewrite decide_False.
  - destruct (decide (k' = n)) as [->|Hne']; simpl.
    + by destruct (decide (n = k)).
    + by destruct (decide (k' = k)).
Qed.

Lemma mapUpdate_Forall (P : VueComponentPropertiesContainer → Prop) m n f :
  P (f emptyContainer) → (∀ c, P c → P (f c)) →
  Forall (λ entry, P entry.2) m →
  Forall (λ entry, P entry.2) (mapUpdate m n f).
Proof.
  intros Hnew Hf. induction 1 as [|[k c] m Hc Hm IH]; simpl.
  - by repeat constructor.
  - destruct (decide (k = n)); constructor; simpl; auto.
Qed.

End ContainerMap.

(* ===================================================================== *)
(** * Claims about the matcher *)
(* ===================================================================== *)

Lemma PROPERTY_LABEL_props (g : GroupName) :
  PROPERTY_LABEL g = PROPERTY_LABEL props → g = props.
Proof. by destruct g. Qed.

(** The findings for one member are findings of the deep check, labelled
    as [data], or the one finding that names the member, which an input
    gets only when the input-consumption sets do not cover it. *)
Lemma reportProperty_findings context fuel template general inputs q found :
  reportProperty context fuel template general inputs q = Some found →
  Forall (λ r, report_group r = PROPERTY_LABEL data
               ∨ (report_group r = PROPERTY_LABEL (groupName q)
                  ∧ report_name r = name q
                  ∧ (groupName q = props →
                     hasProperty inputs (name q) false = false))) found.
Proof.
  unfold reportProperty.
  destruct (bool_decide (groupName q = props)) eqn:Hg; simpl.
  - destruct (hasProperty inputs (name q) false) eqn:Hin; simpl;
      [by intros [= <-]|].
    apply bool_decide_eq_true in Hg.
    rewrite Hg. simpl.
    destruct (ignorePublicMembers context && _); [by intros [= <-]|].
    destruct (hasProperty general (name q) false).
    + destruct (type q); try (by intros [= <-]).
      rewrite andb_false_r. by intros [= <-].
    + intros [= <-]. constructor; [|constructor]. right. done.
  - apply bool_decide_eq_false in Hg.
    destruct (_ && bool_decide (name q ∈ refNames template));
      [by intros [= <-]|].
    destruct (ignorePublicMembers context && _); [by intros [= <-]|].
    destruct (hasProperty general (name q) false).
    + destruct (type q); try (by intros [= <-]).
      destruct (deepData context && _); [|by intros [= <-]].
      intros Hv. apply verify_group in Hv.
      eapply Forall_impl; [exact Hv|]. simpl. auto.
    + intros [= <-]. constructor; [|constructor]. right. done.
Qed.

(** C1.  A member of the [props] group whose name the merged
    input-consumption sets cover is never reported, whatever the general
    reference sets contain: its own pass through the matcher emits
    nothing, and no finding of its container is a [property] finding
    with its name.  An input [size] consumed only through the
    destructured first parameter [{ size }] of [setup] yields no
    finding. *)
Theorem C1_consumed_input_is_not_reported
        (context : RuleContext) (fuel : nat)
        (template : TemplatePropertiesContainer)
        (container : VueComponentPropertiesContainer)
        (general : IPropertyReferences)
        (property : ComponentPropertyData) :
  groupName property = props →
  hasProperty (mergePropertyReferences (propertyReferencesForProps container))
    (name property) false = true →
  reportProperty context fuel template general
    (mergePropertyReferences (propertyReferencesForProps container)) property
  = Some []
  ∧ (∀ found,
       reportContainer context fuel template container = Some found →
       Forall (λ r, ¬ (report_group r = PROPERTY_LABEL props
                       ∧ report_name r = name property)) found)
  ∧ reports <$> runFile Examples.defaultContext 0 Examples.sizeFile = Some [].
Proof.
  intros Hgroup Hcovered. split; [|split].
  - unfold reportProperty. by rewrite Hgroup, Hcovered.
  - intros found. unfold reportContainer. apply concatM_Forall.
    intros q here _ Hq. apply reportProperty_findings in Hq.
    eapply Forall_impl; [exact Hq|]. simpl.
    intros r [Hdata|(Hlabel & Hname & Hq')] [Hr1 Hr2].
    + rewrite Hdata in Hr1. discriminate.
    + rewrite Hr1 in Hlabel. symmetry in Hlabel.
      apply PROPERTY_LABEL_props in Hlabel.
      rewrite <- Hr2, Hname, (Hq' Hlabel) in Hcovered. discriminate.
  - vm_compute. reflexivity.
Qed.

Lemma C1_consumed_input_witness :
  reportProperty Examples.defaultContext 0
    {| tpl_propertyReferences := []; refNames := ∅ |} never
    (mergePropertyReferences
       [extractFromFunctionParam
          [PatObject [PatProperty (Some "size") (PatIdentifier "size")]] 0])
    Examples.sizeMember
  = Some [].
Proof.
  refine (proj1 (C1_consumed_input_is_not_reported Examples.defaultContext 0
                   {| tpl_propertyReferences := []; refNames := ∅ |}
                   {| properties := [Examples.sizeMember];
                      propertyReferences := [];
                      propertyReferencesForProps :=
                        [extractFromFunctionParam
                           [PatObject [PatProperty (Some "size")
                                         (PatIdentifier "size")]] 0] |}
                   never Examples.sizeMember _ _));
    reflexivity.
Defined.

(* ===================================================================== *)
(** * Claims about the collectors *)
(* ===================================================================== *)

Lemma elem_of_concat {A} (x : A) (l : list A) (ls : list (list A)) :
  l ∈ ls → x ∈ l → x ∈ concat ls.
Proof.
  intros Hl Hx. apply list_elem_of_In, in_concat. exists l.
  split; by apply list_elem_of_In.
Qed.

(** C7, as the code has it.  On entering a render function the set
    extracted from the first parameter is appended to the definition's
    input-consumption list.  Only when the definition is functional is
    a second set appended after it: the nest under [props] of the set
    extracted from the second parameter (the empty set when there is no
    second parameter).  For a definition that is not functional the
    second parameter adds nothing.  Nothing else of the container
    changes. *)
Theorem C7_render_function_parameters
        (params : list Pattern) (vueData : VueObjectData) (st : RuleState) :
  ∃ after,
    mapGet (vueComponentPropertiesContainerMap
              (onRenderFunctionEnter params vueData st))
           (vd_node vueData) = Some after
    ∧ let before :=
        default emptyContainer
          (mapGet (vueComponentPropertiesContainerMap st) (vd_node vueData))
      in
      propertyReferencesForProps after
      = propertyReferencesForProps before
        ++ extractFromFunctionParam params 0
           :: (if functional vueData
               then [getNest (extractFromFunctionParam params 1) "props"]
               else [])
      ∧ properties after = properties before
      ∧ propertyReferences after = propertyReferences before.
Proof.
  unfold onRenderFunctionEnter.
  destruct (functional vueData); simpl.
  - eexists. split.
    + rewrite mapGet_mapUpdate_eq, mapGet_mapUpdate_eq. reflexivity.
    + simpl. by rewrite <- app_assoc.
  - eexists. split.
    + rewrite mapGet_mapUpdate_eq. reflexivity.
    + done.
Qed.

(** C7, as stated, fails: in a definition that is not functional, the
    render function [render({ $slots }, { props: { size } })] has a
    second parameter, yet the only set in the input-consumption list is
    the one of the first parameter; the nest under [props] of the second
    one, which covers [size], is not in the list, and the input [size]
    is reported. *)
Lemma C7_second_parameter_counterexample :
  is_Some (Examples.renderParams !! 1)
  ∧ (∃ after,
       mapGet (vueComponentPropertiesContainerMap
                 (onRenderFunctionEnter Examples.renderParams
                    (Examples.component 1) initialState)) 1 = Some after
       ∧ getNest (extractFromFunctionParam Examples.renderParams 1) "props"
         ∉ propertyReferencesForProps after)
  ∧ reports <$> runFile Examples.defaultContext 0 Examples.renderFile
    = Some [unusedReport 10 "property" "size"].
Proof.
  split; [by eexists|]. split.
  - eexists. split; [reflexivity|].
    simpl. intros Hin. apply list_elem_of_singleton in Hin.
    apply (f_equal (λ r, hasProperty r "size" false)) in Hin.
    vm_compute in Hin. discriminate.
  - vm_compute. reflexivity.
Qed.

(** C6, as the code has it.  Entering a component definition leaves the
    per-file template container untouched and leaves every other
    definition's container untouched.  The set extracted from each
    watcher's key, and from each quoted-string handler value of a
    watcher whose property is an [init] property, is in the reference
    list of the container of the definition that holds the watcher. *)
Theorem C6_watcher_references_stay_in_definition
        (context : RuleContext) (n : VueObjectNode) (st : RuleState) :
  templatePropertiesContainer (onVueObjectEnter context n st)
  = templatePropertiesContainer st
  ∧ (∀ other, other ≠ vo_node n →
       mapGet (vueComponentPropertiesContainerMap
                 (onVueObjectEnter context n st)) other
       = mapGet (vueComponentPropertiesContainerMap st) other)
  ∧ ∃ own,
      mapGet (vueComponentPropertiesContainerMap
                (onVueObjectEnter context n st)) (vo_node n) = Some own
      ∧ ∀ watcher,
          watcher ∈ vo_declared n → groupName watcher = watch →
          extractFromPath (name watcher) ∈ propertyReferences own
          ∧ ∀ p target,
              type watcher = TypeObject p → prop_kind p = KindInit →
              Some target ∈ prop_handlerValues p →
              extractFromNameLiteral (Some target)
              ∈ propertyReferences own.
Proof.
  split; [done|]. split.
  - intros other Hne. unfold onVueObjectEnter; simpl.
    by apply mapGet_mapUpdate_ne.
  - eexists. split.
    + unfold onVueObjectEnter; simpl. apply mapGet_mapUpdate_eq.
    + intros watcher Hin Hgroup. simpl.
      assert (Hw : watcher ∈ iterateProperties n
                                [GROUP_WATCHER; GROUP_EXPOSE]).
      { unfold iterateProperties. apply list_elem_of_filter.
        split; [|done]. rewrite Hgroup. by left. }
      assert (Hsub : ∀ r, r ∈ watcherOrExposeReferences watcher →
                 r ∈ default [] (Some (propertyReferences
                                   (default emptyContainer
                                      (mapGet
                                         (vueComponentPropertiesContainerMap
                                            st) (vo_node n)))))
                     ++ concat (watcherOrExposeReferences <$>
                                  iterateProperties n
                                    [GROUP_WATCHER; GROUP_EXPOSE])).
      { intros r Hr. apply elem_of_app. right.
        apply (elem_of_concat _ (watcherOrExposeReferences watcher));
          [|done].
        by apply (list_elem_of_fmap_2 watcherOrExposeReferences). }
      simpl in Hsub.
      unfold watcherOrExposeReferences in Hsub.
      rewrite Hgroup in Hsub. simpl in Hsub. split.
      * apply Hsub. by left.
      * intros p target Htype Hkind Htarget. apply Hsub.
        rewrite Htype, Hkind. right.
        by apply (list_elem_of_fmap_2 extractFromNameLiteral _ (Some target)).
Qed.

(** C6, as stated, fails: in a file with two definitions, where the
    first watches [foo] (by key, and with the quoted handler ['foo'])
    and the second declares the input [foo] and never reads it, the
    template container holds no reference set after both visits, and
    the second definition's [foo] is reported as unused. *)
Lemma C6_template_container_counterexample :
  tpl_propertyReferences
    (templatePropertiesContainer
       (runScript Examples.defaultContext
          (script Examples.twoDefinitionsFile) initialState)) = []
  ∧ reports <$> runFile Examples.defaultContext 0 Examples.twoDefinitionsFile
    = Some [unusedReport 60 "property" "foo"].
Proof. split; vm_compute; reflexivity. Qed.

(* ===================================================================== *)
(** * The script visitor only accumulates *)
(* ===================================================================== *)

Lemma scriptVisitor_silent context ev st :
  reports (scriptVisitor context ev st) = reports st
  ∧ finalizations (scriptVisitor context ev st) = finalizations st
  ∧ templatePropertiesContainer (scriptVisitor context ev st)
    = templatePropertiesContainer st.
Proof.
  destruct ev as [n ps|n|params link vd|params vd|params vd
                 |isThis site vd]; simpl; try done.
  - unfold onDefinePropsEnter.
    destruct (negb (groups_has context props)); [done|].
    by destruct (match dp_parent n with
                 | Some (ParentCall true (Some "withDefaults") outer) => outer
                 | other => other
                 end) as [[| [] pattern |]|].
  - unfold onFunctionWithParams.
    by destruct (takesComponentAsParameter link vd).
  - unfold onRenderFunctionEnter. by destruct (functional vd).
  - unfold onThisOrIdentifier. by destruct (negb isThis).
Qed.

Lemma runScript_silent context events :
  ∀ st,
    reports (runScript context events st) = reports st
    ∧ finalizations (runScript context events st) = finalizations st
    ∧ templatePropertiesContainer (runScript context events st)
      = templatePropertiesContainer st.
Proof.
  induction events as [|ev events IH]; intros st; [done|].
  change (runScript context (ev :: events) st)
    with (runScript context events (scriptVisitor context ev st)).
  destruct (IH (scriptVisitor context ev st)) as (-> & -> & ->).
  apply scriptVisitor_silent.
Qed.

(* ===================================================================== *)
(** * The default groups *)
(* ===================================================================== *)

Section DefaultGroups.

Variable context : RuleContext.
Hypothesis no_groups_option :
  ∀ o, options context = Some o → opt_groups o = None.

Lemma default_groups : groups context = [props].
Proof.
  unfold groups. destruct (options context) as [o|] eqn:Ho; [|done].
  by rewrite (no_groups_option o).
Qed.

Lemma definedProperties_inputs ps :
  Forall (λ q, groupName q = props) (definedProperties ps).
Proof.
  induction ps as [|prop ps IH]; [constructor|].
  unfold definedProperties in *. simpl.
  destruct (propName prop) as [[|c s]|]; simpl; try done.
  by constructor.
Qed.

Lemma iterateProperties_inputs n :
  Forall (λ q, groupName q = props) (iterateProperties n (groups context)).
Proof.
  rewrite default_groups. unfold iterateProperties.
  apply Forall_forall. intros q Hq.
  apply list_elem_of_filter in Hq as [Hq _].
  by apply list_elem_of_singleton in Hq.
Qed.

Lemma withContainer_onlyInputs n f st :
  Forall (λ q, groupName q = props) (properties (f emptyContainer)) →
  (∀ c, Forall (λ q, groupName q = props) (properties c) →
        Forall (λ q, groupName q = props) (properties (f c))) →
  onlyInputs st → onlyInputs (withContainer n f st).
Proof.
  intros Hnew Hf Hst. unfold onlyInputs, withContainer; simpl.
  by apply (mapUpdate_Forall
              (λ c, Forall (λ q, groupName q = props) (properties c))).
Qed.

Lemma scriptVisitor_onlyInputs ev st :
  onlyInputs st → onlyInputs (scriptVisitor context ev st).
Proof.
  intros Hst. destruct ev as [n ps|n|params link vd|params vd|params vd
                             |isThis site vd]; simpl.
  - unfold onDefinePropsEnter.
    destruct (negb (groups_has context props)); [done|].
    assert (H1 : onlyInputs (withContainer (dp_node n)
                               (addProperties (definedProperties ps)) st)).
    { apply withContainer_onlyInputs; [| |done]; simpl.
      - apply definedProperties_inputs.
      - intros c Hc. apply Forall_app. split; [done|].
        apply definedProperties_inputs. }
    destruct (match dp_parent n with
              | Some (ParentCall true (Some "withDefaults") outer) => outer
              | other => other
              end) as [[| [] pattern |]|]; try done.
    by apply withContainer_onlyInputs.
  - unfold onVueObjectEnter.
    apply withContainer_onlyInputs; [| |done]; simpl.
    + apply iterateProperties_inputs.
    + intros c Hc. apply Forall_app. split; [done|].
      apply iterateProperties_inputs.
  - unfold onFunctionWithParams.
    destruct (takesComponentAsParameter link vd); [|done].
    by apply withContainer_onlyInputs.
  - unfold onSetupFunctionEnter. by apply withContainer_onlyInputs.
  - unfold onRenderFunctionEnter.
    destruct (functional vd); repeat apply withContainer_onlyInputs; done.
  - unfold onThisOrIdentifier. destruct (negb isThis); [done|].
    by apply withContainer_onlyInputs.
Qed.

Lemma runScript_onlyInputs events st :
  onlyInputs st → onlyInputs (runScript context events st).
Proof.
  revert st. induction events as [|ev events IH]; intros st Hst; [done|].
  apply IH. by apply scriptVisitor_onlyInputs.
Qed.

(** An input goes through the matcher without any nested call: it is
    covered, or it is the one finding that names it. *)
Lemma reportProperty_input fuel template general inputs q :
  groupName q = props →
  ∃ found,
    reportProperty context fuel template general inputs q = Some found
    ∧ Forall (λ r, report_group r = PROPERTY_LABEL props) found.
Proof.
  intros Hq. unfold reportProperty. rewrite Hq. simpl.
  destruct (hasProperty inputs (name q) false); simpl;
    [by eexists|].
  destruct (ignorePublicMembers context && _); [by eexists|].
  destruct (hasProperty general (name q) false).
  - destruct (type q); rewrite ?andb_false_r; by eexists.
  - eexists. split; [done|]. by repeat constructor.
Qed.

Lemma concatM_inputs {A} (f : A → option (list Report)) (l : list A) :
  (∀ x, x ∈ l →
        ∃ found, f x = Some found
                 ∧ Forall (λ r, report_group r = PROPERTY_LABEL props) found) →
  ∃ found, concatM f l = Some found
           ∧ Forall (λ r, report_group r = PROPERTY_LABEL props) found.
Proof.
  induction l as [|x l IH]; intros H; simpl.
  - eexists. split; [done|constructor].
  - destruct (H x) as (here & -> & Hhere); [by left|].
    destruct IH as (later & -> & Hlater).
    { intros y Hy. apply H. by right. }
    eexists. split; [done|]. by apply Forall_app.
Qed.

Lemma reportUnusedProperties_onlyInputs fuel st :
  onlyInputs st →
  Forall (λ r, report_group r = PROPERTY_LABEL props) (reports st) →
  ∃ st',
    reportUnusedProperties context fuel st = Some st'
    ∧ onlyInputs st'
    ∧ Forall (λ r, report_group r = PROPERTY_LABEL props) (reports st').
Proof.
  intros Hst Hreports. unfold reportUnusedProperties.
  destruct (concatM_inputs
              (λ entry, reportContainer context fuel
                          (templatePropertiesContainer st) entry.2)
              (vueComponentPropertiesContainerMap st))
    as (found & Hfound & Hlabels).
  { intros [n c] Hin. unfold reportContainer. apply concatM_inputs.
    intros q Hq. apply reportProperty_input.
    unfold onlyInputs in Hst.
    rewrite Forall_forall in Hst. specialize (Hst _ Hin). simpl in Hst.
    rewrite Forall_forall in Hst. by apply Hst. }
  unfold unusedProperties. rewrite Hfound.
  eexists. split; [done|]. split; [done|]. simpl. by apply Forall_app.
Qed.

Lemma templateVisitor_onlyInputs fuel ev st :
  onlyInputs st →
  Forall (λ r, report_group r = PROPERTY_LABEL props) (reports st) →
  ∃ st',
    templateVisitor context fuel ev st = Some st'
    ∧ onlyInputs st'
    ∧ Forall (λ r, report_group r = PROPERTY_LABEL props) (reports st').
Proof.
  intros Hst Hreports. destruct ev as [sites|keyName [v|]|[|]]; simpl.
  - by eexists.
  - destruct (bool_decide (keyName = "ref")); by eexists.
  - by eexists.
  - by apply reportUnusedProperties_onlyInputs.
  - by eexists.
Qed.

Lemma runTemplate_onlyInputs fuel events :
  ∀ st,
    onlyInputs st →
    Forall (λ r, report_group r = PROPERTY_LABEL props) (reports st) →
    ∃ st',
      runTemplate context fuel events st = Some st'
      ∧ onlyInputs st'
      ∧ Forall (λ r, report_group r = PROPERTY_LABEL props) (reports st').
Proof.
  induction events as [|ev events IH]; intros st Hst Hreports; simpl.
  - by eexists.
  - destruct (templateVisitor_onlyInputs fuel ev st Hst Hreports)
      as (st1 & -> & Hst1 & Hreports1).
    by apply IH.
Qed.

Lemma runFile_onlyInputs fuel f :
  ∃ st,
    runFile context fuel f = Some st
    ∧ onlyInputs st
    ∧ Forall (λ r, report_group r = PROPERTY_LABEL props) (reports st).
Proof.
  unfold runFile, onProgramExit.
  set (st0 := runScript context (script f) initialState).
  assert (H0 : onlyInputs st0)
    by (apply runScript_onlyInputs; constructor).
  assert (R0 : reports st0 = []).
  { subst st0. by destruct (runScript_silent context (script f)
                              initialState) as (-> & _). }
  set (st1 := match styleVars f with
              | Some sites =>
                  withTemplate
                    (addTemplateReferences [extractFromSites sites]) st0
              | None => st0
              end).
  assert (H1 : onlyInputs st1) by (subst st1; by destruct (styleVars f)).
  assert (R1 : Forall (λ r, report_group r = PROPERTY_LABEL props)
                 (reports st1)).
  { subst st1. destruct (styleVars f); simpl; rewrite R0; constructor. }
  destruct (negb (bool_decide (is_Some (templateBody f)))).
  - destruct (reportUnusedProperties_onlyInputs fuel st1 H1 R1)
      as (st2 & -> & H2 & R2).
    by apply runTemplate_onlyInputs.
  - by apply runTemplate_onlyInputs.
Qed.

End DefaultGroups.

(** C9.  When the rule runs without a [groups] option, the tracked
    groups are the [props] group alone: whatever the script's visits,
    every member collected in any container is an input, and the rule
    returns on every file with findings that all carry the label of the
    [props] group, so no member of another group is collected or
    reported. *)
Theorem C9_default_groups_track_inputs_only (context : RuleContext) :
  (∀ o, options context = Some o → opt_groups o = None) →
  groups context = [props]
  ∧ (∀ events, onlyInputs (runScript context events initialState))
  ∧ (∀ fuel f,
       ∃ st,
         runFile context fuel f = Some st
         ∧ onlyInputs st
         ∧ Forall (λ r, report_group r = PROPERTY_LABEL props) (reports st)).
Proof.
  intros Hdefault. split; [|split].
  - by apply default_groups.
  - intros events. apply runScript_onlyInputs; [done|constructor].
  - intros fuel f. by apply runFile_onlyInputs.
Qed.

Lemma C9_default_groups_witness :
  ∃ st,
    runFile Examples.deepOnlyContext 0 Examples.profileFile = Some st
    ∧ onlyInputs st
    ∧ Forall (λ r, report_group r = PROPERTY_LABEL props) (reports st).
Proof.
  refine (proj2 (proj2 (C9_default_groups_track_inputs_only
                          Examples.deepOnlyContext _)) 0
            Examples.profileFile).
  intros o [= <-]. reflexivity.
Defined.

(* ===================================================================== *)
(** * Finalization *)
(* ===================================================================== *)

Lemma VNode_nested_ind (P : VNode → Prop) :
  (∀ attributes children,
     Forall P children → P (VElement attributes children)) →
  (∀ sites, P (VExpressionContainer sites)) →
  P VText →
  ∀ n, P n.
Proof.
  intros Helement Hcontainer Htext. fix IH 1.
  intros [attributes children|sites|].
  - apply Helement. induction children as [|c children IHc].
    + constructor.
    + constructor; [apply IH|apply IHc].
  - apply Hcontainer.
  - apply Htext.
Qed.

Lemma attributeEvents_quiet attributes :
  Forall (λ ev, firesFinalization ev = false)
         (concat (attributeEvents <$> attributes)).
Proof.
  induction attributes as [|[keyName value|[sites|]] attributes IH]; simpl;
    [constructor| | |]; try done; by constructor.
Qed.

(** Below the template body no element's exit runs the pass: the parent
    of each is an element. *)
Lemma traverseTemplate_below_quiet n :
  Forall (λ ev, firesFinalization ev = false)
         (traverseTemplate VElementParent n).
Proof.
  induction n as [attributes children IH|sites|] using VNode_nested_ind;
    simpl; [|by repeat constructor|constructor].
  apply Forall_app. split; [apply attributeEvents_quiet|].
  apply Forall_app. split; [|by repeat constructor].
  induction IH as [|c children Hc _ IHchildren]; [constructor|].
  by apply Forall_app.
Qed.

(** The visits of a template are visits that only accumulate, followed
    by the exit of the template body. *)
Lemma templateEvents_body f attributes children :
  templateBody f = Some (attributes, children) →
  ∃ quiet,
    templateEvents f = quiet ++ [OnVElementExit VDocumentFragment]
    ∧ Forall (λ ev, firesFinalization ev = false) quiet.
Proof.
  intros Hbody. unfold templateEvents. rewrite Hbody. simpl.
  eexists (_ ++ _). rewrite <- app_assoc. split; [reflexivity|].
  apply Forall_app. split; [apply attributeEvents_quiet|].
  clear Hbody. induction children as [|c children IH]; [constructor|].
  apply Forall_app. split; [apply traverseTemplate_below_quiet|apply IH].
Qed.

Lemma templateVisitor_quiet context fuel ev st :
  firesFinalization ev = false →
  templateVisitor context fuel ev st = Some (accumulateTemplate ev st).
Proof.
  destruct ev as [sites|keyName [v|]|[|]]; simpl; try done.
  by destruct (bool_decide (keyName = "ref")).
Qed.

Lemma runTemplate_quiet context fuel events :
  Forall (λ ev, firesFinalization ev = false) events →
  ∀ st,
    runTemplate context fuel events st
    = Some (foldl (λ s ev, accumulateTemplate ev s) st events).
Proof.
  induction 1 as [|ev events Hev _ IH]; intros st; [done|].
  simpl. by rewrite templateVisitor_quiet, IH.
Qed.

Lemma runTemplate_app context fuel events1 events2 st :
  runTemplate context fuel (events1 ++ events2) st
  = match runTemplate context fuel events1 st with
    | Some st' => runTemplate context fuel events2 st'
    | None => None
    end.
Proof.
  revert st. induction events1 as [|ev events1 IH]; intros st; [done|].
  simpl. by destruct (templateVisitor context fuel ev st).
Qed.

Lemma accumulateTemplate_silent ev st :
  reports (accumulateTemplate ev st) = reports st
  ∧ finalizations (accumulateTemplate ev st) = finalizations st.
Proof.
  destruct ev as [sites|keyName [v|]|parentType]; simpl; try done.
  by destruct (bool_decide (keyName = "ref")).
Qed.

Lemma accumulated_silent context f :
  reports (accumulated context f) = []
  ∧ finalizations (accumulated context f) = 0.
Proof.
  unfold accumulated.
  set (st1 := match styleVars f with
              | Some sites => _
              | None => _
              end).
  assert (H1 : reports st1 = [] ∧ finalizations st1 = 0).
  { subst st1.
    destruct (runScript_silent context (script f) initialState)
      as (Hr & Hf & _).
    by destruct (styleVars f). }
  revert H1. generalize st1. clear st1.
  induction (templateEvents f) as [|ev events IH]; intros st H; [done|].
  simpl. apply IH.
  destruct (accumulateTemplate_silent ev st) as [-> ->]. done.
Qed.

(** A pass over a state without deep checking needs no nested call. *)
Lemma reportUnusedProperties_shallow context fuel st :
  deepData context = false →
  is_Some (reportUnusedProperties context fuel st).
Proof.
  intros Hshallow. unfold reportUnusedProperties.
  destruct (concatM_total
              (λ entry : ASTNode * VueComponentPropertiesContainer,
                 reportContainer context fuel
                   (templatePropertiesContainer st) entry.2)
              (vueComponentPropertiesContainerMap st)) as [found Hfound].
  { intros [n c] _. unfold reportContainer. apply concatM_total.
    intros q _. unfold reportProperty. rewrite Hshallow. simpl.
    repeat match goal with
      | |- is_Some (if ?b then _ else _) => destruct b
      | |- is_Some (match ?t with _ => _ end) => destruct t
      end; by eexists. }
  unfold unusedProperties. rewrite Hfound. by eexists.
Qed.

Lemma afterStyle_silent context f :
  let st1 :=
    match styleVars f with
    | Some sites =>
        withTemplate (addTemplateReferences [extractFromSites sites])
          (runScript context (script f) initialState)
    | None => runScript context (script f) initialState
    end in
  reports st1 = [] ∧ finalizations st1 = 0.
Proof.
  destruct (runScript_silent context (script f) initialState)
    as (Hr & Hf & _).
  by destruct (styleVars f).
Qed.

Lemma reportUnusedProperties_counts context fuel st st' :
  reportUnusedProperties context fuel st = Some st' →
  finalizations st' = S (finalizations st)
  ∧ ∃ found, unusedProperties context fuel st = Some found
             ∧ reports st' = reports st ++ found.
Proof.
  unfold reportUnusedProperties.
  destruct (unusedProperties context fuel st) as [found|]; [|done].
  intros [= <-]. split; [done|]. by exists found.
Qed.

(** In one pass a declared member is named by at most one finding of
    its own: the deep check's findings carry longer, qualified names. *)
Lemma reportProperty_names_member_once
      context fuel template general inputs q found :
  reportProperty context fuel template general inputs q = Some found →
  (length (filter (λ r, report_name r = name q) found) ≤ 1)%nat.
Proof.
  assert (Hnone : ∀ l : list Report,
             Forall (λ r, String.length (String.concat "." [name q])
                          < String.length (report_name r)) l →
             (length (filter (λ r, report_name r = name q) l) ≤ 1)%nat).
  { induction 1 as [|r l Hr _ IH]; [simpl; lia|].
    rewrite filter_cons, decide_False; [done|].
    simpl in Hr. intros Heq. rewrite Heq in Hr. lia. }
  assert (Hone : ∀ r : Report,
             (length (filter (λ r, report_name r = name q) [r]) ≤ 1)%nat).
  { intros r. rewrite filter_cons. destruct (decide _); simpl; lia. }
  unfold reportProperty.
  repeat match goal with
    | |- (if ?b then _ else _) = Some _ → _ => destruct b
    | |- match ?t with _ => _ end = Some _ → _ => destruct t
    | |- Some _ = Some _ → _ => intros [= <-]; (apply Hone || (simpl; lia))
    end.
  intros Hv. apply Hnone. by apply verify_names in Hv.
Qed.

(** C4.  The finalization pass runs exactly once per file.  The rule's
    run on a file is one pass of [reportUnusedProperties] over the state
    accumulated by all the visits of the script and of the template:
    when the run returns, the pass has been entered once and the
    findings are those of that one pass.  At [Program:exit] the pass has
    run if and only if the file has no template body; with a template
    body it runs at the exit of the body, after every other template
    visit.  In a pass each declared member is named by at most one
    finding of its own.  Without deep checking the run always
    returns. *)
Theorem C4_finalization_runs_once
        (context : RuleContext) (fuel : nat) (f : File) :
  runFile context fuel f
  = reportUnusedProperties context fuel (accumulated context f)
  ∧ (∀ st,
       runFile context fuel f = Some st →
       finalizations st = 1
       ∧ unusedProperties context fuel (accumulated context f)
         = Some (reports st))
  ∧ (∀ st,
       onProgramExit context fuel (styleVars f)
         (bool_decide (is_Some (templateBody f)))
         (runScript context (script f) initialState) = Some st →
       finalizations st
       = match templateBody f with Some _ => 0 | None => 1 end)
  ∧ (∀ template general inputs q found,
       reportProperty context fuel template general inputs q = Some found →
       (length (filter (λ r, report_name r = name q) found) ≤ 1)%nat)
  ∧ (deepData context = false → is_Some (runFile context fuel f)).
Proof.
  assert (Hrun : runFile context fuel f
                 = reportUnusedProperties context fuel
                     (accumulated context f)).
  { unfold runFile, accumulated, onProgramExit.
    destruct (templateBody f) as [[attributes children]|] eqn:Hbody.
    - destruct (templateEvents_body f attributes children Hbody)
        as (quiet & -> & Hquiet).
      rewrite bool_decide_eq_true_2 by (by eexists). simpl negb. cbv iota.
      rewrite runTemplate_app, runTemplate_quiet by done.
      rewrite foldl_app. simpl.
      by destruct (reportUnusedProperties context fuel _).
    - unfold templateEvents. rewrite Hbody.
      rewrite bool_decide_eq_false_2 by (by intros [? ?]). simpl.
      by destruct (reportUnusedProperties context fuel _). }
  split; [exact Hrun|]. split; [|split; [|split]].
  - intros st Hst. rewrite Hrun in Hst.
    apply reportUnusedProperties_counts in Hst
      as (Hcount & found & Hfound & Hreports).
    destruct (accumulated_silent context f) as [Hr Hf].
    rewrite Hf in Hcount. rewrite Hr in Hreports. simpl in Hreports.
    by rewrite Hreports.
  - intros st. unfold onProgramExit.
    destruct (afterStyle_silent context f) as [_ Hf]. simpl in Hf.
    destruct (templateBody f) as [body|].
    + rewrite bool_decide_eq_true_2 by (by eexists). simpl.
      by intros [= <-].
    + rewrite bool_decide_eq_false_2 by (by intros [? ?]). simpl.
      intros Hst. apply reportUnusedProperties_counts in Hst as [Hcount _].
      by rewrite Hcount, Hf.
  - intros template general inputs q found.
    apply reportProperty_names_member_once.
  - intros Hshallow. rewrite Hrun.
    by apply reportUnusedProperties_shallow.
Qed.

(* ===================================================================== *)
(** * More about the alias resolution *)
(* ===================================================================== *)

Lemma ConstAlias_inv context id variable def init :
  findVariable context id = Some variable →
  defs variable = [def] →
  ConstAlias context id init →
  def_type def = DefVariable
  ∧ def_parent_kind def = KindConst
  ∧ def_node_init def = Some init.
Proof.
  intros Hv Hd (variable' & def' & Hv' & Hd' & Ht & Hk & Hi).
  rewrite Hv in Hv'. injection Hv' as <-.
  rewrite Hd in Hd'. injection Hd' as <-. done.
Qed.

Lemma findExpression_chain context fuel :
  ∀ id e,
    findExpression fuel context id = Some e →
    ∃ links, links < fuel ∧ Resolves context id links e.
Proof.
  induction fuel as [|fuel IH]; intros id e; [done|].
  simpl.
  destruct (findVariable context id) as [variable|] eqn:Hv.
  2:{ intros [= <-]. exists 0. split; [lia|]. apply resolves_name.
      intros init (v & d & Hv' & _). congruence. }
  assert (Hstop : (∀ init, ¬ ConstAlias context id init) →
                  Some (Identifier id) = Some e →
                  ∃ links, links < S fuel ∧ Resolves context id links e).
  { intros Hno [= <-]. exists 0. split; [lia|]. by apply resolves_name. }
  destruct (defs variable) as [|def [|def2 more]] eqn:Hd.
  - apply Hstop. intros init (v & d & Hv' & Hd' & _). congruence.
  - destruct (def_type def) eqn:Ht;
      try (apply Hstop; intros init Ha;
           destruct (ConstAlias_inv _ _ _ _ _ Hv Hd Ha) as (? & ? & ?);
           congruence).
    destruct (def_parent_kind def) eqn:Hk;
      try (apply Hstop; intros init Ha;
           destruct (ConstAlias_inv _ _ _ _ _ Hv Hd Ha) as (? & ? & ?);
           congruence).
    destruct (def_node_init def) as [init|] eqn:Hi;
      [|apply Hstop; intros init Ha;
        destruct (ConstAlias_inv _ _ _ _ _ Hv Hd Ha) as (? & ? & ?);
        congruence].
    assert (Ha : ConstAlias context id init) by (by exists variable, def).
    destruct init as [id'|members|t].
    + intros Hf. destruct (IH _ _ Hf) as (links & Hlt & Hr).
      exists (S links). split; [lia|]. by apply (resolves_link _ id id').
    + intros [= <-]. exists 0. split; [lia|]. by apply resolves_init.
    + intros [= <-]. exists 0. split; [lia|]. by apply resolves_init.
  - apply Hstop. intros init (v & d & Hv' & Hd' & _). congruence.
Qed.

Lemma Resolves_resolved context id links e :
  Resolves context id links e →
  ∀ x, e = Identifier x → ∀ init, ¬ ConstAlias context x init.
Proof.
  induction 1 as [id Hno|id init Ha Hinit|id id' links e Ha Hr IH];
    intros x Hx.
  - injection Hx as <-. done.
  - subst init. done.
  - by apply IH.
Qed.

(** X1.  [findExpression] returns an expression within a number of
    nested calls exactly when a chain of fewer const-alias links leads
    from the identifier to that expression, each link resolved from the
    scope of the identifier it starts at ([getScope], then the library's
    lookup): the chain semantics is sound and complete for the
    function. *)
Theorem X1_findExpression_follows_exactly_the_chain
        (context : RuleContext) (fuel : nat) (id : Ident)
        (e : Expression) :
  findExpression fuel context id = Some e
  ↔ ∃ links, links < fuel ∧ Resolves context id links e.
Proof.
  split.
  - apply findExpression_chain.
  - intros (links & Hlt & Hr). by apply (findExpression_resolves _ _ links).
Qed.

(** With [const a = { x: 1 }; const c = a] around a [data] function that
    declares [const a = c] and returns [{ foo: a }], the two [a] are
    different variables: the inner one leads, through [c], to the outer
    one and so to the object literal, and the deep check of [foo]
    reports [foo.x]. *)
Lemma X1_shadowing_witness :
  findVariable Examples.shadowContext Examples.innerA
  ≠ findVariable Examples.shadowContext Examples.outerA
  ∧ (∃ links,
       links < 3
       ∧ Resolves Examples.shadowContext Examples.innerA links
           (ObjectExpression [Property 31 (Some "x") Examples.literal]))
  ∧ reports <$> runFile Examples.shadowContext 4 Examples.shadowFile
    = Some [unusedReport 31 "data" "foo.x"].
Proof.
  split; [discriminate|]. split.
  - apply (proj1 (X1_findExpression_follows_exactly_the_chain
                    Examples.shadowContext 3 Examples.innerA _)).
    reflexivity.
  - vm_compute. reflexivity.
Defined.

(** X2.  On any set of identifiers that is closed under const aliasing
    (each identifier of the set resolves, from its own scope, to a const
    whose initializer is an identifier of the set again)
    [findExpression] never returns, however many nested calls it is
    given: every cycle of const aliases makes the resolution run away,
    not only a cycle of two. *)
Theorem X2_findExpression_runs_away_on_cycles
        (context : RuleContext) (cycle : Ident → Prop) :
  (∀ id, cycle id →
         ∃ id', ConstAlias context id (Identifier id') ∧ cycle id') →
  ∀ fuel id, cycle id → findExpression fuel context id = None.
Proof.
  intros Hclosed. induction fuel as [|fuel IH]; intros id Hid; [done|].
  destruct (Hclosed id Hid) as (id' & Ha & Hid').
  rewrite (findExpression_link _ _ _ id') by done. by apply IH.
Qed.

Lemma X2_findExpression_cycle_witness :
  findExpression 7 Examples.cyclicContext (Examples.ident 51 "b") = None.
Proof.
  refine (X2_findExpression_runs_away_on_cycles Examples.cyclicContext
            (λ id, id = Examples.ident 52 "a" ∨ id = Examples.ident 51 "b")
            _ 7 (Examples.ident 51 "b") _).
  - intros id [-> | ->].
    + exists (Examples.ident 51 "b"). split; [|by right].
      eexists _, _. repeat split; reflexivity.
    + exists (Examples.ident 52 "a"). split; [|by left].
      eexists _, _. repeat split; reflexivity.
  - by right.
Defined.

(** X3.  What [findExpression] returns is fully resolved: when the
    answer is an identifier, that identifier does not resolve, from its
    own scope, to a local [const] with a single definition and an
    initializer, so resolving it again would change nothing. *)
Theorem X3_findExpression_answer_is_resolved
        (context : RuleContext) (fuel : nat) (id x : Ident) :
  findExpression fuel context id = Some (Identifier x) →
  (∀ init, ¬ ConstAlias context x init)
  ∧ findExpression 1 context x = Some (Identifier x).
Proof.
  intros Hf. apply findExpression_chain in Hf as (links & _ & Hr).
  pose proof (Resolves_resolved _ _ _ _ Hr x eq_refl) as Hno.
  split; [done|]. by apply findExpression_name.
Qed.

Lemma X3_findExpression_answer_witness :
  (∀ init, ¬ ConstAlias MoreExamples.mixedContext
              (Examples.ident 51 "b") init)
  ∧ findExpression 1 MoreExamples.mixedContext (Examples.ident 51 "b")
    = Some (Identifier (Examples.ident 51 "b")).
Proof.
  apply (X3_findExpression_answer_is_resolved MoreExamples.mixedContext 2
           (Examples.ident 41 "a")).
  reflexivity.
Defined.

(* ===================================================================== *)
(** * JSDoc comments and the [@public] tag *)
(* ===================================================================== *)

Lemma findJSDocComment_from_spec before t :
  findJSDocComment_from before = Some t
  ↔ ∃ lines after,
      before = lines ++ t :: after
      ∧ Forall (λ l, tok_type l = Line) lines
      ∧ tok_type t = Block
      ∧ ∃ rest, tok_value t = star :: rest.
Proof.
  induction before as [|tok before IH]; simpl.
  - split; [done|]. intros (lines & after & Heq & _).
    by destruct lines.
  - split.
    + destruct (isCommentToken tok) eqn:Hc; simpl; [|done].
      destruct (tok_type tok) eqn:Ht; try done.
      * intros Hf. apply IH in Hf
          as (lines & after & -> & Hlines & Hblock & Hstar).
        exists (tok :: lines), after. repeat split; try done.
        by constructor.
      * destruct (tok_value tok) as [|c rest] eqn:Hval; [done|].
        destruct (N.eqb c star) eqn:Hstar; [|done].
        apply N.eqb_eq in Hstar as ->.
        intros [= <-]. exists [], before. repeat split; try done.
        by exists rest.
    + intros (lines & after & Heq & Hlines & Hblock & rest & Hstar).
      destruct lines as [|l lines]; simpl in Heq.
      * injection Heq as -> ->.
        unfold isCommentToken. rewrite Hblock, Hstar. done.
      * injection Heq as -> ->.
        apply Forall_cons in Hlines as [Hl Hlines].
        unfold isCommentToken. rewrite Hl. simpl.
        apply IH. exists lines, after. repeat split; try done.
        by exists rest.
Qed.

(** X4.  [findJSDocComment] finds a comment for a node exactly when the
    tokens before the node are some line comments (possibly none)
    preceded by a block comment whose text starts with a star; that
    block comment is the answer.  Any other token in between, a block
    comment that does not start with a star, or running out of tokens,
    gives no JSDoc comment. *)
Theorem X4_findJSDocComment_skips_line_comments
        (n : ASTNode) (sourceCode : SourceCode) (t : Token) :
  findJSDocComment n sourceCode = Some t
  ↔ ∃ lines after,
      tokensBefore sourceCode n = lines ++ t :: after
      ∧ Forall (λ l, tok_type l = Line) lines
      ∧ tok_type t = Block
      ∧ ∃ rest, tok_value t = star :: rest.
Proof. apply findJSDocComment_from_spec. Qed.

Lemma matchLiteral_spec lit :
  ∀ s r, matchLiteral lit s = Some r ↔ s = lit ++ r.
Proof.
  induction lit as [|a lit IH]; intros s r; simpl.
  - split; [by intros [= ->]|by intros ->].
  - destruct s as [|b s]; [done|].
    destruct (N.eqb a b) eqn:Hab.
    + apply N.eqb_eq in Hab as ->. rewrite IH.
      split; [by intros ->|by intros [= ->]].
    + apply N.eqb_neq in Hab. split; [done|]. intros [= -> _]. done.
Qed.

Lemma publicTagHere_spec s :
  publicTagHere s = true
  ↔ ∃ after, s = publicTag ++ after ∧ startsAtBoundary after = true.
Proof.
  unfold publicTagHere.
  destruct (matchLiteral publicTag s) as [after|] eqn:Hm.
  - apply matchLiteral_spec in Hm as ->. split.
    + intros H. exists after. split; [done|]. by destruct after.
    + intros (after' & Heq & Hb).
      apply app_inv_head in Heq as <-.
      by destruct after.
  - split; [done|]. intros (after & -> & _).
    assert (Hsome : matchLiteral publicTag (publicTag ++ after)
                    = Some after) by (by apply matchLiteral_spec).
    rewrite Hsome in Hm. done.
Qed.

Lemma lastChar_cons c s :
  lastChar (c :: s)
  = match lastChar s with None => Some c | Some d => Some d end.
Proof.
  destruct s as [|d s]; [done|].
  change (lastChar (c :: d :: s)) with (lastChar (d :: s)).
  assert (Hsome : ∀ s' d', is_Some (lastChar (d' :: s'))).
  { induction s' as [|e s' IH]; intros d'; [by eexists|]. apply IH. }
  by destruct (Hsome s d) as [x ->].
Qed.

Lemma publicTagFrom_spec s :
  ∀ boundaryBefore,
    publicTagFrom boundaryBefore s = true
    ↔ ∃ before after,
        s = before ++ publicTag ++ after
        ∧ startsAtBoundary after = true
        ∧ match lastChar before with
          | None => boundaryBefore
          | Some c => isWhiteSpace c || N.eqb c star
          end = true.
Proof.
  induction s as [|c s IH]; intros b.
  - split.
    + simpl. rewrite andb_false_r. done.
    + intros (before & after & Heq & _). by destruct before.
  - change (publicTagFrom b (c :: s))
      with ((b && publicTagHere (c :: s))
            || publicTagFrom (isWhiteSpace c || N.eqb c star) s).
    rewrite orb_true_iff, andb_true_iff, publicTagHere_spec, IH. split.
    + intros [[Hb (after & Heq & Hafter)]
             |(before & after & Heq & Hafter & Hbefore)].
      * exists [], after. done.
      * exists (c :: before), after. split; [by rewrite Heq|].
        split; [done|]. rewrite lastChar_cons.
        by destruct (lastChar before).
    + intros (before & after & Heq & Hafter & Hbefore).
      destruct before as [|c' before].
      * left. split; [done|]. by exists after.
      * right. simpl in Heq. injection Heq as -> ->.
        exists before, after. split; [done|]. split; [done|].
        rewrite lastChar_cons in Hbefore. by destruct (lastChar before).
Qed.

(** X5.  The test for the [@public] tag succeeds on a comment text
    exactly when the text contains [@public] at a place where the text
    before it is empty or ends with a white space (any of the regular
    expression's, the Unicode ones included) or a star, and the text
    after it is empty or starts with a character that is not an ASCII
    letter, a digit or an underscore.  So [@publicity] and [x@public]
    alone do not count. *)
Theorem X5_public_tag_test_characterised (text : list CodeUnit) :
  testPublicTag text = true
  ↔ ∃ before after,
      text = before ++ publicTag ++ after
      ∧ endsAtBoundary before = true
      ∧ startsAtBoundary after = true.
Proof.
  unfold testPublicTag. rewrite publicTagFrom_spec.
  unfold endsAtBoundary. split.
  - intros (before & after & Heq & Hafter & Hbefore).
    by exists before, after.
  - intros (before & after & Heq & Hbefore & Hafter).
    by exists before, after.
Qed.

(** A no-break space (U+00A0) before the tag and a line separator
    (U+2028) after it count as boundaries; a letter on either side does
    not. *)
Lemma X5_public_tag_witness :
  testPublicTag ([star; 160%N] ++ publicTag ++ [8232%N]) = true
  ∧ testPublicTag (codeUnits "* x@public") = false
  ∧ testPublicTag (codeUnits "* @publicity") = false.
Proof.
  split; [|split; reflexivity].
  apply (proj2 (X5_public_tag_test_characterised
                  ([star; 160%N] ++ publicTag ++ [8232%N]))).
  exists [star; 160%N], [8232%N]. repeat split.
Defined.

(* ===================================================================== *)
(** * More about the matcher *)
(* ===================================================================== *)

(** The three outcomes of one member's pass through the matcher. *)
Lemma reportProperty_outcome context fuel template general inputs q :
  reportProperty context fuel template general inputs q = Some []
  ∨ (reportProperty context fuel template general inputs q
     = Some [memberReport q]
     ∧ hasProperty general (name q) false = false
     ∧ (groupName q = props → hasProperty inputs (name q) false = false)
     ∧ (groupName q = setup → name q ∉ refNames template)
     ∧ ignorePublicMembers context
       && isPublicMember q (getSourceCode context) = false)
  ∨ (∃ p,
       type q = TypeObject p ∧ groupName q = data
       ∧ deepData context = true
       ∧ hasProperty general (name q) false = true
       ∧ reportProperty context fuel template general inputs q
         = verifyDataOptionDeepProperties context fuel [name q]
             (prop_value p) (getNest general (name q))).
Proof.
  unfold reportProperty.
  destruct (bool_decide (groupName q = props)
            && hasProperty inputs (name q) false) eqn:H1; [by left|].
  destruct (bool_decide (groupName q = setup)
            && bool_decide (name q ∈ refNames template)) eqn:H2; [by left|].
  destruct (ignorePublicMembers context
            && isPublicMember q (getSourceCode context)) eqn:H3; [by left|].
  destruct (hasProperty general (name q) false) eqn:H4.
  - destruct (type q) as [p| |] eqn:Ht; try by left.
    destruct (deepData context) eqn:Hd; [|by left]. simpl.
    destruct (bool_decide (groupName q = data)) eqn:Hg; [|by left].
    apply bool_decide_eq_true in Hg.
    right. right. by exists p.
  - right. left. repeat split; try done.
    + intros Hg. rewrite Hg in H1. by rewrite bool_decide_eq_true_2 in H1.
    + intros Hg Hin. rewrite Hg in H2.
      rewrite bool_decide_eq_true_2 in H2 by done.
      by rewrite bool_decide_eq_true_2 in H2.
Qed.

Lemma append_assoc (a b c : string) : (a +:+ b) +:+ c = a +:+ b +:+ c.
Proof.
  induction a as [|x a IH]; [done|].
  change (String x ((a +:+ b) +:+ c) = String x (a +:+ b +:+ c)).
  by f_equal.
Qed.

(** The qualified names of the deep check's findings extend the joined
    segments with a dot and more. *)
Lemma concat_dot_snoc (segments : list string) (k : string) :
  segments ≠ [] →
  String.concat "." (segments ++ [k])
  = String.concat "." segments +:+ "." +:+ k.
Proof.
  induction segments as [|s [|s' rest] IH]; intros Hne; [done|done|].
  specialize (IH ltac:(done)).
  change (String.concat "." ((s :: s' :: rest) ++ [k]))
    with (s +:+ "." +:+ String.concat "." ((s' :: rest) ++ [k])).
  change (String.concat "." (s :: s' :: rest))
    with (s +:+ "." +:+ String.concat "." (s' :: rest)).
  rewrite IH. by rewrite !append_assoc.
Qed.

Lemma verify_qualified context fuel :
  ∀ segments value references found,
    segments ≠ [] →
    verifyDataOptionDeepProperties context fuel segments value references
    = Some found →
    Forall (λ r, messageId r = "unused"
                 ∧ report_group r = PROPERTY_LABEL data
                 ∧ ∃ rest, report_name r
                           = String.concat "." segments +:+ "." +:+ rest)
           found.
Proof.
  induction fuel as [|fuel IH]; intros segments value references found Hne;
    [done|].
  simpl.
  destruct (match value with
            | Identifier id => findExpression fuel context id
            | _ => Some value
            end) as [[id|members|t]|]; try done;
    try (intros [= <-]; constructor).
  apply concatM_Forall.
  intros [key [k|] v|argument] here _; try (intros [= <-]; constructor).
  destruct (negb (hasProperty references k true)).
  - intros [= <-]. constructor; [|constructor]. simpl.
    repeat split. exists k. by apply concat_dot_snoc.
  - intros Hv. apply IH in Hv; [|by destruct segments].
    eapply Forall_impl; [exact Hv|]. simpl.
    intros r (Hm & Hg & rest & Hr). repeat split; try done.
    exists (k +:+ "." +:+ rest).
    rewrite Hr, concat_dot_snoc by done.
    by rewrite !append_assoc.
Qed.

(** X6.  Inputs are never exempted as public members: a member of the
    [props] group that neither the input-consumption sets nor the
    general sets cover is reported, whatever the options and the
    comments of the source text are, also with [ignorePublicMembers]
    set and a [@public] JSDoc block right before it. *)
Theorem X6_inputs_are_never_exempt
        (context : RuleContext) (fuel : nat)
        (template : TemplatePropertiesContainer)
        (general inputs : IPropertyReferences)
        (q : ComponentPropertyData) :
  groupName q = props →
  hasProperty inputs (name q) false = false →
  hasProperty general (name q) false = false →
  isPublicMember q (getSourceCode context) = false
  ∧ reportProperty context fuel template general inputs q
    = Some [memberReport q].
Proof.
  intros Hg Hinputs Hgeneral.
  assert (Hpublic : isPublicMember q (getSourceCode context) = false).
  { unfold isPublicMember. destruct (type q); [|done|done].
    by rewrite decide_True. }
  split; [done|]. unfold reportProperty, memberReport.
  rewrite Hinputs, Hgeneral, Hpublic, !andb_false_r, Hg. reflexivity.
Qed.

Lemma X6_inputs_are_never_exempt_witness :
  isPublicProperty (Examples.objectProperty 20 Examples.literal)
    MoreExamples.publicComments = true
  ∧ reportProperty MoreExamples.publicContext 0
      {| tpl_propertyReferences := []; refNames := ∅ |} never never
      MoreExamples.publicInput
    = Some [memberReport MoreExamples.publicInput].
Proof.
  split; [reflexivity|].
  refine (proj2 (X6_inputs_are_never_exempt MoreExamples.publicContext 0
                   {| tpl_propertyReferences := []; refNames := ∅ |}
                   never never MoreExamples.publicInput _ _ _));
    reflexivity.
Defined.

Lemma PublicJSDocBefore_found sourceCode n :
  PublicJSDocBefore sourceCode n →
  ∃ t, findJSDocComment n sourceCode = Some t
       ∧ testPublicTag (tok_value t) = true.
Proof.
  intros (lines & t & after & Heq & Hlines & Hblock & Hstar & Htag).
  exists t. split; [|done].
  apply findJSDocComment_from_spec. by exists lines, after.
Qed.

(** X7.  With [ignorePublicMembers] set, a member outside the [props]
    group that is an object entry is passed over, whatever the
    reference sets contain (it is neither reported nor deep-checked),
    when a JSDoc block with the [@public] tag precedes its property,
    separated from it by line comments at most, or, for a property
    whose value is a function expression and that no JSDoc block
    precedes, when such a block precedes the function. *)
Theorem X7_public_members_are_passed_over
        (context : RuleContext) (q : ComponentPropertyData)
        (p : PropertyNode) :
  ignorePublicMembers context = true →
  type q = TypeObject p →
  groupName q ≠ props →
  PublicJSDocBefore (getSourceCode context) (prop_node p)
  ∨ (findJSDocComment (prop_node p) (getSourceCode context) = None
     ∧ isFunctionExpression (prop_value p) = true
     ∧ PublicJSDocBefore (getSourceCode context) (prop_value_node p)) →
  ∀ fuel template general inputs,
    reportProperty context fuel template general inputs q = Some [].
Proof.
  intros Hignore Htype Hgroup Hdoc fuel template general inputs.
  assert (Hpublic : isPublicMember q (getSourceCode context) = true).
  { unfold isPublicMember. rewrite Htype, decide_False by done.
    unfold isPublicProperty, getJSDocFromProperty.
    destruct Hdoc as [Hdoc|(Hnone & Hfunction & Hdoc)];
      apply PublicJSDocBefore_found in Hdoc as (t & Hfound & Htag).
    - by rewrite Hfound.
    - by rewrite Hnone, Hfunction, Hfound. }
  unfold reportProperty. rewrite Hignore, Hpublic.
  rewrite bool_decide_eq_false_2 by done. simpl.
  by destruct (_ && _).
Qed.

Lemma X7_public_members_witness :
  reportProperty MoreExamples.publicContext 0
    {| tpl_propertyReferences := []; refNames := ∅ |}
    (fromPath ["profile"; "name"] false) never
    {| name := "profile"; groupName := data;
       type := TypeObject (Examples.objectProperty 20 Examples.profileValue);
       node := 20 |}
  = Some [].
Proof.
  refine (X7_public_members_are_passed_over MoreExamples.publicContext
            {| name := "profile"; groupName := data;
               type := TypeObject
                         (Examples.objectProperty 20 Examples.profileValue);
               node := 20 |}
            (Examples.objectProperty 20 Examples.profileValue)
            _ _ _ _ 0 {| tpl_propertyReferences := []; refNames := ∅ |}
            (fromPath ["profile"; "name"] false) never);
    try reflexivity; try discriminate.
  left.
  exists [ {| tok_type := Line; tok_value := codeUnits " note" |} ],
         {| tok_type := Block; tok_value := codeUnits "* @public " |},
         [ {| tok_type := Punctuator; tok_value := codeUnits "," |} ].
  repeat split.
  - repeat constructor.
  - by eexists.
Defined.

Lemma findExpression_withSourceCode context sourceCode fuel :
  ∀ id,
    findExpression fuel (withSourceCode context sourceCode) id
    = findExpression fuel context id.
Proof.
  induction fuel as [|fuel IH]; intros id; [done|].
  simpl.
  change (findVariable (withSourceCode context sourceCode) id)
    with (findVariable context id).
  destruct (findVariable context id) as [variable|]; [|done].
  destruct (defs variable) as [|def [|]]; try done.
  destruct (def_type def); try done.
  destruct (def_parent_kind def); try done.
  destruct (def_node_init def) as [[id'|members|t]|]; try done.
Qed.

Lemma verify_withSourceCode context sourceCode fuel :
  ∀ segments value references,
    verifyDataOptionDeepProperties (withSourceCode context sourceCode) fuel
      segments value references
    = verifyDataOptionDeepProperties context fuel segments value references.
Proof.
  induction fuel as [|fuel IH]; intros segments value references; [done|].
  simpl.
  assert (Htarget :
            match value with
            | Identifier id =>
                findExpression fuel (withSourceCode context sourceCode) id
            | _ => Some value
            end
            = match value with
              | Identifier id => findExpression fuel context id
              | _ => Some value
              end).
  { destruct value; try done. apply findExpression_withSourceCode. }
  rewrite Htarget.
  destruct (match value with
            | Identifier id => findExpression fuel context id
            | _ => Some value
            end) as [[id|members|t]|]; try done.
  apply concatM_ext. intros [key [k|] v|argument] _; try done.
  by rewrite IH.
Qed.

Lemma reportUnusedProperties_withSourceCode context sourceCode fuel st :
  ignorePublicMembers context = false →
  reportUnusedProperties (withSourceCode context sourceCode) fuel st
  = reportUnusedProperties context fuel st.
Proof.
  intros Hignore. unfold reportUnusedProperties, unusedProperties.
  assert (Hsame :
            concatM (λ entry,
                       reportContainer (withSourceCode context sourceCode)
                         fuel (templatePropertiesContainer st) entry.2)
              (vueComponentPropertiesContainerMap st)
            = concatM (λ entry,
                         reportContainer context fuel
                           (templatePropertiesContainer st) entry.2)
                (vueComponentPropertiesContainerMap st)).
  { apply concatM_ext. intros [n c] _. unfold reportContainer.
    apply concatM_ext. intros q _. unfold reportProperty.
    change (ignorePublicMembers (withSourceCode context sourceCode))
      with (ignorePublicMembers context).
    change (deepData (withSourceCode context sourceCode))
      with (deepData context).
    rewrite Hignore. simpl.
    destruct (_ && hasProperty _ _ _); [done|].
    destruct (_ && bool_decide (name q ∈ _)); [done|].
    destruct (hasProperty _ _ _); [|done].
    destruct (type q); try done.
    destruct (_ && _); [|done]. apply verify_withSourceCode. }
  by rewrite Hsame.
Qed.

(** X8.  Unless [ignorePublicMembers] is set, the comments and tokens of
    the source text have no influence on the rule: over any other
    source text the run on a file has the same outcome, findings and
    state alike. *)
Theorem X8_comments_matter_only_for_public_members
        (context : RuleContext) (sourceCode : SourceCode) (fuel : nat)
        (f : File) :
  ignorePublicMembers context = false →
  runFile (withSourceCode context sourceCode) fuel f
  = runFile context fuel f.
Proof.
  intros Hignore. unfold runFile, onProgramExit.
  change (runScript (withSourceCode context sourceCode))
    with (runScript context).
  assert (Htemplate : ∀ events st,
             runTemplate (withSourceCode context sourceCode) fuel events st
             = runTemplate context fuel events st).
  { induction events as [|ev events IH]; intros st; [done|].
    simpl.
    assert (Hev : templateVisitor (withSourceCode context sourceCode) fuel
                    ev st
                  = templateVisitor context fuel ev st).
    { destruct ev as [sites|keyName value|[|]]; try done.
      by apply reportUnusedProperties_withSourceCode. }
    rewrite Hev. by destruct (templateVisitor context fuel ev st). }
  destruct (negb _).
  - rewrite reportUnusedProperties_withSourceCode by done.
    destruct (reportUnusedProperties context fuel _); [|done].
    apply Htemplate.
  - apply Htemplate.
Qed.

Lemma X8_comments_witness :
  runFile (withSourceCode Examples.deepContext MoreExamples.publicComments)
    2 Examples.profileFile
  = runFile Examples.deepContext 2 Examples.profileFile.
Proof.
  apply (X8_comments_matter_only_for_public_members Examples.deepContext
           MoreExamples.publicComments 2 Examples.profileFile).
  reflexivity.
Defined.

(* ===================================================================== *)
(** * What a run leaves behind *)
(* ===================================================================== *)

Lemma runFile_one_pass context fuel f :
  runFile context fuel f
  = reportUnusedProperties context fuel (accumulated context f).
Proof.
  unfold runFile, accumulated, onProgramExit.
  destruct (templateBody f) as [[attributes children]|] eqn:Hbody.
  - destruct (templateEvents_body f attributes children Hbody)
      as (quiet & -> & Hquiet).
    rewrite bool_decide_eq_true_2 by (by eexists). simpl negb. cbv iota.
    rewrite runTemplate_app, runTemplate_quiet by done.
    rewrite foldl_app. simpl.
    by destruct (reportUnusedProperties context fuel _).
  - unfold templateEvents. rewrite Hbody.
    rewrite bool_decide_eq_false_2 by (by intros [? ?]). simpl.
    by destruct (reportUnusedProperties context fuel _).
Qed.

Lemma accumulateTemplate_map ev st :
  vueComponentPropertiesContainerMap (accumulateTemplate ev st)
  = vueComponentPropertiesContainerMap st.
Proof.
  destruct ev as [sites|keyName [v|]|parentType]; simpl; try done.
  by destruct (bool_decide (keyName = "ref")).
Qed.

Lemma accumulated_map context f :
  vueComponentPropertiesContainerMap (accumulated context f)
  = vueComponentPropertiesContainerMap
      (runScript context (script f) initialState).
Proof.
  unfold accumulated.
  set (st1 := match styleVars f with
              | Some sites => _
              | None => _
              end).
  assert (H1 : vueComponentPropertiesContainerMap st1
               = vueComponentPropertiesContainerMap
                   (runScript context (script f) initialState))
    by (subst st1; by destruct (styleVars f)).
  rewrite <- H1. generalize st1. clear.
  induction (templateEvents f) as [|ev events IH]; intros st; [done|].
  simpl. by rewrite IH, accumulateTemplate_map.
Qed.

(** What a run that returns leaves: the findings of the one pass over
    the accumulated state, whose containers and template container it
    keeps. *)
Lemma runFile_result context fuel f st :
  runFile context fuel f = Some st →
  unusedProperties context fuel (accumulated context f) = Some (reports st)
  ∧ templatePropertiesContainer st
    = templatePropertiesContainer (accumulated context f)
  ∧ vueComponentPropertiesContainerMap st
    = vueComponentPropertiesContainerMap
        (runScript context (script f) initialState).
Proof.
  rewrite runFile_one_pass. unfold reportUnusedProperties.
  destruct (unusedProperties context fuel (accumulated context f))
    as [found|]; [|done].
  intros [= <-]. simpl.
  destruct (accumulated_silent context f) as [-> _].
  split; [done|]. split; [done|]. apply accumulated_map.
Qed.

Lemma concatM_mapUpdate
      (g : VueComponentPropertiesContainer → option (list Report))
      m n f :
  (∀ c, mapGet m n = Some c → g (f c) = g c) →
  (mapGet m n = None → g (f emptyContainer) = Some []) →
  concatM (λ entry : ASTNode * VueComponentPropertiesContainer, g entry.2)
    (mapUpdate m n f)
  = concatM (λ entry : ASTNode * VueComponentPropertiesContainer, g entry.2)
      m.
Proof.
  induction m as [|[k c] m IH]; intros Hsome Hnone.
  - simpl. by rewrite Hnone.
  - simpl in Hsome, Hnone |- *. destruct (decide (k = n)) as [->|Hne].
    + rewrite !concatM_cons. simpl. by rewrite Hsome.
    + rewrite !concatM_cons. simpl. by rewrite IH.
Qed.

Lemma reportContainer_inputs_irrelevant context fuel template rs c :
  Forall (λ q, groupName q ≠ props) (properties c) →
  reportContainer context fuel template (addPropertyReferencesForProps rs c)
  = reportContainer context fuel template c.
Proof.
  intros Hc. unfold reportContainer. simpl.
  apply concatM_ext. intros q Hq.
  rewrite Forall_forall in Hc. specialize (Hc q Hq).
  unfold reportProperty.
  by rewrite !(bool_decide_eq_false_2 (groupName q = props)).
Qed.

Lemma withContainer_inputs_irrelevant context fuel n rs st :
  (∀ c, mapGet (vueComponentPropertiesContainerMap st) n = Some c →
        Forall (λ q, groupName q ≠ props) (properties c)) →
  unusedProperties context fuel
    (withContainer n (addPropertyReferencesForProps rs) st)
  = unusedProperties context fuel st.
Proof.
  intros Hn. unfold unusedProperties. simpl.
  apply (concatM_mapUpdate
           (reportContainer context fuel (templatePropertiesContainer st))).
  - intros c Hc. apply reportContainer_inputs_irrelevant. by apply Hn.
  - intros _. reflexivity.
Qed.

(** X9.  Visiting the [setup] function or a render function of a
    definition that has collected no member of the [props] group does
    not change what the finalization pass finds: the parameters feed
    the input-consumption sets only, and those are consulted for
    [props] members only. *)
Theorem X9_parameters_cover_inputs_only
        (context : RuleContext) (fuel : nat) (params : list Pattern)
        (vueData : VueObjectData) (st : RuleState) :
  (∀ c, mapGet (vueComponentPropertiesContainerMap st) (vd_node vueData)
        = Some c →
        Forall (λ q, groupName q ≠ props) (properties c)) →
  unusedProperties context fuel (onSetupFunctionEnter params vueData st)
  = unusedProperties context fuel st
  ∧ unusedProperties context fuel (onRenderFunctionEnter params vueData st)
    = unusedProperties context fuel st.
Proof.
  intros Hno. split.
  - by apply withContainer_inputs_irrelevant.
  - unfold onRenderFunctionEnter.
    assert (H1 : unusedProperties context fuel
                   (withContainer (vd_node vueData)
                      (addPropertyReferencesForProps
                         [extractFromFunctionParam params 0]) st)
                 = unusedProperties context fuel st)
      by (by apply withContainer_inputs_irrelevant).
    destruct (functional vueData); [|done].
    rewrite withContainer_inputs_irrelevant; [done|].
    intros c. simpl. rewrite mapGet_mapUpdate_eq. intros [= <-]. simpl.
    destruct (mapGet (vueComponentPropertiesContainerMap st)
                (vd_node vueData)) as [c0|] eqn:Hc0; simpl.
    + by apply Hno.
    + constructor.
Qed.

Lemma X9_parameters_witness :
  unusedProperties Examples.deepContext 2
    (onSetupFunctionEnter
       [PatObject [PatProperty (Some "profile") (PatIdentifier "profile")]]
       (Examples.component 1)
       (runScript Examples.deepContext [OnVueObjectEnter
                     {| vo_node := 1;
                        vo_declared := [Examples.profileMember] |}]
          initialState))
  = unusedProperties Examples.deepContext 2
      (runScript Examples.deepContext [OnVueObjectEnter
                    {| vo_node := 1;
                       vo_declared := [Examples.profileMember] |}]
         initialState).
Proof.
  refine (proj1 (X9_parameters_cover_inputs_only Examples.deepContext 2
                   [PatObject [PatProperty (Some "profile")
                                 (PatIdentifier "profile")]]
                   (Examples.component 1) _ _)).
  intros c Hc. vm_compute in Hc. injection Hc as <-.
  repeat constructor. discriminate.
Defined.

(* ===================================================================== *)
(** * Template handles *)
(* ===================================================================== *)

Lemma refNames_attributes attributes :
  ∀ st v,
    v ∈ refNames (templatePropertiesContainer
                    (foldl (λ s ev, accumulateTemplate ev s) st
                       (concat (attributeEvents <$> attributes))))
    ↔ v ∈ refNames (templatePropertiesContainer st)
      ∨ v ∈ concat (refAttributeValue <$> attributes).
Proof.
  induction attributes as [|[keyName [w|]|[sites|]] attributes IH];
    intros st v; simpl.
  - rewrite elem_of_nil. tauto.
  - rewrite IH. destruct (bool_decide (keyName = "ref")); simpl.
    + rewrite elem_of_union, elem_of_singleton, elem_of_cons. tauto.
    + tauto.
  - by rewrite IH.
  - by rewrite IH.
  - by rewrite IH.
Qed.

Lemma refNames_traverse n :
  ∀ parentType st v,
    v ∈ refNames (templatePropertiesContainer
                    (foldl (λ s ev, accumulateTemplate ev s) st
                       (traverseTemplate parentType n)))
    ↔ v ∈ refNames (templatePropertiesContainer st)
      ∨ v ∈ refAttributeValues n.
Proof.
  induction n as [attributes children IH|sites|] using VNode_nested_ind;
    intros parentType st v.
  - simpl. rewrite !foldl_app. simpl.
    rewrite elem_of_app.
    set (st1 := foldl (λ s ev, accumulateTemplate ev s) st
                  (concat (attributeEvents <$> attributes))).
    assert (Hchildren :
              v ∈ refNames (templatePropertiesContainer
                              (foldl (λ s ev, accumulateTemplate ev s) st1
                                 ((fix below (cs : list VNode)
                                     : list TemplateEvent :=
                                     match cs with
                                     | [] => []
                                     | c :: rest =>
                                         traverseTemplate VElementParent c
                                         ++ below rest
                                     end) children)))
              ↔ v ∈ refNames (templatePropertiesContainer st1)
                ∨ v ∈ (fix below (cs : list VNode) : list string :=
                         match cs with
                         | [] => []
                         | c :: rest => refAttributeValues c ++ below rest
                         end) children).
    { generalize st1. clear st1.
      induction IH as [|c children Hc _ IHchildren]; intros st1.
      - simpl. rewrite elem_of_nil. tauto.
      - rewrite foldl_app, IHchildren, Hc, elem_of_app. tauto. }
    rewrite Hchildren. subst st1. rewrite refNames_attributes. tauto.
  - simpl. rewrite elem_of_nil. tauto.
  - simpl. rewrite elem_of_nil. tauto.
Qed.

Lemma accumulated_refNames context f v :
  v ∈ refNames (templatePropertiesContainer (accumulated context f))
  ↔ v ∈ templateRefs f.
Proof.
  unfold accumulated, templateEvents, templateRefs.
  set (st1 := match styleVars f with
              | Some sites => _
              | None => _
              end).
  assert (H1 : refNames (templatePropertiesContainer st1) = ∅).
  { subst st1.
    destruct (runScript_silent context (script f) initialState)
      as (_ & _ & Ht).
    destruct (styleVars f); simpl; by rewrite Ht. }
  destruct (templateBody f) as [[attributes children]|].
  - rewrite refNames_traverse, H1. rewrite elem_of_empty. tauto.
  - simpl. rewrite H1, elem_of_empty, elem_of_nil. tauto.
Qed.

(** X10.  After a run, the template's reference names are exactly the
    values of the plain [ref] attributes of the template, wherever they
    sit in the tree: a [ref] attribute without a value, a directive
    such as [:ref], and any other attribute add nothing, and a file
    without a template has none. *)
Theorem X10_refNames_are_the_ref_attributes
        (context : RuleContext) (fuel : nat) (f : File) (st : RuleState)
        (v : string) :
  runFile context fuel f = Some st →
  (v ∈ refNames (templatePropertiesContainer st) ↔ v ∈ templateRefs f).
Proof.
  intros Hrun. apply runFile_result in Hrun as (_ & -> & _).
  apply accumulated_refNames.
Qed.

Lemma X10_refNames_witness :
  "panel" ∈ templateRefs MoreExamples.refFile
  ∧ ∃ st,
      runFile (Examples.contextWith MoreExamples.setupOptions
                 Examples.noVariables) 0 MoreExamples.refFile = Some st
      ∧ ("x" ∈ refNames (templatePropertiesContainer st)
         ↔ "x" ∈ templateRefs MoreExamples.refFile).
Proof.
  split; [by left|].
  destruct (runFile (Examples.contextWith MoreExamples.setupOptions
                       Examples.noVariables) 0 MoreExamples.refFile)
    as [st|] eqn:Hrun; [|vm_compute in Hrun; discriminate].
  exists st. split; [done|].
  exact (X10_refNames_are_the_ref_attributes _ _ _ _ "x" Hrun).
Defined.

Lemma PROPERTY_LABEL_inj (g g' : GroupName) :
  PROPERTY_LABEL g = PROPERTY_LABEL g' → g = g'.
Proof. by destruct g, g'. Qed.

(** The findings of one member: the finding that names it, under the
    conditions of the last branch, or findings of the deep check of a
    [data] member, whose names extend the member's name. *)
Lemma reportProperty_describes context fuel template general inputs q found :
  reportProperty context fuel template general inputs q = Some found →
  Forall (λ r, messageId r = "unused"
               ∧ ((r = memberReport q
                   ∧ hasProperty general (name q) false = false
                   ∧ (groupName q = props →
                      hasProperty inputs (name q) false = false)
                   ∧ (groupName q = setup → name q ∉ refNames template))
                  ∨ (groupName q = data
                     ∧ deepData context = true
                     ∧ report_group r = PROPERTY_LABEL data
                     ∧ ∃ rest, report_name r = name q +:+ "." +:+ rest)))
         found.
Proof.
  destruct (reportProperty_outcome context fuel template general inputs q)
    as [->|[(-> & Hgeneral & Hinputs & Hrefs & _)
           |(p & Htype & Hgroup & Hdeep & Hgeneral & ->)]].
  - intros [= <-]. constructor.
  - intros [= <-]. constructor; [|constructor]. split; [done|]. by left.
  - intros Hv. apply verify_qualified in Hv; [|done].
    eapply Forall_impl; [exact Hv|]. simpl.
    intros r (Hm & Hg & rest & Hr). split; [done|]. right.
    repeat split; try done. by exists rest.
Qed.

Lemma unusedProperties_describes context fuel st found :
  unusedProperties context fuel st = Some found →
  Forall (λ r, messageId r = "unused"
               ∧ ∃ q, q ∈ declaredMembers st
                      ∧ ((r = memberReport q
                          ∧ (groupName q = setup →
                             name q ∉ refNames
                                        (templatePropertiesContainer st)))
                         ∨ (groupName q = data
                            ∧ deepData context = true
                            ∧ report_group r = PROPERTY_LABEL data
                            ∧ ∃ rest, report_name r
                                      = name q +:+ "." +:+ rest)))
         found.
Proof.
  unfold unusedProperties. apply concatM_Forall.
  intros [n c] here Hin. simpl. unfold reportContainer.
  apply concatM_Forall. intros q found' Hq Hfound.
  apply reportProperty_describes in Hfound.
  eapply Forall_impl; [exact Hfound|]. simpl.
  intros r [Hm Hr]. split; [done|]. exists q. split.
  - unfold declaredMembers.
    apply (elem_of_concat _ (properties c)); [|done].
    by apply (list_elem_of_fmap_2
                (λ entry : ASTNode * VueComponentPropertiesContainer,
                   properties entry.2) _ (n, c)).
  - destruct Hr as [(Hr & _ & _ & Hrefs)|Hr]; [by left|by right].
Qed.

(** X11.  A template handle covers the [setup] member of its name: when
    a plain [ref] attribute with value [v] occurs anywhere in the
    template, no finding of the run is a finding of the [setup] group
    with the name [v], whether or not any expression mentions [v]. *)
Theorem X11_template_handle_covers_setup_member
        (context : RuleContext) (fuel : nat) (f : File) (st : RuleState)
        (v : string) :
  runFile context fuel f = Some st →
  v ∈ templateRefs f →
  Forall (λ r, ¬ (report_group r = PROPERTY_LABEL setup
                  ∧ report_name r = v)) (reports st).
Proof.
  intros Hrun Hv.
  apply runFile_result in Hrun as (Hfound & _ & _).
  apply unusedProperties_describes in Hfound.
  eapply Forall_impl; [exact Hfound|]. simpl.
  intros r (_ & q & _ & [(-> & Hrefs)|(_ & _ & Hdata & _)]) [Hlabel Hname].
  - simpl in Hlabel, Hname. apply (PROPERTY_LABEL_inj _ setup) in Hlabel.
    apply (Hrefs Hlabel). rewrite Hname. by apply accumulated_refNames.
  - rewrite Hdata in Hlabel. discriminate.
Qed.

Lemma X11_template_handle_witness :
  ∃ st,
    runFile (Examples.contextWith MoreExamples.setupOptions
               Examples.noVariables) 0 MoreExamples.refFile = Some st
    ∧ Forall (λ r, ¬ (report_group r = PROPERTY_LABEL setup
                      ∧ report_name r = "panel")) (reports st).
Proof.
  destruct (runFile (Examples.contextWith MoreExamples.setupOptions
                       Examples.noVariables) 0 MoreExamples.refFile)
    as [st|] eqn:Hrun; [|vm_compute in Hrun; discriminate].
  exists st. split; [done|].
  apply (X11_template_handle_covers_setup_member _ _ _ _ "panel" Hrun).
  by left.
Defined.

(* ===================================================================== *)
(** * What the findings are about *)
(* ===================================================================== *)

Lemma runFile_declaredMembers context fuel f st :
  runFile context fuel f = Some st →
  declaredMembers st = declaredMembers (accumulated context f).
Proof.
  intros Hrun. apply runFile_result in Hrun as (_ & _ & Hmap).
  unfold declaredMembers. by rewrite Hmap, accumulated_map.
Qed.

(** X12.  Every finding of a run has the message [unused] and is about
    a member that was collected: it is the finding that names a
    declared member, with that member's node and its group's label, or
    it is a finding of the deep check of a declared [data] member,
    labelled [data], whose qualified name is the member's name followed
    by a dot and more. *)
Theorem X12_findings_are_about_declared_members
        (context : RuleContext) (fuel : nat) (f : File) (st : RuleState) :
  runFile context fuel f = Some st →
  Forall (λ r, messageId r = "unused"
               ∧ ∃ q, q ∈ declaredMembers st
                      ∧ (r = memberReport q
                         ∨ (groupName q = data
                            ∧ report_group r = PROPERTY_LABEL data
                            ∧ ∃ rest, report_name r
                                      = name q +:+ "." +:+ rest)))
         (reports st).
Proof.
  intros Hrun. rewrite (runFile_declaredMembers _ _ _ _ Hrun).
  apply runFile_result in Hrun as (Hfound & _ & _).
  apply unusedProperties_describes in Hfound.
  eapply Forall_impl; [exact Hfound|]. simpl.
  intros r (Hm & q & Hq & [(Hr & _)|(Hg & _ & Hl & Hn)]); split; try done;
    exists q; (split; [done|]); [by left|by right].
Qed.

Lemma X12_findings_witness :
  ∃ st,
    runFile Examples.deepContext 2 Examples.profileFile = Some st
    ∧ Forall (λ r, messageId r = "unused"
                   ∧ ∃ q, q ∈ declaredMembers st
                          ∧ (r = memberReport q
                             ∨ (groupName q = data
                                ∧ report_group r = PROPERTY_LABEL data
                                ∧ ∃ rest, report_name r
                                          = name q +:+ "." +:+ rest)))
             (reports st).
Proof.
  destruct (runFile Examples.deepContext 2 Examples.profileFile)
    as [st|] eqn:Hrun; [|vm_compute in Hrun; discriminate].
  exists st. split; [done|].
  exact (X12_findings_are_about_declared_members _ _ _ _ Hrun).
Defined.

Lemma declaredMembers_Forall (P : ComponentPropertyData → Prop) st :
  Forall P (declaredMembers st)
  ↔ Forall (λ entry : ASTNode * VueComponentPropertiesContainer,
              Forall P (properties entry.2))
           (vueComponentPropertiesContainerMap st).
Proof.
  unfold declaredMembers.
  induction (vueComponentPropertiesContainerMap st) as [|[n c] m IH]; simpl.
  - split; constructor.
  - rewrite Forall_app, Forall_cons, IH. done.
Qed.

Lemma withContainer_members (P : ComponentPropertyData → Prop) n f st :
  Forall P (properties (f emptyContainer)) →
  (∀ c, Forall P (properties c) → Forall P (properties (f c))) →
  Forall P (declaredMembers st) →
  Forall P (declaredMembers (withContainer n f st)).
Proof.
  intros Hnew Hf. rewrite !declaredMembers_Forall. simpl.
  by apply (mapUpdate_Forall (λ c, Forall P (properties c))).
Qed.

Lemma scriptVisitor_tracked context ev st :
  onlyTrackedGroups context st →
  onlyTrackedGroups context (scriptVisitor context ev st).
Proof.
  unfold onlyTrackedGroups. intros Hst.
  destruct ev as [n ps|n|params link vd|params vd|params vd
                 |isThis site vd]; simpl.
  - unfold onDefinePropsEnter, groups_has.
    destruct (bool_decide (props ∈ groups context)) eqn:Hprops; [|done].
    apply bool_decide_eq_true in Hprops. simpl.
    assert (Hdefined : Forall (λ q, groupName q ∈ groups context)
                         (definedProperties ps)).
    { unfold definedProperties. apply Forall_forall. intros q Hq.
      apply list_elem_of_omap in Hq as (prop & _ & Hq).
      destruct (propName prop) as [[|c s]|]; try done.
      by injection Hq as <-. }
    assert (H1 : Forall (λ q, groupName q ∈ groups context)
                   (declaredMembers
                      (withContainer (dp_node n)
                         (addProperties (definedProperties ps)) st))).
    { apply withContainer_members; [done| |done].
      intros c Hc. simpl. by apply Forall_app. }
    destruct (match dp_parent n with
              | Some (ParentCall true (Some "withDefaults") outer) => outer
              | other => other
              end) as [[| [] pattern |]|]; try done.
    by apply withContainer_members.
  - unfold onVueObjectEnter.
    assert (Hiter : Forall (λ q, groupName q ∈ groups context)
                      (iterateProperties n (groups context))).
    { unfold iterateProperties. apply Forall_forall. intros q Hq.
      by apply list_elem_of_filter in Hq as [Hq _]. }
    apply withContainer_members; [done| |done].
    intros c Hc. simpl. by apply Forall_app.
  - unfold onFunctionWithParams.
    destruct (takesComponentAsParameter link vd); [|done].
    apply withContainer_members; [constructor|done|done].
  - unfold onSetupFunctionEnter.
    apply withContainer_members; [constructor|done|done].
  - unfold onRenderFunctionEnter.
    destruct (functional vd);
      repeat (apply withContainer_members; [constructor|done|]); done.
  - unfold onThisOrIdentifier. destruct (negb isThis); [done|].
    apply withContainer_members; [constructor|done|done].
Qed.

Lemma runScript_tracked context events :
  ∀ st,
    onlyTrackedGroups context st →
    onlyTrackedGroups context (runScript context events st).
Proof.
  induction events as [|ev events IH]; intros st Hst; [done|].
  apply IH. by apply scriptVisitor_tracked.
Qed.

(** X13.  The rule collects and reports only what the [groups] option
    tracks, whatever the option is: after a run every collected member
    belongs to a tracked group, and every finding carries the label of
    a tracked group (deep findings, labelled [data], arise only when
    [data] is tracked). *)
Theorem X13_only_tracked_groups_are_reported
        (context : RuleContext) (fuel : nat) (f : File) (st : RuleState) :
  runFile context fuel f = Some st →
  onlyTrackedGroups context st
  ∧ Forall (λ r, ∃ g, g ∈ groups context
                      ∧ report_group r = PROPERTY_LABEL g) (reports st).
Proof.
  intros Hrun.
  assert (Htracked : onlyTrackedGroups context st).
  { unfold onlyTrackedGroups.
    apply runFile_result in Hrun as (_ & _ & Hmap).
    apply declaredMembers_Forall. rewrite Hmap.
    apply declaredMembers_Forall.
    apply (runScript_tracked context (script f) initialState).
    constructor. }
  split; [done|].
  pose proof (X := runFile_declaredMembers _ _ _ _ Hrun).
  apply runFile_result in Hrun as (Hfound & _ & _).
  apply unusedProperties_describes in Hfound.
  eapply Forall_impl; [exact Hfound|]. simpl.
  unfold onlyTrackedGroups in Htracked. rewrite X in Htracked.
  rewrite Forall_forall in Htracked.
  intros r (_ & q & Hq & [(-> & _)|(Hg & _ & Hl & _)]).
  - exists (groupName q). split; [by apply Htracked|done].
  - exists data. split; [|done]. rewrite <- Hg. by apply Htracked.
Qed.

Lemma X13_tracked_groups_witness :
  ∃ st,
    runFile Examples.deepContext 2 Examples.profileFile = Some st
    ∧ onlyTrackedGroups Examples.deepContext st
    ∧ Forall (λ r, ∃ g, g ∈ groups Examples.deepContext
                        ∧ report_group r = PROPERTY_LABEL g) (reports st).
Proof.
  destruct (runFile Examples.deepContext 2 Examples.profileFile)
    as [st|] eqn:Hrun; [|vm_compute in Hrun; discriminate].
  exists st. split; [done|].
  exact (X13_only_tracked_groups_are_reported _ _ _ _ Hrun).
Defined.

(* ===================================================================== *)
(** * How the visits compose *)
(* ===================================================================== *)

(** X14.  A script visit works on the container of its own definition
    only: the container of every other definition node is what it was
    before (absent if it was absent), and the template container, the
    findings and the count of passes are untouched. *)
Theorem X14_visits_touch_their_own_container_only
        (context : RuleContext) (ev : ScriptEvent) (st : RuleState)
        (other : ASTNode) :
  other ≠ eventDefinition ev →
  mapGet (vueComponentPropertiesContainerMap (scriptVisitor context ev st))
         other
  = mapGet (vueComponentPropertiesContainerMap st) other
  ∧ templatePropertiesContainer (scriptVisitor context ev st)
    = templatePropertiesContainer st
  ∧ reports (scriptVisitor context ev st) = reports st.
Proof.
  intros Hother.
  destruct (scriptVisitor_silent context ev st) as (Hr & _ & Ht).
  split; [|done].
  destruct ev as [n ps|n|params link vd|params vd|params vd
                 |isThis site vd]; simpl in Hother |- *.
  - unfold onDefinePropsEnter.
    destruct (negb (groups_has context props)); [done|].
    destruct (match dp_parent n with
              | Some (ParentCall true (Some "withDefaults") outer) => outer
              | other => other
              end) as [[| [] pattern |]|]; simpl;
      rewrite ?mapGet_mapUpdate_ne by done; done.
  - unfold onVueObjectEnter. simpl. by rewrite mapGet_mapUpdate_ne.
  - unfold onFunctionWithParams.
    destruct (takesComponentAsParameter link vd); [|done].
    simpl. by rewrite mapGet_mapUpdate_ne.
  - unfold onSetupFunctionEnter. simpl. by rewrite mapGet_mapUpdate_ne.
  - unfold onRenderFunctionEnter.
    destruct (functional vd); simpl;
      rewrite ?mapGet_mapUpdate_ne by done; done.
  - unfold onThisOrIdentifier. destruct (negb isThis); [done|].
    simpl. by rewrite mapGet_mapUpdate_ne.
Qed.

Lemma X14_visits_witness :
  mapGet (vueComponentPropertiesContainerMap
            (scriptVisitor Examples.defaultContext
               (OnVueObjectEnter Examples.watchingDefinition)
               (runScript Examples.defaultContext
                  [OnVueObjectEnter
                     {| vo_node := 2;
                        vo_declared := [Examples.fooInput] |}]
                  initialState))) 2
  = mapGet (vueComponentPropertiesContainerMap
              (runScript Examples.defaultContext
                 [OnVueObjectEnter
                    {| vo_node := 2; vo_declared := [Examples.fooInput] |}]
                 initialState)) 2.
Proof.
  refine (proj1 (X14_visits_touch_their_own_container_only
                   Examples.defaultContext
                   (OnVueObjectEnter Examples.watchingDefinition) _ 2 _)).
  simpl. lia.
Defined.

Lemma containerExtends_refl c : containerExtends c c.
Proof. by repeat split. Qed.

Lemma containerExtends_trans c1 c2 c3 :
  containerExtends c1 c2 → containerExtends c2 c3 → containerExtends c1 c3.
Proof.
  intros (H1 & H2 & H3) (H1' & H2' & H3').
  repeat split; by etrans.
Qed.

Lemma withContainer_extends n f st k c :
  (∀ c0, containerExtends c0 (f c0)) →
  mapGet (vueComponentPropertiesContainerMap st) k = Some c →
  ∃ c', mapGet (vueComponentPropertiesContainerMap (withContainer n f st)) k
        = Some c'
        ∧ containerExtends c c'.
Proof.
  intros Hf Hk. simpl. destruct (decide (n = k)) as [->|Hne].
  - rewrite mapGet_mapUpdate_eq, Hk. simpl. eexists. split; [done|].
    apply Hf.
  - rewrite mapGet_mapUpdate_ne by done. exists c. split; [done|].
    apply containerExtends_refl.
Qed.

Lemma addProperties_extends ps c : containerExtends c (addProperties ps c).
Proof. repeat split; simpl; try done. by apply prefix_app_r. Qed.

Lemma addPropertyReferences_extends rs c :
  containerExtends c (addPropertyReferences rs c).
Proof. repeat split; simpl; try done. by apply prefix_app_r. Qed.

Lemma addPropertyReferencesForProps_extends rs c :
  containerExtends c (addPropertyReferencesForProps rs c).
Proof. repeat split; simpl; try done. by apply prefix_app_r. Qed.

Lemma scriptVisitor_extends context ev st k c :
  mapGet (vueComponentPropertiesContainerMap st) k = Some c →
  ∃ c', mapGet (vueComponentPropertiesContainerMap
                  (scriptVisitor context ev st)) k = Some c'
        ∧ containerExtends c c'.
Proof.
  intros Hk.
  assert (Hsame : ∃ c', mapGet (vueComponentPropertiesContainerMap st) k
                        = Some c' ∧ containerExtends c c')
    by (exists c; split; [done|apply containerExtends_refl]).
  destruct ev as [n ps|n|params link vd|params vd|params vd
                 |isThis site vd]; simpl.
  - unfold onDefinePropsEnter.
    destruct (negb (groups_has context props)); [done|].
    destruct (withContainer_extends (dp_node n)
                (addProperties (definedProperties ps)) st k c)
      as (c1 & Hc1 & Hext1); [apply addProperties_extends|done|].
    destruct (match dp_parent n with
              | Some (ParentCall true (Some "withDefaults") outer) => outer
              | other => other
              end) as [[| [] pattern |]|]; try by exists c1.
    destruct (withContainer_extends (dp_node n)
                (addPropertyReferencesForProps [extractFromPattern pattern])
                (withContainer (dp_node n)
                   (addProperties (definedProperties ps)) st) k c1)
      as (c2 & Hc2 & Hext2);
      [apply addPropertyReferencesForProps_extends|done|].
    exists c2. split; [done|]. by apply (containerExtends_trans _ c1).
  - unfold onVueObjectEnter. apply withContainer_extends; [|done].
    intros c0. eapply containerExtends_trans;
      [apply addPropertyReferences_extends|apply addProperties_extends].
  - unfold onFunctionWithParams.
    destruct (takesComponentAsParameter link vd); [|done].
    apply withContainer_extends; [|done].
    apply addPropertyReferences_extends.
  - unfold onSetupFunctionEnter. apply withContainer_extends; [|done].
    apply addPropertyReferencesForProps_extends.
  - unfold onRenderFunctionEnter.
    destruct (withContainer_extends (vd_node vd)
                (addPropertyReferencesForProps
                   [extractFromFunctionParam params 0]) st k c)
      as (c1 & Hc1 & Hext1);
      [apply addPropertyReferencesForProps_extends|done|].
    destruct (functional vd); [|by exists c1].
    destruct (withContainer_extends (vd_node vd)
                (addPropertyReferencesForProps
                   [getNest (extractFromFunctionParam params 1) "props"])
                (withContainer (vd_node vd)
                   (addPropertyReferencesForProps
                      [extractFromFunctionParam params 0]) st) k c1)
      as (c2 & Hc2 & Hext2);
      [apply addPropertyReferencesForProps_extends|done|].
    exists c2. split; [done|]. by apply (containerExtends_trans _ c1).
  - unfold onThisOrIdentifier. destruct (negb isThis); [done|].
    apply withContainer_extends; [|done].
    apply addPropertyReferences_extends.
Qed.

(** X15.  The script visits only ever add: once a definition has a
    container, it keeps one through every later visit, and the members
    and reference sets collected so far stay in it, in the same order,
    as a prefix of what it holds later.  Nothing collected is dropped,
    replaced or reordered. *)
Theorem X15_containers_only_grow
        (context : RuleContext) (events : list ScriptEvent)
        (st : RuleState) (k : ASTNode)
        (c : VueComponentPropertiesContainer) :
  mapGet (vueComponentPropertiesContainerMap st) k = Some c →
  ∃ c',
    mapGet (vueComponentPropertiesContainerMap
              (runScript context events st)) k = Some c'
    ∧ containerExtends c c'.
Proof.
  revert st c. induction events as [|ev events IH]; intros st c Hk.
  - exists c. split; [done|]. apply containerExtends_refl.
  - destruct (scriptVisitor_extends context ev st k c Hk)
      as (c1 & Hc1 & Hext1).
    destruct (IH _ _ Hc1) as (c2 & Hc2 & Hext2).
    exists c2. split; [done|]. by apply (containerExtends_trans _ c1).
Qed.

Lemma X15_containers_witness :
  ∃ c',
    mapGet (vueComponentPropertiesContainerMap
              (runScript Examples.defaultContext
                 [OnSetupFunctionEnter
                    [PatObject [PatProperty (Some "size")
                                  (PatIdentifier "size")]]
                    (Examples.component 1)]
                 (runScript Examples.defaultContext
                    [OnVueObjectEnter
                       {| vo_node := 1;
                          vo_declared := [Examples.sizeMember] |}]
                    initialState))) 1 = Some c'
    ∧ containerExtends
        {| properties := [Examples.sizeMember]; propertyReferences := [];
           propertyReferencesForProps := [] |} c'.
Proof.
  apply (X15_containers_only_grow Examples.defaultContext).
  reflexivity.
Defined.

(* ===================================================================== *)
(** * Without deep checking *)
(* ===================================================================== *)

Lemma reportProperty_shallow context fuel template general inputs q :
  deepData context = false →
  reportProperty context fuel template general inputs q = Some []
  ∨ (reportProperty context fuel template general inputs q
     = Some [memberReport q]
     ∧ hasProperty general (name q) false = false).
Proof.
  intros Hshallow.
  destruct (reportProperty_outcome context fuel template general inputs q)
    as [H|[(H & Hgeneral & _)|(p & _ & _ & Hdeep & _)]].
  - by left.
  - by right.
  - congruence.
Qed.

Lemma concatM_sublist {A} (f g : A → option (list Report))
      (h : A → list Report) l :
  (∀ x, x ∈ l →
        ∃ a b, f x = Some a ∧ g x = Some b
               ∧ a `sublist_of` b ∧ b `sublist_of` h x) →
  ∃ a b, concatM f l = Some a ∧ concatM g l = Some b
         ∧ a `sublist_of` b ∧ b `sublist_of` concat (h <$> l).
Proof.
  induction l as [|x l IH]; intros H; simpl.
  - exists [], []. done.
  - destruct (H x) as (a & b & -> & -> & Hab & Hb); [by left|].
    destruct IH as (a' & b' & -> & -> & Hab' & Hb').
    { intros y Hy. apply H. by right. }
    exists (a ++ a'), (b ++ b'). repeat split; by apply sublist_app.
Qed.

Lemma concat_singletons {A B} (h : A → B) (l : list A) :
  concat ((λ x, [h x]) <$> l) = h <$> l.
Proof. induction l as [|x l IH]; [done|]. simpl. by f_equal. Qed.

Lemma concat_fmap_fmap {A B C} (h : B → C) (k : A → list B) (l : list A) :
  concat ((λ x, h <$> k x) <$> l) = h <$> concat (k <$> l).
Proof.
  induction l as [|x l IH]; [done|]. simpl. rewrite fmap_app. by f_equal.
Qed.

(** X16.  Without deep checking the pass needs no nested call and its
    findings are a subsequence of the collected members' own findings:
    at most one finding per declared member, each the one that names
    its member, in the order of the containers and of the declarations
    within them. *)
Theorem X16_shallow_findings_follow_the_declarations
        (context : RuleContext) (fuel : nat) (st : RuleState) :
  deepData context = false →
  ∃ found,
    unusedProperties context fuel st = Some found
    ∧ found `sublist_of` (memberReport <$> declaredMembers st).
Proof.
  intros Hshallow. unfold unusedProperties, declaredMembers.
  destruct (concatM_sublist
              (λ entry : ASTNode * VueComponentPropertiesContainer,
                 reportContainer context fuel
                   (templatePropertiesContainer st) entry.2)
              (λ entry : ASTNode * VueComponentPropertiesContainer,
                 reportContainer context fuel
                   (templatePropertiesContainer st) entry.2)
              (λ entry : ASTNode * VueComponentPropertiesContainer,
                 memberReport <$> properties entry.2)
              (vueComponentPropertiesContainerMap st))
    as (a & b & Ha & Hb & _ & Hsub).
  { intros [n c] _. simpl. unfold reportContainer.
    destruct (concatM_sublist
                (reportProperty context fuel (templatePropertiesContainer st)
                   (mergePropertyReferences
                      (propertyReferences c
                       ++ tpl_propertyReferences
                            (templatePropertiesContainer st)))
                   (mergePropertyReferences (propertyReferencesForProps c)))
                (reportProperty context fuel (templatePropertiesContainer st)
                   (mergePropertyReferences
                      (propertyReferences c
                       ++ tpl_propertyReferences
                            (templatePropertiesContainer st)))
                   (mergePropertyReferences (propertyReferencesForProps c)))
                (λ q, [memberReport q]) (properties c))
      as (a & b & Ha & Hb & _ & Hsub).
    { intros q _.
      destruct (reportProperty_shallow context fuel
                  (templatePropertiesContainer st)
                  (mergePropertyReferences
                     (propertyReferences c
                      ++ tpl_propertyReferences
                           (templatePropertiesContainer st)))
                  (mergePropertyReferences (propertyReferencesForProps c))
                  q Hshallow) as [->|[-> _]].
      - exists [], []. repeat split; try done; apply sublist_nil_l.
      - exists [memberReport q], [memberReport q]. done. }
    exists b, b. rewrite Hb. repeat split; try done.
    by rewrite concat_singletons in Hsub. }
  exists b. rewrite Hb. split; [done|].
  by rewrite (concat_fmap_fmap memberReport
                (λ entry : ASTNode * VueComponentPropertiesContainer,
                   properties entry.2)) in Hsub.
Qed.

Lemma X16_shallow_findings_witness :
  ∃ found,
    unusedProperties Examples.defaultContext 0
      (runScript Examples.defaultContext
         (script Examples.twoDefinitionsFile) initialState) = Some found
    ∧ found `sublist_of`
        (memberReport <$>
           declaredMembers
             (runScript Examples.defaultContext
                (script Examples.twoDefinitionsFile) initialState)).
Proof.
  apply (X16_shallow_findings_follow_the_declarations
           Examples.defaultContext 0).
  reflexivity.
Defined.

Lemma hasProperty_merge_more (l extra : list IPropertyReferences) n o :
  hasProperty (mergePropertyReferences l) n o = true →
  hasProperty (mergePropertyReferences (l ++ extra)) n o = true.
Proof.
  rewrite !hasProperty_merge, existsb_app. intros ->. done.
Qed.

Lemma reportProperty_more_references
      context fuel template general general' inputs q :
  deepData context = false →
  (hasProperty general (name q) false = true →
   hasProperty general' (name q) false = true) →
  ∃ a b,
    reportProperty context fuel template general' inputs q = Some a
    ∧ reportProperty context fuel template general inputs q = Some b
    ∧ a `sublist_of` b ∧ b `sublist_of` [memberReport q].
Proof.
  intros Hshallow Hmore. unfold reportProperty. rewrite Hshallow. simpl.
  destruct (_ && hasProperty inputs _ _);
    [exists [], []; repeat split; try done; apply sublist_nil_l|].
  destruct (_ && bool_decide (name q ∈ _));
    [exists [], []; repeat split; try done; apply sublist_nil_l|].
  destruct (_ && isPublicMember _ _);
    [exists [], []; repeat split; try done; apply sublist_nil_l|].
  destruct (hasProperty general (name q) false) eqn:Hg.
  - rewrite Hmore by done.
    exists [], []. destruct (type q); repeat split; try done;
      apply sublist_nil_l.
  - destruct (hasProperty general' (name q) false).
    + exists [], [memberReport q].
      destruct (type q); repeat split; try done; apply sublist_nil_l.
    + exists [memberReport q], [memberReport q]. done.
Qed.

(** X17.  Without deep checking, one more template expression can only
    remove findings: the findings of the pass after the visit of an
    expression container are a subsequence of the findings before it. *)
Theorem X17_more_references_never_add_findings
        (context : RuleContext) (fuel : nat) (st : RuleState)
        (sites : list AccessSite) :
  deepData context = false →
  ∃ before after,
    unusedProperties context fuel st = Some before
    ∧ unusedProperties context fuel
        (accumulateTemplate (OnVExpressionContainer sites) st) = Some after
    ∧ templateVisitor context fuel (OnVExpressionContainer sites) st
      = Some (accumulateTemplate (OnVExpressionContainer sites) st)
    ∧ after `sublist_of` before.
Proof.
  intros Hshallow. unfold unusedProperties. simpl.
  destruct (concatM_sublist
              (λ entry : ASTNode * VueComponentPropertiesContainer,
                 reportContainer context fuel
                   (addTemplateReferences [extractFromSites sites]
                      (templatePropertiesContainer st)) entry.2)
              (λ entry : ASTNode * VueComponentPropertiesContainer,
                 reportContainer context fuel
                   (templatePropertiesContainer st) entry.2)
              (λ entry : ASTNode * VueComponentPropertiesContainer,
                 memberReport <$> properties entry.2)
              (vueComponentPropertiesContainerMap st))
    as (a & b & Ha & Hb & Hab & _).
  { intros [n c] _. simpl. unfold reportContainer. simpl.
    destruct (concatM_sublist
                (reportProperty context fuel
                   (addTemplateReferences [extractFromSites sites]
                      (templatePropertiesContainer st))
                   (mergePropertyReferences
                      (propertyReferences c
                       ++ tpl_propertyReferences
                            (templatePropertiesContainer st)
                       ++ [extractFromSites sites]))
                   (mergePropertyReferences (propertyReferencesForProps c)))
                (reportProperty context fuel (templatePropertiesContainer st)
                   (mergePropertyReferences
                      (propertyReferences c
                       ++ tpl_propertyReferences
                            (templatePropertiesContainer st)))
                   (mergePropertyReferences (propertyReferencesForProps c)))
                (λ q, [memberReport q]) (properties c))
      as (a & b & Ha & Hb & Hab & Hsub).
    { intros q _.
      apply (reportProperty_more_references context fuel
               (templatePropertiesContainer st)); [done|].
      rewrite app_assoc. apply hasProperty_merge_more. }
    exists a, b. repeat split; try done.
    by rewrite concat_singletons in Hsub. }
  exists b, a. done.
Qed.

Lemma X17_more_references_witness :
  ∃ before after,
    unusedProperties Examples.defaultContext 0
      (runScript Examples.defaultContext
         (script Examples.twoDefinitionsFile) initialState) = Some before
    ∧ unusedProperties Examples.defaultContext 0
        (accumulateTemplate
           (OnVExpressionContainer [LiteralAccess ["foo"] false])
           (runScript Examples.defaultContext
              (script Examples.twoDefinitionsFile) initialState))
      = Some after
    ∧ templateVisitor Examples.defaultContext 0
        (OnVExpressionContainer [LiteralAccess ["foo"] false])
        (runScript Examples.defaultContext
           (script Examples.twoDefinitionsFile) initialState)
      = Some (accumulateTemplate
                (OnVExpressionContainer [LiteralAccess ["foo"] false])
                (runScript Examples.defaultContext
                   (script Examples.twoDefinitionsFile) initialState))
    ∧ after `sublist_of` before.
Proof.
  apply (X17_more_references_never_add_findings Examples.defaultContext 0).
  reflexivity.
Defined.

(** X18.  A name that any one of the applicable reference sets covers
    is never reported: when some set of the definition's own list or of
    the template's list has the member's name, no finding of that
    member's pass carries the member's name, whatever its group and
    whatever the other sets hold.  (With deep checking the pass may
    still report sub-entries, under longer names.) *)
Theorem X18_one_covering_set_is_enough
        (context : RuleContext) (fuel : nat)
        (template : TemplatePropertiesContainer)
        (container : VueComponentPropertiesContainer)
        (inputs covering : IPropertyReferences)
        (q : ComponentPropertyData) (found : list Report) :
  covering ∈ propertyReferences container ++ tpl_propertyReferences template →
  hasProperty covering (name q) false = true →
  reportProperty context fuel template
    (mergePropertyReferences
       (propertyReferences container ++ tpl_propertyReferences template))
    inputs q = Some found →
  Forall (λ r, report_name r ≠ name q) found.
Proof.
  intros Hin Hcovering Hfound.
  pose proof (hasProperty_merge_elem _ _ _ _ Hin Hcovering) as Hgeneral.
  apply reportProperty_describes in Hfound.
  eapply Forall_impl; [exact Hfound|]. simpl.
  intros r (_ & [(_ & Hno & _)|(_ & _ & _ & rest & Hname)]) Heq.
  - congruence.
  - rewrite Heq in Hname. apply (f_equal String.length) in Hname.
    rewrite !length_append in Hname. simpl in Hname. lia.
Qed.

Lemma X18_one_covering_set_witness :
  Forall (λ r, report_name r ≠ "profile")
    [unusedReport 22 "data" "profile.age"].
Proof.
  refine (X18_one_covering_set_is_enough Examples.deepContext 2
            {| tpl_propertyReferences :=
                 [fromPath ["profile"; "name"] false];
               refNames := ∅ |}
            emptyContainer never (fromPath ["profile"; "name"] false)
            Examples.profileMember _ _ _ _).
  - by left.
  - reflexivity.
  - vm_compute. reflexivity.
Defined.

(** X19.  The deep check looks through [const] only: when the value of
    a [data] entry is a bare name that is not a local constant with a
    single definition and an initializer ([let], [var], a parameter, an
    import, a name with several definitions or none), the check of that
    value returns no finding and descends nowhere, whatever the
    reference sets hold. *)
Theorem X19_deep_check_looks_through_const_only
        (context : RuleContext) (fuel : nat) (segments : list string)
        (id : Ident) (references : IPropertyReferences) :
  (∀ init, ¬ ConstAlias context id init) →
  verifyDataOptionDeepProperties context (S (S fuel)) segments
    (Identifier id) references = Some [].
Proof.
  intros Hno.
  change (verifyDataOptionDeepProperties context (S (S fuel)) segments
            (Identifier id) references)
    with (match findExpression (S fuel) context id with
          | None => None
          | Some (ObjectExpression members) =>
              concatM (verifyMember context (S fuel) segments references)
                members
          | Some _ => Some []
          end).
  by rewrite findExpression_name.
Qed.

Lemma X19_deep_check_witness :
  verifyDataOptionDeepProperties MoreExamples.mixedContext 2 ["foo"]
    (Identifier (Examples.ident 51 "b")) never = Some [].
Proof.
  apply (X19_deep_check_looks_through_const_only MoreExamples.mixedContext
           0 ["foo"] (Examples.ident 51 "b") never).
  intros init (variable & def & Hv & Hd & Ht & Hk & Hi).
  vm_compute in Hv. injection Hv as <-.
  simpl in Hd. injection Hd as <-. discriminate Hk.
Defined.

(* ===================================================================== *)
(** * The macro rules: what a traversal reports *)
(* ===================================================================== *)

Module ValidDefineFacts.
Import ValidDefine.

Section Facts.

Variable inRange : Range → Range → bool.
Variable optionName : string.
Variable scriptSetup : Range.

Local Abbreviation visitAll' := (visitAll inRange optionName scriptSetup).
Local Abbreviation visit' := (visit inRange optionName scriptSetup).

Lemma visitAll_snoc events ev st :
  visitAll' (events ++ [ev]) st = visit' ev (visitAll' events st).
Proof. unfold visitAll. by rewrite foldl_app. Qed.

Lemma calls_snoc events ev :
  calls (events ++ [ev])
  = calls events ++ match ev with DefineEnter call => [call] | _ => [] end.
Proof.
  unfold calls. rewrite omap_app. simpl. by destruct ev.
Qed.

Lemma visitAll_defineNodes events :
  defineNodes (visitAll' events initialMacroState) = calls events.
Proof.
  induction events as [|ev events IH] using rev_ind; [done|].
  rewrite visitAll_snoc, calls_snoc.
  destruct ev as [call|id|object]; simpl.
  - unfold onDefineEnter.
    destruct (call_arguments call); [by rewrite IH|].
    destruct (hasTypeParameters call); simpl; by rewrite IH.
  - by rewrite IH, app_nil_r.
  - unfold onVueObjectEnter. rewrite app_nil_r.
    by destruct (_ || _).
Qed.

Lemma visitAll_hasDefaultExport events :
  hasDefaultExport (visitAll' events initialMacroState)
  = defaultExportHasOption inRange optionName scriptSetup events.
Proof.
  induction events as [|ev events IH] using rev_ind; [done|].
  rewrite visitAll_snoc. unfold defaultExportHasOption.
  rewrite foldl_app. simpl.
  destruct ev as [call|id|object]; simpl.
  - unfold onDefineEnter.
    destruct (call_arguments call); [done|].
    by destruct (hasTypeParameters call).
  - done.
  - unfold onVueObjectEnter. by destruct (_ || _).
Qed.

(** The last empty call of a traversal is the one remembered. *)
Lemma visitAll_emptyDefine events :
  emptyDefine (visitAll' events initialMacroState)
  = last (filter (λ call, isEmptyCall call = true) (calls events)).
Proof.
  induction events as [|ev events IH] using rev_ind; [done|].
  rewrite visitAll_snoc, calls_snoc, filter_app.
  destruct ev as [call|id|object]; simpl.
  - unfold onDefineEnter. rewrite filter_cons, filter_nil.
    destruct (decide (isEmptyCall call = true)) as [He|He];
      unfold isEmptyCall in He;
      destruct (call_arguments call) as [|first more];
      destruct (hasTypeParameters call); simpl in He |- *;
      try done; rewrite ?app_nil_r, ?last_snoc; done.
  - by rewrite filter_nil, app_nil_r.
  - rewrite filter_nil, app_nil_r. unfold onVueObjectEnter.
    by destruct (_ || _).
Qed.

(** The visits report [hasTypeAndArg] and [referencingLocally] only. *)
Lemma visitAll_reports_no_exit_message events :
  filter (λ r, isExitMessage (mr_messageId r) = true)
         (macro_reports (visitAll' events initialMacroState)) = [].
Proof.
  induction events as [|ev events IH] using rev_ind; [done|].
  rewrite visitAll_snoc.
  destruct ev as [call|id|object]; simpl.
  - unfold onDefineEnter.
    destruct (call_arguments call); [done|].
    destruct (hasTypeParameters call); simpl; [|done].
    by rewrite filter_app, IH.
  - rewrite filter_app, IH. simpl.
    induction (filter _ (defExpressions _)) as [|e l IHl]; [done|].
    simpl. rewrite filter_cons. by rewrite decide_False.
  - unfold onVueObjectEnter. by destruct (_ || _).
Qed.

Lemma exitFindings_all_exit_messages st :
  filter (λ r, isExitMessage (mr_messageId r) = true)
         (exitFindings st)
  = exitFindings st.
Proof.
  assert (Hmap : ∀ (m : MessageId) (l : list MacroCall),
             isExitMessage m = true →
             filter (λ r, isExitMessage (mr_messageId r) = true)
                    ((λ call, report (call_node call) m) <$> l)
             = (λ call, report (call_node call) m) <$> l).
  { intros m l Hm. induction l as [|c l IH]; [done|].
    rewrite fmap_cons, filter_cons, decide_True by done. by f_equal. }
  unfold exitFindings.
  destruct (defineNodes st) as [|c [|c' l]]; [done| |by apply Hmap].
  destruct (emptyDefine st) as [empty|].
  - by destruct (negb (hasDefaultExport st)).
  - destruct (hasDefaultExport st); [|done]. by apply Hmap.
Qed.

Lemma exit_findings_of_run events :
  filter (λ r, isExitMessage (mr_messageId r) = true)
         (findings inRange optionName scriptSetup events)
  = exitFindings (visitAll' events initialMacroState).
Proof.
  unfold findings. rewrite filter_app.
  by rewrite visitAll_reports_no_exit_message, exitFindings_all_exit_messages.
Qed.

Lemma no_call_no_state events :
  calls events = [] →
  defExpressions (visitAll' events initialMacroState) = []
  ∧ macro_reports (visitAll' events initialMacroState) = [].
Proof.
  induction events as [|ev events IH] using rev_ind; [done|].
  rewrite calls_snoc, visitAll_snoc. intros Hcalls.
  apply app_eq_nil in Hcalls as [Hcalls Hev].
  destruct (IH Hcalls) as [Hd Hr].
  destruct ev as [call|id|object]; [done| |]; simpl.
  - by rewrite Hd, Hr.
  - unfold onVueObjectEnter. by destruct (_ || _).
Qed.

(** X20.  A file that never calls the macro gets no finding from the
    rule, whatever identifiers and component definitions it contains;
    and without a script setup element the rule reports nothing at
    all. *)
Theorem X20_no_macro_call_no_finding (events : list MacroEvent) :
  runRule inRange optionName None events = []
  ∧ (calls events = [] →
     runRule inRange optionName (Some scriptSetup) events = []).
Proof.
  split; [done|]. intros Hcalls. simpl. unfold findings.
  destruct (no_call_no_state events Hcalls) as [_ ->].
  unfold exitFindings. by rewrite visitAll_defineNodes, Hcalls.
Qed.

(** X21.  When the macro is called more than once, [Program:exit]
    reports [multiple] on every call, in the order of the calls, and
    neither [notDefined] nor [definedInBoth], whatever the calls look
    like and whether or not there is a default export. *)
Theorem X21_multiple_calls_are_each_reported (events : list MacroEvent) :
  (2 ≤ length (calls events))%nat →
  filter (λ r, isExitMessage (mr_messageId r) = true)
         (runRule inRange optionName (Some scriptSetup) events)
  = (λ call, report (call_node call) multiple) <$> calls events.
Proof.
  intros Hmany. simpl. rewrite exit_findings_of_run.
  unfold exitFindings. rewrite visitAll_defineNodes.
  destruct (calls events) as [|c [|c' l]]; simpl in Hmany; try lia.
  done.
Qed.

(** X22.  When the macro is called exactly once, [Program:exit] reports
    at most one finding, on that call: [notDefined] when the call has
    neither an argument nor type parameters and the last default export
    outside the script setup has not the option; [definedInBoth] when
    the call has an argument or type parameters and that default export
    has the option; nothing otherwise. *)
Theorem X22_single_call_is_classified
        (events : list MacroEvent) (call : MacroCall) :
  calls events = [call] →
  filter (λ r, isExitMessage (mr_messageId r) = true)
         (runRule inRange optionName (Some scriptSetup) events)
  = if isEmptyCall call then
      if defaultExportHasOption inRange optionName scriptSetup events
      then []
      else [report (call_node call) notDefined]
    else
      if defaultExportHasOption inRange optionName scriptSetup events
      then [report (call_node call) definedInBoth]
      else [].
Proof.
  intros Hcalls. simpl. rewrite exit_findings_of_run.
  unfold exitFindings.
  rewrite visitAll_defineNodes, visitAll_emptyDefine,
    visitAll_hasDefaultExport, Hcalls.
  rewrite filter_cons, filter_nil.
  destruct (isEmptyCall call); simpl;
    by destruct (defaultExportHasOption _ _ _ _).
Qed.

Lemma exitFindings_not m st :
  isExitMessage m = false →
  filter (λ r, mr_messageId r = m) (exitFindings st) = [].
Proof.
  intros Hm.
  assert (Hmap : ∀ (m' : MessageId) (l : list MacroCall),
             isExitMessage m' = true →
             filter (λ r, mr_messageId r = m)
                    ((λ call, report (call_node call) m') <$> l) = []).
  { intros m' l Hm'. induction l as [|c l IH]; [done|].
    rewrite fmap_cons, filter_cons, decide_False; [done|].
    simpl. intros ->. congruence. }
  unfold exitFindings.
  destruct (defineNodes st) as [|c [|c' l]]; [done| |by apply Hmap].
  destruct (emptyDefine st) as [empty|].
  - destruct (negb (hasDefaultExport st)); [|done].
    rewrite filter_cons, decide_False; [done|].
    simpl. intros <-. done.
  - destruct (hasDefaultExport st); [|done]. by apply Hmap.
Qed.

(** X23.  The [hasTypeAndArg] findings of a traversal are exactly the
    calls that have both an argument and type parameters, one finding
    on each, in the order of the calls. *)
Theorem X23_type_and_argument_calls_are_reported
        (events : list MacroEvent) :
  filter (λ r, mr_messageId r = hasTypeAndArg)
         (runRule inRange optionName (Some scriptSetup) events)
  = (λ call, report (call_node call) hasTypeAndArg)
    <$> filter (λ call, hasTypeAndArgument call = true) (calls events).
Proof.
  simpl. unfold findings.
  rewrite filter_app, exitFindings_not, app_nil_r by done.
  induction events as [|ev events IH] using rev_ind; [done|].
  rewrite visitAll_snoc, calls_snoc, filter_app, fmap_app.
  destruct ev as [call|id|object]; simpl.
  - unfold onDefineEnter. rewrite filter_cons, filter_nil.
    destruct (decide (hasTypeAndArgument call = true)) as [Hb|Hb];
      unfold hasTypeAndArgument in Hb;
      destruct (call_arguments call) as [|first more];
      destruct (hasTypeParameters call); simpl in Hb |- *;
      try done; rewrite ?filter_app, ?IH, ?app_nil_r; done.
  - rewrite filter_app, IH, !app_nil_r.
    assert (Hnone : ∀ l : list (ASTNode * Range),
               filter (λ r, mr_messageId r = hasTypeAndArg)
                      ((λ _, report (id_node id) referencingLocally) <$> l)
               = []).
    { induction l as [|e l IHl]; [done|].
      rewrite fmap_cons, filter_cons, decide_False; done. }
    by rewrite Hnone, app_nil_r.
  - rewrite app_nil_r. unfold onVueObjectEnter.
    by destruct (_ || _).
Qed.

Lemma setAdd_elem e s x : x ∈ setAdd e s → x ∈ s ∨ x = e.
Proof.
  unfold setAdd. destruct (bool_decide _); [by left|].
  rewrite elem_of_app, list_elem_of_singleton. tauto.
Qed.

(** Every recorded argument is the first argument of a call of the
    traversal that has no type parameters, and every
    [referencingLocally] finding of the visits comes from an identifier
    of the traversal that passed the test for such an argument. *)
Lemma visitAll_referencing events :
  (∀ e, e ∈ defExpressions (visitAll' events initialMacroState) →
        ∃ call more,
          DefineEnter call ∈ events
          ∧ call_arguments call = e :: more
          ∧ hasTypeParameters call = false)
  ∧ (∀ r, r ∈ macro_reports (visitAll' events initialMacroState) →
          mr_messageId r = referencingLocally →
          ∃ id call first more,
            IdentifierVisit id ∈ events
            ∧ DefineEnter call ∈ events
            ∧ mr_node r = id_node id
            ∧ call_arguments call = first :: more
            ∧ hasTypeParameters call = false
            ∧ referencesLocally inRange scriptSetup id first = true).
Proof.
  induction events as [|ev events [IHd IHr]] using rev_ind.
  - split; intros x Hx; by apply elem_of_nil in Hx.
  - rewrite visitAll_snoc.
    assert (Hd' : ∀ e,
               e ∈ defExpressions (visitAll' events initialMacroState) →
               ∃ call more,
                 DefineEnter call ∈ events ++ [ev]
                 ∧ call_arguments call = e :: more
                 ∧ hasTypeParameters call = false).
    { intros e He. destruct (IHd e He) as (call & more & Hin & Hargs & Ht).
      exists call, more. split; [|done]. apply elem_of_app. by left. }
    assert (Hr' : ∀ r,
               r ∈ macro_reports (visitAll' events initialMacroState) →
               mr_messageId r = referencingLocally →
               ∃ id call first more,
                 IdentifierVisit id ∈ events ++ [ev]
                 ∧ DefineEnter call ∈ events ++ [ev]
                 ∧ mr_node r = id_node id
                 ∧ call_arguments call = first :: more
                 ∧ hasTypeParameters call = false
                 ∧ referencesLocally inRange scriptSetup id first = true).
    { intros r Hr Hm.
      destruct (IHr r Hr Hm)
        as (id & call & first & more & Hid & Hcall & Hrest).
      exists id, call, first, more.
      split; [apply elem_of_app; by left|].
      split; [apply elem_of_app; by left|done]. }
    destruct ev as [call|id|object]; simpl.
    + unfold onDefineEnter.
      destruct (call_arguments call) as [|first more] eqn:Hargs;
        [by split|].
      destruct (hasTypeParameters call) eqn:Ht; simpl.
      * split; [done|]. intros r Hr Hm.
        apply elem_of_app in Hr as [Hr|Hr]; [by apply Hr'|].
        apply list_elem_of_singleton in Hr as ->. done.
      * split; [|done]. intros e He.
        apply setAdd_elem in He as [He| ->]; [by apply Hd'|].
        exists call, more. split; [|done].
        apply elem_of_app. right. by apply list_elem_of_singleton.
    + split; [done|]. intros r Hr Hm.
      apply elem_of_app in Hr as [Hr|Hr]; [by apply Hr'|].
      apply list_elem_of_fmap in Hr as (e & -> & He).
      apply list_elem_of_filter in He as [Htest He].
      destruct (Hd' e He) as (call & more & Hcall & Hargs & Ht).
      exists id, call, e, more. split; [|done].
      apply elem_of_app. right. by apply list_elem_of_singleton.
    + unfold onVueObjectEnter. destruct (_ || _); by split.
Qed.

(** X24.  A [referencingLocally] finding is always on an identifier of
    the traversal that lies inside the first argument of a macro call
    without type parameters, that is one of the references of its
    variable, and whose variable has at least one definition, all of
    them inside the script setup element and outside that argument.
    Identifiers of unresolved variables, and identifiers outside every
    recorded argument, are never reported. *)
Theorem X24_referencingLocally_is_sound
        (events : list MacroEvent) (r : MacroReport) :
  r ∈ runRule inRange optionName (Some scriptSetup) events →
  mr_messageId r = referencingLocally →
  ∃ id variable call first more,
    IdentifierVisit id ∈ events
    ∧ DefineEnter call ∈ events
    ∧ mr_node r = id_node id
    ∧ call_arguments call = first :: more
    ∧ hasTypeParameters call = false
    ∧ inRange first.2 (id_range id) = true
    ∧ id_variable id = Some variable
    ∧ id_node id ∈ var_references variable
    ∧ var_defs variable ≠ []
    ∧ Forall (λ def, inRange scriptSetup def = true
                     ∧ inRange first.2 def = false) (var_defs variable).
Proof.
  simpl. unfold findings. intros Hr Hm.
  apply elem_of_app in Hr as [Hr|Hr].
  - destruct (proj2 (visitAll_referencing events) r Hr Hm)
      as (id & call & first & more & Hid & Hcall & Hnode & Hargs & Ht
          & Htest).
    unfold referencesLocally in Htest.
    apply andb_true_iff in Htest as [Hin Htest].
    destruct (id_variable id) as [variable|] eqn:Hv; [|done].
    apply andb_true_iff in Htest as [Htest Hall].
    apply andb_true_iff in Htest as [Href Hdefs].
    apply bool_decide_eq_true in Href.
    apply negb_true_iff, bool_decide_eq_false in Hdefs.
    exists id, variable, call, first, more.
    repeat split; try done.
    apply Forall_forall. intros def Hdef.
    rewrite forallb_forall in Hall.
    specialize (Hall def (proj1 (list_elem_of_In _ _) Hdef)).
    apply andb_true_iff in Hall as [H1 H2].
    by apply negb_true_iff in H2.
  - exfalso.
    assert (Hnone : filter (λ r, mr_messageId r = referencingLocally)
                      (exitFindings (visitAll' events initialMacroState))
                    = []) by (by apply exitFindings_not).
    assert (Hin : r ∈ filter (λ r, mr_messageId r = referencingLocally)
                        (exitFindings (visitAll' events initialMacroState)))
      by (by apply list_elem_of_filter).
    rewrite Hnone in Hin. by apply elem_of_nil in Hin.
Qed.

End Facts.

Lemma X21_multiple_calls_witness :
  filter (λ r, isExitMessage (mr_messageId r) = true)
         (validDefineProps rangeHolds (Some (0, 100))
            [DefineEnter emptyCall; VueObjectEnter exportWithProps;
             DefineEnter argumentCall])
  = [report 1 multiple; report 2 multiple].
Proof.
  apply (X21_multiple_calls_are_each_reported rangeHolds "props" (0, 100)
           [DefineEnter emptyCall; VueObjectEnter exportWithProps;
            DefineEnter argumentCall]).
  simpl. lia.
Defined.

Lemma X22_single_call_witness :
  filter (λ r, isExitMessage (mr_messageId r) = true)
         (validDefineProps rangeHolds (Some (0, 100))
            [VueObjectEnter exportWithProps; DefineEnter argumentCall;
             IdentifierVisit localIdentifier])
  = [report 2 definedInBoth].
Proof.
  apply (X22_single_call_is_classified rangeHolds "props" (0, 100)
           [VueObjectEnter exportWithProps; DefineEnter argumentCall;
            IdentifierVisit localIdentifier] argumentCall).
  reflexivity.
Defined.

Lemma X24_referencingLocally_witness :
  ∃ id variable call first more,
    IdentifierVisit id
    ∈ [DefineEnter argumentCall; IdentifierVisit localIdentifier]
    ∧ DefineEnter call
      ∈ [DefineEnter argumentCall; IdentifierVisit localIdentifier]
    ∧ 7 = id_node id
    ∧ call_arguments call = first :: more
    ∧ hasTypeParameters call = false
    ∧ rangeHolds first.2 (id_range id) = true
    ∧ id_variable id = Some variable
    ∧ id_node id ∈ var_references variable
    ∧ var_defs variable ≠ []
    ∧ Forall (λ def, rangeHolds (0, 100) def = true
                     ∧ rangeHolds first.2 def = false) (var_defs variable).
Proof.
  apply (X24_referencingLocally_is_sound rangeHolds "props" (0, 100)
           [DefineEnter argumentCall; IdentifierVisit localIdentifier]
           (report 7 referencingLocally)).
  - vm_compute. by left.
  - reflexivity.
Defined.

End ValidDefineFacts.
